(** * MT5-Python-Trading: signal fusion, symbol selection, risk sizing and
      per-cycle reconciliation

    Shallow embedding of
      - [mt5_trading/domain/strategies/combined_strategy.py]
      - [mt5_trading/domain/volatility_analyzer.py]
      - [mt5_trading/domain/risk_manager.py]
      - [mt5_trading/domain/strategies/trend_breakout_strategy.py]
      - [mt5_trading/domain/strategies/smc_strategy.py] (fair value gaps)
      - [mt5_trading/domain/multi_symbol_manager.py]
      - [mt5_trading/robot/multi_symbol_robot.py]
      - [main_live.py] (symbol selection at start-up)

    Conventions.
      - Python [float] values are modelled twice.  The rational model ([Q],
        exact comparisons) carries the statements that do not depend on
        rounding: guards, call sequences, monotonicity.  The statements
        that depend on rounding, on overflow or on NaN (the position size
        and the paths on which it is 0.0, the sizer against the limit
        check, the ranking by score) are made over [Binary64], the
        binary64 arithmetic of the interpreter.  Indicator arithmetic that
        numpy and pandas carry out (means, standard deviation, sums of
        columns) is a parameter ([VolatilityAnalyzer.Indicators],
        [series_sum]) or kept exact where only its sign and its guards
        matter.
      - A call that can raise is modelled by [outcome]; a [try/except] is a
        [match] on it.  Float division raises [ZeroDivisionError] on a zero
        divisor ([py_div]); [round] raises on an infinity and on NaN.
      - The MetaTrader5 terminal is a record [MT5] of what its query
        functions return; per the MetaTrader5 package they report failure by
        returning [None], not by raising.
      - The configuration file is an untyped YAML document ([Yaml]). *)

From Stdlib Require Import PrimFloat SpecFloat FloatOps FloatAxioms.
From Stdlib Require Import String ZArith QArith Qround Qabs Qpower Bool List Lia Lqa.
From Stdlib Require Import Permutation Sorted.
Import ListNotations.
Open Scope string_scope.
Open Scope list_scope.
Open Scope Z_scope.
Open Scope Q_scope.
Set Warnings "-inexact-float".

(** ** Shared vocabulary *)

(** [mt5_trading.domain.signal.Signal] *)
Inductive Signal : Set := BUY | SELL | NONE.

Definition Signal_eqb (a b : Signal) : bool :=
  match a, b with
  | BUY, BUY | SELL, SELL | NONE, NONE => true
  | _, _ => false
  end.

(** Result of a call that either returns a value or raises. *)
Inductive outcome (A : Type) : Type :=
| Returned (a : A)
| Raised.
Arguments Returned {A} a.
Arguments Raised {A}.

Definition bind_outcome {A B} (c : outcome A) (k : A -> outcome B) : outcome B :=
  match c with
  | Returned a => k a
  | Raised => Raised
  end.

Declare Scope outcome_scope.
Delimit Scope outcome_scope with outcome.
Notation "x <- c ;; k" := (bind_outcome c (fun x => k))
  (at level 61, c at next level, right associativity) : outcome_scope.

(** Python list slice [l[:n]] for an [int] bound. *)
Definition slice_to {A} (l : list A) (n : Z) : list A :=
  if (n <? 0)%Z
  then firstn (Z.to_nat (Z.of_nat (length l) + n)) l
  else firstn (Z.to_nat n) l.

(** Python [sum(1 for s in signals if s == v)]. *)
Definition count_signal (v : Signal) (signals : list Signal) : nat :=
  length (filter (Signal_eqb v) signals).

(** [dict.get] on a dictionary kept as an association list in insertion
    order. *)
Fixpoint dict_get {V} (k : string) (d : list (string * V)) : option V :=
  match d with
  | [] => None
  | (k', v) :: d' => if String.eqb k k' then Some v else dict_get k d'
  end.

(** ** Python arithmetic on rationals *)

Definition Qltb (a b : Q) : bool := negb (Qle_bool b a).

(** [min(a, b)]: the first argument unless the second is strictly smaller. *)
Definition py_min (a b : Q) : Q := if Qltb b a then b else a.

(** [max(a, b)]: the first argument unless the second is strictly larger. *)
Definition py_max (a b : Q) : Q := if Qltb a b then b else a.

(** [a / b] on floats: [ZeroDivisionError] when [b == 0]. *)
Definition py_div (a b : Q) : outcome Q :=
  if Qeq_bool b 0 then Raised else Returned (a / b).

(** [round(x)] with one argument: nearest integer, ties to the even one. *)
Definition py_round (x : Q) : Z :=
  let f := Qfloor x in
  let r := x - inject_Z f in
  if Qltb r (1 # 2) then f
  else if Qltb (1 # 2) r then (f + 1)%Z
  else if Z.even f then f else (f + 1)%Z.

(** ** The MetaTrader5 terminal as the code queries it *)

Inductive OrderType : Set := ORDER_TYPE_BUY | ORDER_TYPE_SELL.

Record Bar := {
  bar_time : Z;
  bar_open : Q;
  bar_high : Q;
  bar_low : Q;
  bar_close : Q;
  bar_tick_volume : Z
}.

Record Tick := { bid : Q; ask : Q }.

Record AccountInfo := { balance : Q; equity : Q; margin : Q }.

Record SymbolInfo := {
  trade_tick_size : Q;
  trade_tick_value : Q;
  trade_contract_size : Q;
  digits : Z;
  volume_min : Q;
  volume_max : Q;
  volume_step : Q
}.

Record Position := {
  position_symbol : string;
  position_type : OrderType;
  position_volume : Q;
  position_profit : Q
}.

Record MT5 := {
  initialize : bool;
  login : bool;
  account_info : option AccountInfo;
  symbol_select : string -> bool;
  symbol_info : string -> option SymbolInfo;
  symbol_info_tick : string -> option Tick;
  positions_get : option (list Position);
  (** [copy_rates_from_pos(symbol, timeframe, 0, 1000)] *)
  copy_rates_from_pos : string -> Z -> option (list Bar)
}.

Definition TIMEFRAME_H1 : Z := 16385.

(** ** combined_strategy.py *)

Module CombinedStrategy.

(** [TradingData]: only [get_symbol] is used here. *)
Record TradingData := { get_symbol : string }.

(** A constituent strategy object: one call of its [signal()] method. *)
Record TradingStrategy := { strategy_signal : outcome (string * Signal) }.

(** The three constituent classes, applied to a data source. *)
Record Constituents := {
  CrossOverStrategy : TradingData -> TradingStrategy;
  SMCStrategy : TradingData -> TradingStrategy;
  TrendBreakoutStrategy : TradingData -> TradingStrategy
}.

Record t := {
  data : TradingData;
  require_all : bool;
  strategies : list (string * TradingStrategy)
}.

Definition str_in (s : string) (l : list string) : bool :=
  existsb (String.eqb s) l.

(** [CombinedStrategy.__init__] *)
Definition init (cls : Constituents) (trading_data : TradingData)
    (strategies_arg : option (list string)) (require_all_arg : bool) : t :=
  let names :=
    match strategies_arg with
    | None => ["crossover"; "smc"; "trend_breakout"]
    | Some l => l
    end in
  let d0 := [] in
  let d1 := if str_in "crossover" names
            then d0 ++ [("crossover", CrossOverStrategy cls trading_data)] else d0 in
  let d2 := if str_in "smc" names
            then d1 ++ [("smc", SMCStrategy cls trading_data)] else d1 in
  let d3 := if str_in "trend_breakout" names
            then d2 ++ [("trend_breakout", TrendBreakoutStrategy cls trading_data)] else d2 in
  {| data := trading_data; require_all := require_all_arg; strategies := d3 |}.

(** The loop over [self.strategies.items()]: a constituent that raises is
    skipped. *)
Fixpoint collect_signals (items : list (string * TradingStrategy)) : list Signal :=
  match items with
  | [] => []
  | (_, strategy) :: rest =>
      match strategy_signal strategy with
      | Returned (_, s) => s :: collect_signals rest
      | Raised => collect_signals rest
      end
  end.

(** [CombinedStrategy.signal] *)
Definition signal (self : t) : string * Signal :=
  if (length (strategies self) =? 0)%nat then
    (get_symbol (data self), NONE)
  else
    let signals := collect_signals (strategies self) in
    let symbol := get_symbol (data self) in
    if (length signals =? 0)%nat then (symbol, NONE)
    else
      let buy_count := count_signal BUY signals in
      let sell_count := count_signal SELL signals in
      if require_all self then
        if (buy_count =? length signals)%nat then (symbol, BUY)
        else if (sell_count =? length signals)%nat then (symbol, SELL)
        else (symbol, NONE)
      else
        let total_strategies := length signals in
        let majority_threshold := ((total_strategies + 1) / 2)%nat in
        if (majority_threshold <=? buy_count)%nat then (symbol, BUY)
        else if (majority_threshold <=? sell_count)%nat then (symbol, SELL)
        else (symbol, NONE).

(** The threshold as the specification words it: ceil((n+1)/2). *)
Definition spec_majority_threshold (n : nat) : nat :=
  Z.to_nat (Qceiling (inject_Z (Z.of_nat n + 1) / 2)).

(** The decision the specification describes for majority mode. *)
Definition spec_majority_decision (signals : list Signal) : Signal :=
  let n := length signals in
  if (spec_majority_threshold n <=? count_signal BUY signals)%nat then BUY
  else if (spec_majority_threshold n <=? count_signal SELL signals)%nat then SELL
  else NONE.

(** Fixtures: constituents with fixed answers. *)
Definition answers (s : Signal) : TradingData -> TradingStrategy :=
  fun d => {| strategy_signal := Returned (get_symbol d, s) |}.
Definition failing : TradingData -> TradingStrategy :=
  fun _ => {| strategy_signal := Raised |}.

Definition eurusd : TradingData := {| get_symbol := "EURUSD" |}.

(** SMC says BUY, trend breakout says SELL, crossover is not configured. *)
Definition split_vote : t :=
  init {| CrossOverStrategy := answers NONE;
          SMCStrategy := answers BUY;
          TrendBreakoutStrategy := answers SELL |}
       eurusd (Some ["smc"; "trend_breakout"]) false.

(** All three configured, crossover raises. *)
Definition split_vote_after_failure : t :=
  init {| CrossOverStrategy := failing;
          SMCStrategy := answers BUY;
          TrendBreakoutStrategy := answers SELL |}
       eurusd None false.

Definition three_votes (a b c : Signal) : t :=
  init {| CrossOverStrategy := answers a;
          SMCStrategy := answers b;
          TrendBreakoutStrategy := answers c |}
       eurusd None false.

End CombinedStrategy.

(** ** volatility_analyzer.py *)

Module VolatilityAnalyzer.

(** The float indicator arithmetic of the analyzer, as functions of the bar
    series: [calculate_atr] (given the two periods), the annualised standard
    deviation of returns (a square root, so not rational in general) and the
    price range.  The analyzer is parametrised by them; what follows holds
    for whatever values they compute. *)
Record Indicators := {
  calculate_atr : Z -> Z -> list Bar -> Q;
  annualized_volatility : list Bar -> Q;
  price_range_percent : list Bar -> Q
}.

Record t := {
  atr_period : Z;
  lookback_period : Z;
  indicators : Indicators
}.

(** [VolatilityAnalyzer.__init__]: raises when the terminal cannot be
    initialised or the login fails. *)
Definition init (ind : Indicators) (mt5 : MT5)
    (atr_period_arg lookback_period_arg : Z) : outcome t :=
  if negb (initialize mt5) then Raised
  else if negb (login mt5) then Raised
  else Returned {| atr_period := atr_period_arg;
                   lookback_period := lookback_period_arg;
                   indicators := ind |}.

(** The dictionary returned by [calculate_volatility_metrics]. *)
Record Metrics := {
  symbol : string;
  atr : Q;
  atr_percentage : Q;
  volatility : Q;
  price_range : Q;
  current_price : Q;
  score : Q
}.

(** [calculate_volatility_metrics]; [None] is the Python [None], which the
    [except] branch returns as well. *)
Definition calculate_volatility_metrics (self : t) (mt5 : MT5)
    (symbol_arg : string) (timeframe : Z) : option Metrics :=
  if negb (symbol_select mt5 symbol_arg) then None
  else
    match copy_rates_from_pos mt5 symbol_arg timeframe with
    | None => None
    | Some rates =>
        if (length rates =? 0)%nat then None
        else
          let df := rates in
          if (Z.of_nat (length df) <? atr_period self + lookback_period self)%Z
          then None
          else
            let atr_v :=
              calculate_atr (indicators self) (atr_period self)
                            (lookback_period self) df in
            let volatility_v := annualized_volatility (indicators self) df in
            let price_range_v := price_range_percent (indicators self) df in
            let current_price_v :=
              match symbol_info_tick mt5 symbol_arg with
              | Some tick => (bid tick + ask tick) / 2
              | None => last (map bar_close df) 0
              end in
            let atr_percentage_v :=
              if Qltb 0 current_price_v
              then atr_v / current_price_v * 100 else 0 in
            Some {| symbol := symbol_arg;
                    atr := atr_v;
                    atr_percentage := atr_percentage_v;
                    volatility := volatility_v;
                    price_range := price_range_v;
                    current_price := current_price_v;
                    score := atr_percentage_v * (6 # 10)
                             + volatility_v * (4 # 10) |}
    end.

(** [results.sort(key=lambda x: x['score'], reverse=True)]: Python's sort
    is stable, also with [reverse=True].  An element is inserted in front of
    the first one whose score is not strictly greater. *)
Fixpoint insert_by_score (m : Metrics) (sorted : list Metrics) : list Metrics :=
  match sorted with
  | [] => [m]
  | x :: rest =>
      if Qltb (score m) (score x) then x :: insert_by_score m rest
      else m :: sorted
  end.

Definition sort_by_score_reverse (results : list Metrics) : list Metrics :=
  fold_right insert_by_score [] results.

(** The [for symbol in symbols] loop of [rank_symbols_by_volatility]. *)
Definition collect_metrics (self : t) (mt5 : MT5) (symbols : list string)
    (timeframe : Z) : list Metrics :=
  fold_left
    (fun results symbol_arg =>
       match calculate_volatility_metrics self mt5 symbol_arg timeframe with
       | Some metrics => results ++ [metrics]
       | None => results
       end)
    symbols [].

(** [rank_symbols_by_volatility] *)
Definition rank_symbols_by_volatility (self : t) (mt5 : MT5)
    (symbols : list string) (timeframe : Z) : list Metrics :=
  sort_by_score_reverse (collect_metrics self mt5 symbols timeframe).

(** [select_top_volatile_symbols] *)
Definition select_top_volatile_symbols (self : t) (mt5 : MT5)
    (symbols : list string) (max_symbols : Z) (min_volatility_threshold : Q)
    (timeframe : Z) : list string :=
  let ranked := rank_symbols_by_volatility self mt5 symbols timeframe in
  let filtered :=
    map symbol
        (filter (fun r => Qle_bool min_volatility_threshold (score r)) ranked) in
  let selected := slice_to filtered max_symbols in
  selected.

End VolatilityAnalyzer.

(** ** main_live.py: symbol selection at start-up *)

Set Warnings "-register-all".

(** A document loaded by [yaml.safe_load], as far as the code tells values
    apart.  Other scalars (dates, binary data) behave like text here: they
    have no [get] and do not compare with a float. *)
Inductive Yaml : Type :=
| YNull
| YBool (b : bool)
| YNumber (x : Q)
    (** an int or a finite float *)
| YInf (negative : bool)
    (** [.inf] and [-.inf] *)
| YNaN
| YText (s : string)
| YList (items : list Yaml)
| YDict (entries : list (string * Yaml)).

(** Truth value of a loaded document, as [yaml.safe_load(f) or {}] tests
    it. *)
Definition truthy (v : Yaml) : bool :=
  match v with
  | YNull => false
  | YBool b => b
  | YNumber x => negb (Qeq_bool x 0)
  | YInf _ => true
  | YNaN => true
  | YText s => negb (String.eqb s "")
  | YList items => match items with [] => false | _ => true end
  | YDict entries => match entries with [] => false | _ => true end
  end.

Definition is_dict (v : Yaml) : bool :=
  match v with
  | YDict _ => true
  | _ => false
  end.

(** [v.get(key, default)]: only a dictionary has [get]; on any other
    value the attribute lookup raises [AttributeError]. *)
Definition yaml_get (v : Yaml) (key : string) (default : Yaml) : outcome Yaml :=
  match v with
  | YDict entries =>
      Returned (match dict_get key entries with
                | Some x => x
                | None => default
                end)
  | _ => Raised
  end.

(** The number a configuration value stands for in a comparison with a
    float: Python's [bool] is an [int]. *)
Definition as_number (v : Yaml) : option Q :=
  match v with
  | YNumber x => Some x
  | YBool b => Some (if b then 1 else 0)
  | _ => None
  end.

(** The test [score >= v] of a float score against a configuration value:
    [TypeError] when the value is null, text or a dictionary.  Against a
    list the score, a numpy scalar, is compared element by element and the
    truth value of the resulting array is taken; what that gives depends on
    the list and on numpy, and is the parameter [compare_with_list]. *)
Definition score_at_least (compare_with_list : Q -> list Yaml -> outcome bool)
    (score : Q) (v : Yaml) : outcome bool :=
  match v with
  | YNumber x => Returned (Qle_bool x score)
  | YBool b => Returned (Qle_bool (if b then 1 else 0) score)
  | YInf negative => Returned negative
  | YNaN => Returned false
  | YList items => compare_with_list score items
  | YNull | YText _ | YDict _ => Raised
  end.

Module MainLive.

(** The process environment: the terminal, and the configuration file as
    [load_config] finds it: reading or parsing it raises, it does not
    exist, or it holds a document. *)
Record Host := {
  mt5 : MT5;
  config_file : outcome (option Yaml);
  indicators : VolatilityAnalyzer.Indicators;
  (** numpy's comparison of a score with a list *)
  compare_with_list : Q -> list Yaml -> outcome bool
}.

(** [load_config] *)
Definition load_config (host : Host) : outcome Yaml :=
  match config_file host with
  | Raised => Raised
  | Returned None => Returned (YDict [])
  | Returned (Some document) =>
      Returned (if truthy document then document else YDict [])
  end.

(** The list comprehension
    [[r['symbol'] for r in ranked if r['score'] >= min_volatility_threshold]]
    of [select_top_volatile_symbols] when the threshold is a configuration
    value of any type: the comparisons are made in order, and the first one
    raises when the value is not a number. *)
Fixpoint filter_by_threshold
    (compare_list : Q -> list Yaml -> outcome bool)
    (ranked : list VolatilityAnalyzer.Metrics)
    (min_volatility_threshold : Yaml)
    : outcome (list VolatilityAnalyzer.Metrics) :=
  match ranked with
  | [] => Returned []
  | r :: rest =>
      (keep <- score_at_least compare_list (VolatilityAnalyzer.score r)
                 min_volatility_threshold ;;
       others <- filter_by_threshold compare_list rest
                   min_volatility_threshold ;;
       Returned (if keep then r :: others else others))%outcome
  end.

(** [analyzer.select_top_volatile_symbols(symbols=candidates,
    max_symbols=max_symbols, min_volatility_threshold=min_threshold)] as
    [select_volatile_symbols] calls it, with the threshold it read from the
    configuration. *)
Definition call_select_top_volatile_symbols
    (compare_list : Q -> list Yaml -> outcome bool)
    (analyzer : VolatilityAnalyzer.t)
    (mt5_v : MT5) (symbols : list string) (max_symbols : Z)
    (min_volatility_threshold : Yaml) : outcome (list string) :=
  let ranked :=
    VolatilityAnalyzer.rank_symbols_by_volatility analyzer mt5_v symbols
      TIMEFRAME_H1 in
  (passing <- filter_by_threshold compare_list ranked
                min_volatility_threshold ;;
   let filtered := map VolatilityAnalyzer.symbol passing in
   let selected := slice_to filtered max_symbols in
   Returned selected)%outcome.

(** [select_volatile_symbols]; the analyzer is built with its default
    periods 14 and 20. *)
Definition select_volatile_symbols (host : Host) (candidates : list string)
    (max_symbols : Z) : list string :=
  let body :=
    (analyzer <- VolatilityAnalyzer.init (indicators host) (mt5 host) 14 20 ;;
     config <- load_config host ;;
     volatility_config <- yaml_get config "volatility_config" (YDict []) ;;
     min_threshold <- yaml_get volatility_config "min_volatility_threshold"
                        (YNumber (1 # 2)) ;;
     selected <- call_select_top_volatile_symbols (compare_with_list host)
                   analyzer (mt5 host) candidates max_symbols min_threshold ;;
     Returned selected)%outcome in
  match body with
  | Returned selected => selected
  | Raised => slice_to candidates max_symbols
  end.

(** The start of [initialize_trading_system]: candidates, selection and the
    two guards that raise [ValueError]. *)
Definition initialize_selected_symbols (host : Host) (candidates : list string)
    (MAX_SYMBOLS : Z) : outcome (list string) :=
  if (length candidates =? 0)%nat then Raised
  else
    let selected_symbols := select_volatile_symbols host candidates MAX_SYMBOLS in
    if (length selected_symbols =? 0)%nat then Raised
    else Returned selected_symbols.

End MainLive.
(** ** risk_manager.py *)

Module RiskManager.

Record t := {
  risk_per_symbol : Q;
  max_total_risk : Q
}.

(** [RiskManager.__init__] with its defaults 0.02 and 0.05. *)
Definition default : t :=
  {| risk_per_symbol := 2 # 100; max_total_risk := 5 # 100 |}.

(** [get_account_balance] *)
Definition get_account_balance (mt5 : MT5) : Q :=
  match account_info mt5 with
  | None => 0
  | Some info => balance info
  end.

(** [get_account_equity] *)
Definition get_account_equity (mt5 : MT5) : Q :=
  match account_info mt5 with
  | None => 0
  | Some info => equity info
  end.

(** Stop loss in pips to a price difference: 3- and 5-digit symbols quote
    ten points to the pip. *)
Definition pips_to_price_diff (info : SymbolInfo) (stop_loss_pips : Q) : Q :=
  if ((digits info =? 5) || (digits info =? 3))%Z
  then stop_loss_pips * trade_tick_size info * 10
  else stop_loss_pips * trade_tick_size info.

(** The body of [calculate_position_size] inside its [try]. *)
Definition calculate_position_size_body (self : t) (mt5 : MT5)
    (symbol : string) (stop_loss_pips : Q) (risk_amount : option Q)
    (volatility_multiplier : Q) : outcome Q :=
  if negb (symbol_select mt5 symbol) then Returned 0
  else
    match symbol_info mt5 symbol with
    | None => Returned 0
    | Some info =>
        match symbol_info_tick mt5 symbol with
        | None => Returned 0
        | Some tick =>
            let current_price := (bid tick + ask tick) / 2 in
            let risk_amount_v :=
              match risk_amount with
              | None => get_account_balance mt5 * risk_per_symbol self
              | Some r => r
              end in
            (adjusted_risk <- py_div risk_amount_v volatility_multiplier ;;
             let tick_size := trade_tick_size info in
             let tick_value := trade_tick_value info in
             let price_diff := pips_to_price_diff info stop_loss_pips in
             if Qeq_bool price_diff 0 then Returned 0
             else
               per_lot <- py_div (price_diff * tick_value) tick_size ;;
               position_size <- py_div adjusted_risk per_lot ;;
               let min_lot := volume_min info in
               let max_lot := volume_max info in
               let lot_step := volume_step info in
               steps <- py_div position_size lot_step ;;
               let position_size := inject_Z (py_round steps) * lot_step in
               let position_size := py_max min_lot (py_min position_size max_lot) in
               Returned position_size)%outcome
        end
    end.

(** [calculate_position_size]: any exception yields 0.0. *)
Definition calculate_position_size (self : t) (mt5 : MT5)
    (symbol : string) (stop_loss_pips : Q) (risk_amount : option Q)
    (volatility_multiplier : Q) : Q :=
  match calculate_position_size_body self mt5 symbol stop_loss_pips
          risk_amount volatility_multiplier with
  | Returned size => size
  | Raised => 0
  end.

Record SymbolExposure := {
  exposure_positions : nat;
  exposure_volume : Q;
  exposure_profit : Q
}.

Record Exposure := {
  total_positions : nat;
  total_volume : Q;
  total_profit : Q;
  symbols : list (string * SymbolExposure)
}.

Definition empty_exposure : Exposure :=
  {| total_positions := 0; total_volume := 0; total_profit := 0; symbols := [] |}.

Definition Qsum (l : list Q) : Q := fold_left Qplus l 0.

(** [df['symbol'].unique()]: first occurrences, in order. *)
Fixpoint unique (l : list string) : list string :=
  match l with
  | [] => []
  | x :: rest => x :: filter (fun y => negb (String.eqb x y)) (unique rest)
  end.

(** [get_total_exposure] *)
Definition get_total_exposure (mt5 : MT5) (symbols_arg : option (list string))
    : Exposure :=
  match positions_get mt5 with
  | None => empty_exposure
  | Some positions =>
      if (length positions =? 0)%nat then empty_exposure
      else
        let df :=
          match symbols_arg with
          | None | Some [] => positions
          | Some l =>
              filter (fun p => existsb (String.eqb (position_symbol p)) l) positions
          end in
        {| total_positions := length df;
           total_volume := Qsum (map position_volume df);
           total_profit := Qsum (map position_profit df);
           symbols :=
             map (fun s =>
                    let symbol_df :=
                      filter (fun p => String.eqb (position_symbol p) s) df in
                    (s, {| exposure_positions := length symbol_df;
                           exposure_volume := Qsum (map position_volume symbol_df);
                           exposure_profit := Qsum (map position_profit symbol_df) |}))
                 (unique (map position_symbol df)) |}
  end.

(** The second component of [check_risk_limits]' result.  The messages
    without numbers are kept as text; the formatted ones keep their
    numbers. *)
Inductive Reason : Type :=
| Message (text : string)
    (** a message without formatted numbers *)
| PositionRiskExceeds (position_risk_percent limit : Q)
    (** "Position risk (..%) exceeds per-symbol limit (..%)" *)
| TotalRiskExceeds (new_total_risk limit : Q)
    (** "Total risk (..%) would exceed maximum limit (..%)" *)
| RiskCheckPassed (position_risk_percent new_total_risk : Q)
    (** "Risk check passed (position risk: ..%, total risk: ..%)" *)
| ErrorChecking.
    (** "Error checking risk limits: .." *)

(** The body of [check_risk_limits] inside its [try]. *)
Definition check_risk_limits_body (self : t) (mt5 : MT5) (symbol : string)
    (proposed_position_size stop_loss_pips : Q) : outcome (bool * Reason) :=
  let balance := get_account_balance mt5 in
  if Qeq_bool balance 0 then Returned (false, Message "Account balance is zero")
  else
    match symbol_info mt5 symbol with
    | None => Returned (false, Message ("Symbol " ++ symbol ++ " not found"))
    | Some info =>
        match symbol_info_tick mt5 symbol with
        | None => Returned (false, Message ("Failed to get tick for " ++ symbol))
        | Some tick =>
            let current_price := (bid tick + ask tick) / 2 in
            let tick_size := trade_tick_size info in
            let tick_value := trade_tick_value info in
            let price_diff := pips_to_price_diff info stop_loss_pips in
            (ratio <- py_div (price_diff * tick_value * proposed_position_size)
                             tick_size ;;
             let position_risk := Qabs ratio in
             let position_risk_percent :=
               if Qltb 0 balance then position_risk / balance * 100 else 0 in
             if Qltb (risk_per_symbol self * 100) position_risk_percent
             then Returned (false,
                            PositionRiskExceeds position_risk_percent
                                                (risk_per_symbol self * 100))
             else
               let exposure := get_total_exposure mt5 None in
               let current_total_risk :=
                 if Qltb 0 balance
                 then Qabs (total_profit exposure) / balance * 100 else 0 in
               let new_total_risk := current_total_risk + position_risk_percent in
               if Qltb (max_total_risk self * 100) new_total_risk
               then Returned (false,
                              TotalRiskExceeds new_total_risk
                                               (max_total_risk self * 100))
               else Returned (true,
                              RiskCheckPassed position_risk_percent
                                              new_total_risk))%outcome
        end
    end.

(** [check_risk_limits] *)
Definition check_risk_limits (self : t) (mt5 : MT5) (symbol : string)
    (proposed_position_size stop_loss_pips : Q) : bool * Reason :=
  match check_risk_limits_body self mt5 symbol proposed_position_size
          stop_loss_pips with
  | Returned r => r
  | Raised => (false, ErrorChecking)
  end.

(** [get_volatility_multiplier] *)
Definition get_volatility_multiplier (atr_percentage base_atr : Q) : Q :=
  let base_atr := if Qeq_bool base_atr 0 then 1 else base_atr in
  let multiplier := base_atr / py_max atr_percentage (1 # 10) in
  let multiplier := py_max (1 # 2) (py_min 2 multiplier) in
  multiplier.

End RiskManager.
(** ** multi_symbol_manager.py: the metrics cache *)

Module MultiSymbolManager.

Record t := {
  symbols : list string;
  timeframe : Z;
  volatility_metrics : list (string * VolatilityAnalyzer.Metrics)
}.

(** [get_volatility_metrics] *)
Definition get_volatility_metrics (self : t) (symbol : string)
    : option VolatilityAnalyzer.Metrics :=
  dict_get symbol (volatility_metrics self).

End MultiSymbolManager.

(** ** multi_symbol_robot.py *)

Module MultiSymbolRobot.

(** What [Trader.open_position] returns when it returns a result. *)
Record OrderResult := {
  retcode : Z;
  order : Z;
  volume : Q;
  price : Q
}.

Definition TRADE_RETCODE_DONE : Z := 10009.

Section Broker.

(** The state of the broker account; every cycle re-reads it. *)
Variable World : Type.

(** Modelled from the spec: the order executor [mt5_trading.adapters.Trader]
    (section 6: open_position, close_positions, get_open_positions), whose
    class is not part of the sources.  Each call may raise; the two
    commands change the broker state.  [terminal] is what the [mt5] module
    reports in a given state. *)
Record Trader := {
  terminal : World -> MT5;
  get_opened_positions :
    World -> string -> OrderType -> outcome (nat * list Position);
  open_position :
    World -> string -> Q -> OrderType -> string -> Z
    -> outcome (option OrderResult) * World;
  close_positions :
    World -> string -> string -> OrderType -> outcome unit * World
}.

(** A strategy object assigned to a symbol; its signal reads the market. *)
Record TradingStrategy := { signal : World -> outcome (string * Signal) }.

Record t := {
  symbol_manager : MultiSymbolManager.t;
  trader : Trader;
  strategies : list (string * TradingStrategy);
  risk_manager : RiskManager.t;
  default_lot_size : Q;
  stop_loss_pips : Q;
  magic_number : Z;
  name : string
}.

(** [MultiSymbolRobot.__init__] *)
Definition init (symbol_manager_arg : MultiSymbolManager.t) (trader_arg : Trader)
    (strategies_arg : list (string * TradingStrategy))
    (risk_manager_arg : RiskManager.t)
    (default_lot_size_arg stop_loss_pips_arg : Q) : t :=
  {| symbol_manager := symbol_manager_arg;
     trader := trader_arg;
     strategies := strategies_arg;
     risk_manager := risk_manager_arg;
     default_lot_size := default_lot_size_arg;
     stop_loss_pips := stop_loss_pips_arg;
     magic_number := 20240101;
     name := "Multi-Symbol Robot" |}.

(** The calls the robot makes on its trader that change the account. *)
Inductive TraderCall : Type :=
| OpenPosition (symbol : string) (lots : Q) (side : OrderType)
    (comment : string) (magic : Z)
| ClosePositions (robot_name : string) (symbol : string) (side : OrderType).

(** [MultiSymbolRobot.calculate_position_size] *)
Definition calculate_position_size (self : t) (mt5 : MT5) (symbol : string)
    (volatility_multiplier : Q) : Q :=
  let volatility_metrics :=
    MultiSymbolManager.get_volatility_metrics (symbol_manager self) symbol in
  let volatility_multiplier :=
    match volatility_metrics with
    | Some m =>
        let atr_percentage := VolatilityAnalyzer.atr_percentage m in
        if Qeq_bool volatility_multiplier 1
        then RiskManager.get_volatility_multiplier atr_percentage 1
        else volatility_multiplier
    | None => volatility_multiplier
    end in
  let position_size :=
    RiskManager.calculate_position_size (risk_manager self) mt5 symbol
      (stop_loss_pips self) None volatility_multiplier in
  if Qeq_bool position_size 0 then default_lot_size self else position_size.

(** [check_risk_before_trade] *)
Definition check_risk_before_trade (self : t) (mt5 : MT5) (symbol : string)
    (position_size : Q) : bool * RiskManager.Reason :=
  RiskManager.check_risk_limits (risk_manager self) mt5 symbol position_size
    (stop_loss_pips self).

(** "Close opposite positions": query the other side, close it if any. *)
Definition close_opposite (self : t) (symbol : string) (opposite : OrderType)
    (w : World) (calls : list TraderCall) : World * list TraderCall :=
  match get_opened_positions (trader self) w symbol opposite with
  | Raised => (w, calls)
  | Returned (total_opposite, _) =>
      if (0 <? total_opposite)%nat then
        let (_, w') := close_positions (trader self) w (name self) symbol opposite in
        (w', calls ++ [ClosePositions (name self) symbol opposite])
      else (w, calls)
  end.

(** [trade_symbol]: the final broker state and the trader calls made, in
    order.  Every exception ends the processing of the symbol. *)
Definition trade_symbol (self : t) (symbol : string) (w : World)
    : World * list TraderCall :=
  match dict_get symbol (strategies self) with
  | None => (w, [])
  | Some strategy =>
      match signal strategy w with
      | Raised => (w, [])
      | Returned (signal_symbol, BUY) =>
          match get_opened_positions (trader self) w symbol ORDER_TYPE_BUY with
          | Raised => (w, [])
          | Returned (total_buy, _) =>
              if (total_buy =? 0)%nat then
                let position_size :=
                  calculate_position_size self (terminal (trader self) w) symbol 1 in
                let (is_allowed, reason) :=
                  check_risk_before_trade self (terminal (trader self) w)
                                          symbol position_size in
                if negb is_allowed then (w, [])
                else
                  let call :=
                    OpenPosition symbol position_size ORDER_TYPE_BUY
                                 (name self ++ " buy position") (magic_number self) in
                  match open_position (trader self) w symbol position_size
                          ORDER_TYPE_BUY (name self ++ " buy position")
                          (magic_number self) with
                  | (Raised, w') => (w', [call])
                  | (Returned None, w') => (w', [call])
                  | (Returned (Some result), w') =>
                      close_opposite self symbol ORDER_TYPE_SELL w' [call]
                  end
              else close_opposite self symbol ORDER_TYPE_SELL w []
          end
      | Returned (signal_symbol, SELL) =>
          match get_opened_positions (trader self) w symbol ORDER_TYPE_SELL with
          | Raised => (w, [])
          | Returned (total_sell, _) =>
              if (total_sell =? 0)%nat then
                let position_size :=
                  calculate_position_size self (terminal (trader self) w) symbol 1 in
                let (is_allowed, reason) :=
                  check_risk_before_trade self (terminal (trader self) w)
                                          symbol position_size in
                if negb is_allowed then (w, [])
                else
                  let call :=
                    OpenPosition symbol position_size ORDER_TYPE_SELL
                                 (name self ++ " sell position") (magic_number self) in
                  match open_position (trader self) w symbol position_size
                          ORDER_TYPE_SELL (name self ++ " sell position")
                          (magic_number self) with
                  | (Raised, w') => (w', [call])
                  | (Returned None, w') => (w', [call])
                  | (Returned (Some result), w') =>
                      close_opposite self symbol ORDER_TYPE_BUY w' [call]
                  end
              else close_opposite self symbol ORDER_TYPE_BUY w []
          end
      | Returned (signal_symbol, NONE) => (w, [])
      end
  end.

(** [trade]: one cycle over [self.strategies.keys()]. *)
Definition trade (self : t) (w : World) : World * list TraderCall :=
  fold_left
    (fun (acc : World * list TraderCall) symbol =>
       let (w', calls') := trade_symbol self symbol (fst acc) in
       (w', snd acc ++ calls'))
    (map fst (strategies self)) (w, []).

(** Counting the calls of a cycle. *)
Definition is_open (side : OrderType) (symbol : string) (c : TraderCall) : bool :=
  match c, side with
  | OpenPosition s _ ORDER_TYPE_BUY _ _, ORDER_TYPE_BUY
  | OpenPosition s _ ORDER_TYPE_SELL _ _, ORDER_TYPE_SELL => String.eqb s symbol
  | _, _ => false
  end.

Definition is_any_open (c : TraderCall) : bool :=
  match c with
  | OpenPosition _ _ _ _ _ => true
  | ClosePositions _ _ _ => false
  end.

Definition is_close (side : OrderType) (symbol : string) (c : TraderCall) : bool :=
  match c, side with
  | ClosePositions _ s ORDER_TYPE_BUY, ORDER_TYPE_BUY
  | ClosePositions _ s ORDER_TYPE_SELL, ORDER_TYPE_SELL => String.eqb s symbol
  | _, _ => false
  end.

Definition is_any_close (c : TraderCall) : bool :=
  match c with
  | OpenPosition _ _ _ _ _ => false
  | ClosePositions _ _ _ => true
  end.

Definition count_calls (p : TraderCall -> bool) (calls : list TraderCall) : nat :=
  length (filter p calls).

End Broker.

End MultiSymbolRobot.
Arguments MultiSymbolRobot.terminal {World}.
Arguments MultiSymbolRobot.get_opened_positions {World}.
Arguments MultiSymbolRobot.open_position {World}.
Arguments MultiSymbolRobot.close_positions {World}.
Arguments MultiSymbolRobot.signal {World}.
Arguments MultiSymbolRobot.symbol_manager {World}.
Arguments MultiSymbolRobot.trader {World}.
Arguments MultiSymbolRobot.strategies {World}.
Arguments MultiSymbolRobot.risk_manager {World}.
Arguments MultiSymbolRobot.default_lot_size {World}.
Arguments MultiSymbolRobot.stop_loss_pips {World}.
Arguments MultiSymbolRobot.magic_number {World}.
Arguments MultiSymbolRobot.name {World}.
Arguments MultiSymbolRobot.init {World}.
Arguments MultiSymbolRobot.calculate_position_size {World}.
Arguments MultiSymbolRobot.check_risk_before_trade {World}.
Arguments MultiSymbolRobot.close_opposite {World}.
Arguments MultiSymbolRobot.trade_symbol {World}.
Arguments MultiSymbolRobot.trade {World}.

(** ** Python floats as IEEE 754 binary64 *)

(** The arithmetic of the interpreter itself, for the statements that
    depend on rounding or on the float specials: [float] is the kernel's
    binary64 type, whose operations are the correctly rounded IEEE ones. *)

Module Binary64.

Local Open Scope float_scope.

(** [a / b] on Python floats: [ZeroDivisionError] when [b == 0], which
    both zeros satisfy and NaN does not. *)
Definition py_div (a b : float) : outcome float :=
  if PrimFloat.is_zero b then Raised else Returned (a / b).

(** [min(a, b)]: the first argument unless the second is strictly smaller. *)
Definition py_min (a b : float) : float := if b <? a then b else a.

(** [max(a, b)]: the first argument unless the second is strictly larger. *)
Definition py_max (a b : float) : float := if a <? b then b else a.

(** The integer nearest to [m * 2^e], ties to the even one. *)
Definition round_half_even (m : positive) (e : Z) : Z :=
  match e with
  | Z0 => Zpos m
  | Zpos p => (Zpos m * 2 ^ Zpos p)%Z
  | Zneg p =>
      let d := (2 ^ Zpos p)%Z in
      let q := (Zpos m / d)%Z in
      let r := (Zpos m mod d)%Z in
      match (2 * r ?= d)%Z with
      | Lt => q
      | Gt => (q + 1)%Z
      | Eq => if Z.even q then q else (q + 1)%Z
      end
  end.

(** [round(x)] with one argument, an [int]: [OverflowError] on an
    infinity, [ValueError] on NaN. *)
Definition py_round (x : float) : outcome Z :=
  match Prim2SF x with
  | S754_zero _ => Returned 0%Z
  | S754_infinity _ => Raised
  | S754_nan => Raised
  | S754_finite s m e =>
      Returned (if s then (- round_half_even m e)%Z else round_half_even m e)
  end.

(** The conversion of an [int] operand of a float operation: the nearest
    float, [OverflowError] when the int is too large. *)
Definition py_float (k : Z) : outcome float :=
  let f := SF2Prim (binary_normalize prec emax k 0 false) in
  if PrimFloat.is_infinity f then Raised else Returned f.

(** The exact value of a finite float. *)
Definition float_value (x : float) : option Q :=
  match Prim2SF x with
  | S754_zero _ => Some 0%Q
  | S754_finite s m e =>
      Some ((if s then - inject_Z (Zpos m) else inject_Z (Zpos m))
            * Qpower 2 e)%Q
  | S754_infinity _ => None
  | S754_nan => None
  end.

(** *** The terminal *)

Record Bar := {
  bar_time : Z;
  bar_open : float;
  bar_high : float;
  bar_low : float;
  bar_close : float;
  bar_tick_volume : Z
}.

Record Tick := { bid : float; ask : float }.

Record AccountInfo := { balance : float; equity : float; margin : float }.

Record SymbolInfo := {
  trade_tick_size : float;
  trade_tick_value : float;
  trade_contract_size : float;
  digits : Z;
  volume_min : float;
  volume_max : float;
  volume_step : float
}.

Record Position := {
  position_symbol : string;
  position_type : OrderType;
  position_volume : float;
  position_profit : float
}.

Record MT5 := {
  initialize : bool;
  login : bool;
  account_info : option AccountInfo;
  symbol_select : string -> bool;
  symbol_info : string -> option SymbolInfo;
  symbol_info_tick : string -> option Tick;
  positions_get : option (list Position);
  (** [copy_rates_from_pos(symbol, timeframe, 0, 1000)] *)
  copy_rates_from_pos : string -> Z -> option (list Bar)
}.

(** *** risk_manager.py *)

Module RiskManager.

Record t := {
  risk_per_symbol : float;
  max_total_risk : float
}.

(** [RiskManager.__init__] with its defaults 0.02 and 0.05. *)
Definition default : t :=
  {| risk_per_symbol := 0.02; max_total_risk := 0.05 |}.

(** [get_account_balance] *)
Definition get_account_balance (mt5 : MT5) : float :=
  match account_info mt5 with
  | None => 0
  | Some info => balance info
  end.

(** Stop loss in pips to a price difference: 3- and 5-digit symbols quote
    ten points to the pip. *)
Definition pips_to_price_diff (info : SymbolInfo) (stop_loss_pips : float)
    : float :=
  if ((digits info =? 5) || (digits info =? 3))%Z
  then stop_loss_pips * trade_tick_size info * 10
  else stop_loss_pips * trade_tick_size info.

(** The body of [calculate_position_size] inside its [try]. *)
Definition calculate_position_size_body (self : t) (mt5 : MT5)
    (symbol : string) (stop_loss_pips : float) (risk_amount : option float)
    (volatility_multiplier : float) : outcome float :=
  if negb (symbol_select mt5 symbol) then Returned 0
  else
    match symbol_info mt5 symbol with
    | None => Returned 0
    | Some info =>
        match symbol_info_tick mt5 symbol with
        | None => Returned 0
        | Some tick =>
            let current_price := (bid tick + ask tick) / 2 in
            let risk_amount_v :=
              match risk_amount with
              | None => get_account_balance mt5 * risk_per_symbol self
              | Some r => r
              end in
            (adjusted_risk <- py_div risk_amount_v volatility_multiplier ;;
             let tick_size := trade_tick_size info in
             let tick_value := trade_tick_value info in
             let price_diff := pips_to_price_diff info stop_loss_pips in
             if PrimFloat.is_zero price_diff then Returned 0
             else
               per_lot <- py_div (price_diff * tick_value) tick_size ;;
               position_size <- py_div adjusted_risk per_lot ;;
               let min_lot := volume_min info in
               let max_lot := volume_max info in
               let lot_step := volume_step info in
               steps <- py_div position_size lot_step ;;
               rounded <- py_round steps ;;
               rounded_f <- py_float rounded ;;
               let position_size := rounded_f * lot_step in
               let position_size := py_max min_lot (py_min position_size max_lot) in
               Returned position_size)%outcome
        end
    end.

(** [calculate_position_size]: any exception yields 0.0. *)
Definition calculate_position_size (self : t) (mt5 : MT5)
    (symbol : string) (stop_loss_pips : float) (risk_amount : option float)
    (volatility_multiplier : float) : float :=
  match calculate_position_size_body self mt5 symbol stop_loss_pips
          risk_amount volatility_multiplier with
  | Returned size => size
  | Raised => 0
  end.

(** The second component of [check_risk_limits]' result, the formatted
    messages with their numbers. *)
Inductive Reason : Type :=
| Message (text : string)
| PositionRiskExceeds (position_risk_percent limit : float)
| TotalRiskExceeds (new_total_risk limit : float)
| RiskCheckPassed (position_risk_percent new_total_risk : float)
| ErrorChecking.

Section Pandas.

(** [Series.sum()] of a float column; the order in which pandas and numpy
    add the entries is not part of the sources. *)
Variable series_sum : list float -> float.

(** The [total_profit] entry of [get_total_exposure()] called without a
    symbol filter. *)
Definition total_profit (mt5 : MT5) : float :=
  match positions_get mt5 with
  | None => 0
  | Some positions =>
      if (length positions =? 0)%nat then 0
      else series_sum (map position_profit positions)
  end.

(** The body of [check_risk_limits] inside its [try]. *)
Definition check_risk_limits_body (self : t) (mt5 : MT5) (symbol : string)
    (proposed_position_size stop_loss_pips : float) : outcome (bool * Reason) :=
  let balance := get_account_balance mt5 in
  if PrimFloat.is_zero balance
  then Returned (false, Message "Account balance is zero")
  else
    match symbol_info mt5 symbol with
    | None => Returned (false, Message ("Symbol " ++ symbol ++ " not found"))
    | Some info =>
        match symbol_info_tick mt5 symbol with
        | None => Returned (false, Message ("Failed to get tick for " ++ symbol))
        | Some tick =>
            let current_price := (bid tick + ask tick) / 2 in
            let tick_size := trade_tick_size info in
            let tick_value := trade_tick_value info in
            let price_diff := pips_to_price_diff info stop_loss_pips in
            (ratio <- py_div (price_diff * tick_value * proposed_position_size)
                             tick_size ;;
             let position_risk := PrimFloat.abs ratio in
             let position_risk_percent :=
               if 0 <? balance then position_risk / balance * 100 else 0 in
             if risk_per_symbol self * 100 <? position_risk_percent
             then Returned (false,
                            PositionRiskExceeds position_risk_percent
                                                (risk_per_symbol self * 100))
             else
               let current_total_risk :=
                 if 0 <? balance
                 then PrimFloat.abs (total_profit mt5) / balance * 100 else 0 in
               let new_total_risk := current_total_risk + position_risk_percent in
               if max_total_risk self * 100 <? new_total_risk
               then Returned (false,
                              TotalRiskExceeds new_total_risk
                                               (max_total_risk self * 100))
               else Returned (true,
                              RiskCheckPassed position_risk_percent
                                              new_total_risk))%outcome
        end
    end.

(** [check_risk_limits] *)
Definition check_risk_limits (self : t) (mt5 : MT5) (symbol : string)
    (proposed_position_size stop_loss_pips : float) : bool * Reason :=
  match check_risk_limits_body self mt5 symbol proposed_position_size
          stop_loss_pips with
  | Returned r => r
  | Raised => (false, ErrorChecking)
  end.

End Pandas.

End RiskManager.

(** *** volatility_analyzer.py *)

Module VolatilityAnalyzer.

(** The numpy and pandas arithmetic of the analyzer, as functions of the
    bar series: [calculate_atr] (given the two periods), the annualised
    standard deviation of returns and the price range.  Their results are
    floats, NaN and the infinities included. *)
Record Indicators := {
  calculate_atr : Z -> Z -> list Bar -> float;
  annualized_volatility : list Bar -> float;
  price_range_percent : list Bar -> float
}.

Record t := {
  atr_period : Z;
  lookback_period : Z;
  indicators : Indicators
}.

(** The dictionary returned by [calculate_volatility_metrics]. *)
Record Metrics := {
  symbol : string;
  atr : float;
  atr_percentage : float;
  volatility : float;
  price_range : float;
  current_price : float;
  score : float
}.

(** [calculate_volatility_metrics]; [None] is the Python [None], which the
    [except] branch returns as well. *)
Definition calculate_volatility_metrics (self : t) (mt5 : MT5)
    (symbol_arg : string) (timeframe : Z) : option Metrics :=
  if negb (symbol_select mt5 symbol_arg) then None
  else
    match copy_rates_from_pos mt5 symbol_arg timeframe with
    | None => None
    | Some rates =>
        if (length rates =? 0)%nat then None
        else
          let df := rates in
          if (Z.of_nat (length df) <? atr_period self + lookback_period self)%Z
          then None
          else
            let atr_v :=
              calculate_atr (indicators self) (atr_period self)
                            (lookback_period self) df in
            let volatility_v := annualized_volatility (indicators self) df in
            let price_range_v := price_range_percent (indicators self) df in
            let current_price_v :=
              match symbol_info_tick mt5 symbol_arg with
              | Some tick => (bid tick + ask tick) / 2
              | None => last (map bar_close df) 0
              end in
            let atr_percentage_v :=
              if 0 <? current_price_v
              then atr_v / current_price_v * 100 else 0 in
            Some {| symbol := symbol_arg;
                    atr := atr_v;
                    atr_percentage := atr_percentage_v;
                    volatility := volatility_v;
                    price_range := price_range_v;
                    current_price := current_price_v;
                    score := atr_percentage_v * 0.6 + volatility_v * 0.4 |}
    end.

(** [results.sort(key=lambda x: x['score'], reverse=True)].  On scores
    that are numbers every stable descending sort returns the same list,
    the one built here: an element is inserted in front of the first one
    whose score is not strictly greater.  How CPython's merge sort orders a
    list with NaN scores is not modelled; the statements about the order
    assume there is none. *)
Fixpoint insert_by_score (m : Metrics) (sorted : list Metrics) : list Metrics :=
  match sorted with
  | [] => [m]
  | x :: rest =>
      if score m <? score x then x :: insert_by_score m rest
      else m :: sorted
  end.

Definition sort_by_score_reverse (results : list Metrics) : list Metrics :=
  fold_right insert_by_score [] results.

(** The [for symbol in symbols] loop of [rank_symbols_by_volatility]. *)
Definition collect_metrics (self : t) (mt5 : MT5) (symbols : list string)
    (timeframe : Z) : list Metrics :=
  fold_left
    (fun results symbol_arg =>
       match calculate_volatility_metrics self mt5 symbol_arg timeframe with
       | Some metrics => results ++ [metrics]
       | None => results
       end)
    symbols [].

(** [rank_symbols_by_volatility] *)
Definition rank_symbols_by_volatility (self : t) (mt5 : MT5)
    (symbols : list string) (timeframe : Z) : list Metrics :=
  sort_by_score_reverse (collect_metrics self mt5 symbols timeframe).

(** [select_top_volatile_symbols] *)
Definition select_top_volatile_symbols (self : t) (mt5 : MT5)
    (symbols : list string) (max_symbols : Z) (min_volatility_threshold : float)
    (timeframe : Z) : list string :=
  let ranked := rank_symbols_by_volatility self mt5 symbols timeframe in
  let filtered :=
    map symbol
        (filter (fun r => min_volatility_threshold <=? score r) ranked) in
  let selected := slice_to filtered max_symbols in
  selected.

End VolatilityAnalyzer.

End Binary64.

(** ** Vocabulary of the statements *)

Module Statements.

(** The metrics of the symbols that have them, in the order of the input. *)
Definition available_metrics (self : VolatilityAnalyzer.t) (mt5 : MT5)
    (symbols : list string) (timeframe : Z) : list VolatilityAnalyzer.Metrics :=
  flat_map
    (fun s =>
       match VolatilityAnalyzer.calculate_volatility_metrics self mt5 s timeframe with
       | Some m => [m]
       | None => []
       end)
    symbols.

Definition has_metrics (self : VolatilityAnalyzer.t) (mt5 : MT5)
    (timeframe : Z) (s : string) : bool :=
  match VolatilityAnalyzer.calculate_volatility_metrics self mt5 s timeframe with
  | Some _ => true
  | None => false
  end.

(** Descending by score. *)
Definition score_ge (a b : VolatilityAnalyzer.Metrics) : Prop :=
  VolatilityAnalyzer.score b <= VolatilityAnalyzer.score a.

Definition has_score (q : Q) (m : VolatilityAnalyzer.Metrics) : bool :=
  Qeq_bool (VolatilityAnalyzer.score m) q.

(** A symbol's data is unusable for the analyzer. *)
Definition data_unavailable (self : VolatilityAnalyzer.t) (mt5 : MT5)
    (s : string) (timeframe : Z) : Prop :=
  symbol_select mt5 s = false
  \/ copy_rates_from_pos mt5 s timeframe = None
  \/ copy_rates_from_pos mt5 s timeframe = Some []
  \/ exists rates,
       copy_rates_from_pos mt5 s timeframe = Some rates
       /\ (Z.of_nat (length rates)
           < VolatilityAnalyzer.atr_period self
             + VolatilityAnalyzer.lookback_period self)%Z.

(** The entries of the [volatility_config] section of a configuration
    dictionary, none when the key is absent; [None] when the entry is not a
    dictionary. *)
Definition volatility_section (config : list (string * Yaml))
    : option (list (string * Yaml)) :=
  match dict_get "volatility_config" config with
  | None => Some []
  | Some (YDict section) => Some section
  | Some _ => None
  end.

(** The threshold a [volatility_config] section configures, 0.5 when the
    key is absent. *)
Definition configured_threshold (section : list (string * Yaml)) : Yaml :=
  match dict_get "min_volatility_threshold" section with
  | Some v => v
  | None => YNumber (1 # 2)
  end.

(** The configuration values that have no order with a float score: null,
    text and dictionaries. *)
Definition no_order_with_float (v : Yaml) : bool :=
  match v with
  | YNull | YText _ | YDict _ => true
  | YNumber _ | YBool _ | YInf _ | YNaN | YList _ => false
  end.

(** The analyzer [select_volatile_symbols] constructs. *)
Definition startup_analyzer (host : MainLive.Host) : VolatilityAnalyzer.t :=
  {| VolatilityAnalyzer.atr_period := 14;
     VolatilityAnalyzer.lookback_period := 20;
     VolatilityAnalyzer.indicators := MainLive.indicators host |}.

Definition opposite (side : OrderType) : OrderType :=
  match side with
  | ORDER_TYPE_BUY => ORDER_TYPE_SELL
  | ORDER_TYPE_SELL => ORDER_TYPE_BUY
  end.

Definition signal_of_side (side : OrderType) : Signal :=
  match side with
  | ORDER_TYPE_BUY => BUY
  | ORDER_TYPE_SELL => SELL
  end.

Definition side_comment (robot_name : string) (side : OrderType) : string :=
  match side with
  | ORDER_TYPE_BUY => robot_name ++ " buy position"
  | ORDER_TYPE_SELL => robot_name ++ " sell position"
  end.

(** The raw, risk-derived size of [calculate_position_size] before rounding:
    adjusted risk over the loss of one lot at the stop. *)
Definition raw_position_size (risk_amount volatility_multiplier : Q)
    (info : SymbolInfo) (stop_loss_pips : Q) : Q :=
  (risk_amount / volatility_multiplier)
  / (RiskManager.pips_to_price_diff info stop_loss_pips
     * trade_tick_value info / trade_tick_size info).

Definition effective_risk_amount (self : RiskManager.t) (mt5 : MT5)
    (risk_amount : option Q) : Q :=
  match risk_amount with
  | None => RiskManager.get_account_balance mt5 * RiskManager.risk_per_symbol self
  | Some r => r
  end.

End Statements.

(** ** Fixtures *)

Module Fixtures.

Definition eurusd_info : SymbolInfo :=
  {| trade_tick_size := 1 # 100000;
     trade_tick_value := 1;
     trade_contract_size := 100000;
     digits := 5;
     volume_min := 1 # 100;
     volume_max := 100;
     volume_step := 1 # 100 |}.

(** The same symbol while the terminal reports no tick value yet. *)
Definition eurusd_info_no_tick_value : SymbolInfo :=
  {| trade_tick_size := 1 # 100000;
     trade_tick_value := 0;
     trade_contract_size := 100000;
     digits := 5;
     volume_min := 1 # 100;
     volume_max := 100;
     volume_step := 1 # 100 |}.

Definition xauusd_info_no_tick_value : SymbolInfo :=
  {| trade_tick_size := 1 # 100;
     trade_tick_value := 0;
     trade_contract_size := 100;
     digits := 2;
     volume_min := 1 # 100;
     volume_max := 50;
     volume_step := 1 # 100 |}.

Definition quote : Tick := {| bid := 11000 # 10000; ask := 11002 # 10000 |}.

Definition flat_bar : Bar :=
  {| bar_time := 0; bar_open := 11 # 10; bar_high := 11 # 10;
     bar_low := 11 # 10; bar_close := 11 # 10; bar_tick_volume := 1 |}.

Definition account (b : Q) : AccountInfo :=
  {| balance := b; equity := b; margin := 0 |}.

(** A terminal that knows one symbol. *)
Definition terminal_with (known : string) (info : SymbolInfo)
    (acct : option AccountInfo) (positions : option (list Position))
    (bars : nat) : MT5 :=
  {| initialize := true;
     login := true;
     account_info := acct;
     symbol_select := fun s => String.eqb s known;
     symbol_info := fun s => if String.eqb s known then Some info else None;
     symbol_info_tick := fun s => if String.eqb s known then Some quote else None;
     positions_get := positions;
     copy_rates_from_pos :=
       fun s _ => if String.eqb s known then Some (repeat flat_bar bars) else None |}.

(** Balance 10100: two percent are 202, the raw size 0.404 lots rounds to
    0.40 lots, whose risk of 200 is 1.98 percent of the balance. *)
Definition funded_terminal : MT5 :=
  terminal_with "EURUSD" eurusd_info (Some (account 10100)) None 40.

Definition unfunded_terminal : MT5 :=
  terminal_with "EURUSD" eurusd_info (Some (account 0)) None 40.

Definition overdrawn_terminal : MT5 :=
  terminal_with "EURUSD" eurusd_info (Some (account (-250))) None 40.

Definition no_tick_value_terminal : MT5 :=
  terminal_with "EURUSD" eurusd_info_no_tick_value (Some (account 10000)) None 40.

Definition gold_no_tick_value_terminal : MT5 :=
  terminal_with "XAUUSD" xauusd_info_no_tick_value (Some (account 10000)) None 40.

Definition short_history_terminal : MT5 :=
  terminal_with "EURUSD" eurusd_info (Some (account 10000)) None 33.

(** The indicators on flat bars: no true range, no return deviation, no
    price range. *)
Definition quiet : VolatilityAnalyzer.Indicators :=
  {| VolatilityAnalyzer.calculate_atr := fun _ _ _ => 0;
     VolatilityAnalyzer.annualized_volatility := fun _ => 0;
     VolatilityAnalyzer.price_range_percent := fun _ => 0 |}.

(** A ranking entry with a given score. *)
Definition scored (s : string) (q : Q) : VolatilityAnalyzer.Metrics :=
  {| VolatilityAnalyzer.symbol := s;
     VolatilityAnalyzer.atr := 0;
     VolatilityAnalyzer.atr_percentage := 0;
     VolatilityAnalyzer.volatility := 0;
     VolatilityAnalyzer.price_range := 0;
     VolatilityAnalyzer.current_price := 1;
     VolatilityAnalyzer.score := q |}.

Definition default_analyzer : VolatilityAnalyzer.t :=
  {| VolatilityAnalyzer.atr_period := 14;
     VolatilityAnalyzer.lookback_period := 20;
     VolatilityAnalyzer.indicators := quiet |}.

Definition quiet_host : MainLive.Host :=
  {| MainLive.mt5 := funded_terminal;
     MainLive.config_file := Returned None;
     MainLive.indicators := quiet;
     MainLive.compare_with_list := fun _ _ => Raised |}.

Definition offline_host : MainLive.Host :=
  {| MainLive.mt5 :=
       {| initialize := false;
          login := false;
          account_info := None;
          symbol_select := fun _ => false;
          symbol_info := fun _ => None;
          symbol_info_tick := fun _ => None;
          positions_get := None;
          copy_rates_from_pos := fun _ _ => None |};
     MainLive.config_file := Returned None;
     MainLive.indicators := quiet;
     MainLive.compare_with_list := fun _ _ => Raised |}.

(** A broker state for one symbol: the open positions per side and the
    terminal queries. *)
Record Book := {
  buys : nat;
  sells : nat;
  book_terminal : MT5
}.

Definition filled : MultiSymbolRobot.OrderResult :=
  {| MultiSymbolRobot.retcode := MultiSymbolRobot.TRADE_RETCODE_DONE;
     MultiSymbolRobot.order := 1;
     MultiSymbolRobot.volume := 4 # 10;
     MultiSymbolRobot.price := 11002 # 10000 |}.

Definition count_side (b : Book) (side : OrderType) : nat :=
  match side with
  | ORDER_TYPE_BUY => buys b
  | ORDER_TYPE_SELL => sells b
  end.

(** A trader that fills every order and closes what it is asked to. *)
Definition filling_trader : MultiSymbolRobot.Trader Book :=
  {| MultiSymbolRobot.terminal := book_terminal;
     MultiSymbolRobot.get_opened_positions :=
       fun b _ side => Returned (count_side b side, []);
     MultiSymbolRobot.open_position :=
       fun b _ _ side _ _ =>
         (Returned (Some filled),
          match side with
          | ORDER_TYPE_BUY =>
              {| buys := S (buys b); sells := sells b;
                 book_terminal := book_terminal b |}
          | ORDER_TYPE_SELL =>
              {| buys := buys b; sells := S (sells b);
                 book_terminal := book_terminal b |}
          end);
     MultiSymbolRobot.close_positions :=
       fun b _ _ side =>
         (Returned tt,
          match side with
          | ORDER_TYPE_BUY =>
              {| buys := 0; sells := sells b; book_terminal := book_terminal b |}
          | ORDER_TYPE_SELL =>
              {| buys := buys b; sells := 0; book_terminal := book_terminal b |}
          end) |}.

(** A trader whose terminal has automatic trading disabled: an order
    request returns [None] and changes nothing. *)
Definition disabled_trader : MultiSymbolRobot.Trader Book :=
  {| MultiSymbolRobot.terminal := book_terminal;
     MultiSymbolRobot.get_opened_positions :=
       fun b _ side => Returned (count_side b side, []);
     MultiSymbolRobot.open_position := fun b _ _ _ _ _ => (Returned None, b);
     MultiSymbolRobot.close_positions := fun b _ _ _ => (Returned tt, b) |}.

Definition always (s : Signal) : MultiSymbolRobot.TradingStrategy Book :=
  {| MultiSymbolRobot.signal := fun _ => Returned ("EURUSD", s) |}.

Definition no_metrics : MultiSymbolManager.t :=
  {| MultiSymbolManager.symbols := ["EURUSD"];
     MultiSymbolManager.timeframe := TIMEFRAME_H1;
     MultiSymbolManager.volatility_metrics := [] |}.

Definition robot_with (tr : MultiSymbolRobot.Trader Book) (s : Signal)
    : MultiSymbolRobot.t Book :=
  MultiSymbolRobot.init no_metrics tr [("EURUSD", always s)]
    RiskManager.default (1 # 10) 50.

Definition short_only (mt5 : MT5) : Book :=
  {| buys := 0; sells := 1; book_terminal := mt5 |}.

Definition long_and_short (mt5 : MT5) : Book :=
  {| buys := 1; sells := 1; book_terminal := mt5 |}.

End Fixtures.

(** ** Further vocabulary: combined strategy *)

Module CombinedStatements.
Import CombinedStrategy.

Definition answers_now (item : string * TradingStrategy) : bool :=
  match strategy_signal (snd item) with
  | Returned _ => true
  | Raised => false
  end.

(** The same combined strategy without the constituents that raise. *)
Definition without_failing (self : t) : t :=
  {| data := data self;
     require_all := require_all self;
     strategies := filter answers_now (strategies self) |}.

(** The same combined strategy over another dictionary of constituents. *)
Definition with_strategies (self : t) (items : list (string * TradingStrategy))
    : t :=
  {| data := data self; require_all := require_all self; strategies := items |}.

Definition known_names : list string := ["crossover"; "smc"; "trend_breakout"].

End CombinedStatements.

(** ** Further vocabulary: exposure *)

Module ExposureStatements.
Import RiskManager.

(** A measure of the positions of one symbol. *)
Definition symbol_share (f : Position -> Q) (df : list Position) (s : string) : Q :=
  Qsum (map f (filter (fun p => String.eqb (position_symbol p) s) df)).

(** The position count of the per-symbol breakdown of an exposure report. *)
Definition breakdown_positions (e : Exposure) : nat :=
  fold_right Nat.add 0%nat (map (fun kv => exposure_positions (snd kv)) (symbols e)).

Definition position (s : string) (side : OrderType) (lots pnl : Q) : Position :=
  {| position_symbol := s; position_type := side;
     position_volume := lots; position_profit := pnl |}.

(** A terminal whose only answer is a list of open positions. *)
Definition terminal_with_positions (positions : list Position) : MT5 :=
  {| initialize := true;
     login := true;
     account_info := None;
     symbol_select := fun _ => false;
     symbol_info := fun _ => None;
     symbol_info_tick := fun _ => None;
     positions_get := Some positions;
     copy_rates_from_pos := fun _ _ => None |}.

Definition three_positions : list Position :=
  [position "EURUSD" ORDER_TYPE_BUY (1 # 10) 12;
   position "XAUUSD" ORDER_TYPE_SELL (2 # 10) (-30);
   position "EURUSD" ORDER_TYPE_SELL (3 # 10) 5].

End ExposureStatements.

(** ** Further vocabulary: risk arithmetic *)

Module RiskStatements.
Import RiskManager.

(** The loss of one lot at the stop, as [calculate_position_size] computes
    it. *)
Definition per_lot_loss (info : SymbolInfo) (stop_loss_pips : Q) : Q :=
  pips_to_price_diff info stop_loss_pips * trade_tick_value info
  / trade_tick_size info.

(** The risk of a position, as [check_risk_limits] computes it. *)
Definition position_risk (info : SymbolInfo) (stop_loss_pips size : Q) : Q :=
  Qabs (pips_to_price_diff info stop_loss_pips * trade_tick_value info * size
        / trade_tick_size info).

Definition position_risk_percent (mt5 : MT5) (info : SymbolInfo)
    (stop_loss_pips size : Q) : Q :=
  position_risk info stop_loss_pips size / get_account_balance mt5 * 100.

Definition current_total_risk (mt5 : MT5) : Q :=
  Qabs (total_profit (get_total_exposure mt5 None))
  / get_account_balance mt5 * 100.

End RiskStatements.

(** ** Further vocabulary: orchestrator *)

Module RobotStatements.
Import MultiSymbolRobot.

Definition call_symbol (c : TraderCall) : string :=
  match c with
  | OpenPosition s _ _ _ _ => s
  | ClosePositions _ s _ => s
  end.

(** The robot of the fixtures with a cached ATR percentage for EURUSD. *)
Definition with_cached_atr (atr_pct : Q) : MultiSymbolManager.t :=
  {| MultiSymbolManager.symbols := ["EURUSD"];
     MultiSymbolManager.timeframe := TIMEFRAME_H1;
     MultiSymbolManager.volatility_metrics :=
       [("EURUSD",
         {| VolatilityAnalyzer.symbol := "EURUSD";
            VolatilityAnalyzer.atr := 0;
            VolatilityAnalyzer.atr_percentage := atr_pct;
            VolatilityAnalyzer.volatility := 0;
            VolatilityAnalyzer.price_range := 0;
            VolatilityAnalyzer.current_price := 1;
            VolatilityAnalyzer.score := atr_pct * (6 # 10) |})] |}.

End RobotStatements.

(** ** More Python and pandas helpers *)

(** Python list slice [l[n:]] for an [int] bound. *)
Definition slice_from {A} (l : list A) (n : Z) : list A :=
  if (n <? 0)%Z
  then skipn (Z.to_nat (Z.of_nat (length l) + n)) l
  else skipn (Z.to_nat n) l.

(** [Series.min()] and [Series.max()].  On an empty series pandas gives
    NaN, which is outside the model; the value 0 stands there, and the
    statements below are about non-empty windows. *)
Definition series_min (l : list Q) : Q :=
  match l with
  | [] => 0
  | x :: rest => fold_left py_min rest x
  end.

Definition series_max (l : list Q) : Q :=
  match l with
  | [] => 0
  | x :: rest => fold_left py_max rest x
  end.

(** [Series.iloc[-1]]: [IndexError] on an empty series. *)
Definition iloc_last (l : list Q) : outcome Q :=
  match l with
  | [] => Raised
  | x :: rest => Returned (last rest x)
  end.

(** [Series.rolling(window).mean().iloc[-1]] on a non-empty series: the
    mean of the last [window] values, NaN ([None]) when there are fewer. *)
Definition rolling_mean_last (window : nat) (l : list Q) : option Q :=
  if (length l <? window)%nat then None
  else Some (fold_left Qplus (skipn (length l - window) l) 0
             / inject_Z (Z.of_nat window)).

(** [x > y] where [y] may be NaN: false on NaN. *)
Definition gt_nan (x : Q) (y : option Q) : bool :=
  match y with
  | Some v => Qltb v x
  | None => false
  end.

(** A numpy quotient [num / den]: infinite or NaN on a zero divisor. *)
Inductive Float : Type :=
| Finite (q : Q)
| PlusInf
| MinusInf
| NaN.

Definition np_div (num den : Q) : Float :=
  if Qeq_bool den 0 then
    if Qeq_bool num 0 then NaN
    else if Qltb 0 num then PlusInf else MinusInf
  else Finite (num / den).

Definition gt_float (x : Q) (y : Float) : bool :=
  match y with
  | Finite v => Qltb v x
  | PlusInf => false
  | MinusInf => true
  | NaN => false
  end.

(** ** trend_breakout_strategy.py *)

Module TrendBreakoutStrategy.

(** Modelled from the spec: the data source ([get_bars], [get_symbol] of
    section 6), whose class [MT5Data] is not part of the sources.  The
    frame it returns has the columns of the terminal's rates, [tick_volume]
    among them. *)
Record TradingData := {
  get_data : outcome (list Bar);
  get_symbol : string
}.

Record t := {
  data : TradingData;
  lookback_period : Z;
  breakout_threshold : Q;
  (** The last entry of [talib.ADX(high, low, close, timeperiod)]: it may
      be NaN ([None]), and the call may raise. *)
  talib_ADX_last : list Bar -> Z -> outcome (option Q)
}.

(** [identify_support_resistance] *)
Definition identify_support_resistance (self : t) (df : list Bar) : Q * Q :=
  if (Z.of_nat (length df) <? lookback_period self)%Z then (0, 0)
  else
    let recent_data := slice_from df (- lookback_period self) in
    let support_level := series_min (map bar_low recent_data) in
    let resistance_level := series_max (map bar_high recent_data) in
    (support_level, resistance_level).

(** [detect_breakout] *)
Definition detect_breakout (self : t) (df : list Bar) (support resistance : Q)
    : bool * string :=
  if (length df <? 2)%nat then (false, "")
  else
    let current_high := last (map bar_high df) 0 in
    let current_low := last (map bar_low df) 0 in
    let bullish :=
      if Qltb resistance current_high then
        let breakout_amount :=
          if Qltb 0 resistance
          then (current_high - resistance) / resistance else 0 in
        Qle_bool (breakout_threshold self) breakout_amount
      else false in
    if bullish then (true, "bullish")
    else
      let bearish :=
        if Qltb current_low support then
          let breakout_amount :=
            if Qltb 0 support then (support - current_low) / support else 0 in
          Qle_bool (breakout_threshold self) breakout_amount
        else false in
      if bearish then (true, "bearish") else (false, "").

(** [calculate_trend_strength] *)
Definition calculate_trend_strength (self : t) (df : list Bar) : Q :=
  if (length df <? 14)%nat then 0
  else
    match talib_ADX_last self df 14 with
    | Returned (Some adx) => adx
    | Returned None => 0
    | Raised => 0
    end.

(** The last value of [calculate_volume_profile]: the cumulative typical
    price times tick volume over the cumulative tick volume. *)
Definition vwap_last (df : list Bar) : Float :=
  let typical_price (b : Bar) := (bar_high b + bar_low b + bar_close b) / 3 in
  let volume (b : Bar) := inject_Z (bar_tick_volume b) in
  np_div (fold_left Qplus (map (fun b => typical_price b * volume b) df) 0)
         (fold_left Qplus (map volume df) 0).

(** [TrendBreakoutStrategy.signal] *)
Definition signal (self : t) : outcome (string * Signal) :=
  (df <- get_data (data self) ;;
   let symbol := get_symbol (data self) in
   if (Z.of_nat (length df) <? lookback_period self + 5)%Z
   then Returned (symbol, NONE)
   else
     let (support, resistance) := identify_support_resistance self df in
     if Qeq_bool support 0 || Qeq_bool resistance 0
     then Returned (symbol, NONE)
     else
       let (is_breakout, direction) :=
         detect_breakout self df support resistance in
       let trend_strength := calculate_trend_strength self df in
       let closes := map bar_close df in
       let sma_fast := rolling_mean_last 9 closes in
       let sma_slow := rolling_mean_last 21 closes in
       current_price <- iloc_last closes ;;
       let price_above_sma_fast := gt_nan current_price sma_fast in
       let price_above_sma_slow := gt_nan current_price sma_slow in
       let price_above_vwap := gt_float current_price (vwap_last df) in
       if is_breakout && String.eqb direction "bullish"
          && Qltb 25 trend_strength
          && price_above_sma_fast && price_above_sma_slow
       then Returned (symbol, BUY)
       else if is_breakout && String.eqb direction "bearish"
               && Qltb 25 trend_strength
               && negb price_above_sma_fast && negb price_above_sma_slow
       then Returned (symbol, SELL)
       else if Qltb 30 trend_strength then
         let bullish_continuation :=
           price_above_sma_fast && price_above_sma_slow && price_above_vwap
           && match sma_fast, sma_slow with
              | Some f, Some s => Qltb s f
              | _, _ => false
              end
           && (let distance_to_support :=
                 if Qltb 0 support
                 then (current_price - support) / support else 0 in
               Qltb 0 distance_to_support
               && Qltb distance_to_support (5 # 1000)) in
         if bullish_continuation then Returned (symbol, BUY)
         else
           let bearish_continuation :=
             negb price_above_sma_fast && negb price_above_sma_slow
             && negb price_above_vwap
             && match sma_fast, sma_slow with
                | Some f, Some s => Qltb f s
                | _, _ => false
                end
             && (let distance_to_resistance :=
                   if Qltb 0 current_price
                   then (resistance - current_price) / current_price else 0 in
                 Qltb 0 distance_to_resistance
                 && Qltb distance_to_resistance (5 # 1000)) in
           if bearish_continuation then Returned (symbol, SELL)
           else Returned (symbol, NONE)
       else Returned (symbol, NONE))%outcome.

(** Fixtures: twenty-six bars at 1.10 and a last bar that spikes. *)
Definition bar_at (h l c : Q) : Bar :=
  {| bar_time := 0; bar_open := c; bar_high := h; bar_low := l;
     bar_close := c; bar_tick_volume := 10 |}.

Definition spike_frame : list Bar :=
  repeat (bar_at (111 # 100) (109 # 100) (110 # 100)) 26
  ++ [bar_at (120 # 100) (110 # 100) (119 # 100)].

Definition strong_trend (adx : Q) : list Bar -> Z -> outcome (option Q) :=
  fun _ _ => Returned (Some adx).

Definition on_frame (df : list Bar) (adx : Q) : t :=
  {| data := {| get_data := Returned df; get_symbol := "EURUSD" |};
     lookback_period := 20;
     breakout_threshold := 1 # 1000;
     talib_ADX_last := strong_trend adx |}.

End TrendBreakoutStrategy.

(** ** Python dictionaries and lists, continued *)

(** [d[k] = v]: the value of an existing key is replaced in place, a new
    key is appended. *)
Fixpoint dict_set {V} (k : string) (v : V) (d : list (string * V))
    : list (string * V) :=
  match d with
  | [] => [(k, v)]
  | (k', v') :: d' =>
      if String.eqb k k' then (k, v) :: d' else (k', v') :: dict_set k v d'
  end.

(** [del d[k]] *)
Definition dict_del {V} (k : string) (d : list (string * V))
    : list (string * V) :=
  filter (fun kv => negb (String.eqb k (fst kv))) d.

(** [k in d] *)
Definition dict_mem {V} (k : string) (d : list (string * V)) : bool :=
  match dict_get k d with
  | Some _ => true
  | None => false
  end.

(** [l.remove(x)] for an [x] that occurs in [l]: the first occurrence
    goes. *)
Fixpoint list_remove (x : string) (l : list string) : list string :=
  match l with
  | [] => []
  | y :: rest => if String.eqb x y then rest else y :: list_remove x rest
  end.

(** ** multi_symbol_manager.py: data sources, adding and removing symbols *)

Module MultiSymbolManagerOps.

Section DataSources.

(** The data source objects, and the constructor
    [MT5Data(login, server, password, terminal_path, symbol, timeframe)],
    which may raise; the class is not part of the sources. *)
Variable MT5Data : Type.
Variable new_MT5Data : string -> Z -> outcome MT5Data.

(** The manager: the fields modelled in [MultiSymbolManager.t] and the
    dictionary of data sources. *)
Record state := {
  core : MultiSymbolManager.t;
  data_sources : list (string * MT5Data)
}.

Definition symbols (self : state) : list string :=
  MultiSymbolManager.symbols (core self).

Definition timeframe (self : state) : Z :=
  MultiSymbolManager.timeframe (core self).

Definition volatility_metrics (self : state)
    : list (string * VolatilityAnalyzer.Metrics) :=
  MultiSymbolManager.volatility_metrics (core self).

Definition make (symbols_v : list string) (timeframe_v : Z)
    (metrics_v : list (string * VolatilityAnalyzer.Metrics))
    (sources_v : list (string * MT5Data)) : state :=
  {| core := {| MultiSymbolManager.symbols := symbols_v;
                MultiSymbolManager.timeframe := timeframe_v;
                MultiSymbolManager.volatility_metrics := metrics_v |};
     data_sources := sources_v |}.

(** [_initialize_data_sources]: the loop body for one symbol. *)
Definition initialize_one (mt5 : MT5) (timeframe_v : Z)
    (sources : list (string * MT5Data)) (symbol : string)
    : list (string * MT5Data) :=
  if negb (symbol_select mt5 symbol) then sources
  else
    match new_MT5Data symbol timeframe_v with
    | Returned data_source => dict_set symbol data_source sources
    | Raised => sources
    end.

(** [MultiSymbolManager.__init__], with [_initialize_data_sources]. *)
Definition init (mt5 : MT5) (symbols_v : list string) (timeframe_v : Z)
    : outcome state :=
  if negb (initialize mt5) then Raised
  else if negb (login mt5) then Raised
  else
    Returned
      (make symbols_v timeframe_v []
         (fold_left (initialize_one mt5 timeframe_v) symbols_v [])).

(** [get_data_source] *)
Definition get_data_source (self : state) (symbol : string) : option MT5Data :=
  dict_get symbol (data_sources self).

(** [get_volatility_metrics] *)
Definition get_volatility_metrics (self : state) (symbol : string)
    : option VolatilityAnalyzer.Metrics :=
  MultiSymbolManager.get_volatility_metrics (core self) symbol.

(** [get_active_symbols] *)
Definition get_active_symbols (self : state) : list string :=
  map fst (data_sources self).

(** [update_volatility_metrics] *)
Definition update_volatility_metrics (self : state)
    (analyzer : VolatilityAnalyzer.t) (mt5 : MT5) : state :=
  make (symbols self) (timeframe self)
    (fold_left
       (fun cache symbol =>
          match VolatilityAnalyzer.calculate_volatility_metrics
                  analyzer mt5 symbol (timeframe self) with
          | Some metrics => dict_set symbol metrics cache
          | None => cache
          end)
       (symbols self) (volatility_metrics self))
    (data_sources self).

(** [add_symbol] *)
Definition add_symbol (self : state) (mt5 : MT5) (symbol : string)
    : bool * state :=
  if dict_mem symbol (data_sources self) then (true, self)
  else if negb (symbol_select mt5 symbol) then (false, self)
  else
    match new_MT5Data symbol (timeframe self) with
    | Raised => (false, self)
    | Returned data_source =>
        (true,
         make (symbols self ++ [symbol]) (timeframe self)
           (volatility_metrics self)
           (dict_set symbol data_source (data_sources self)))
    end.

(** [remove_symbol] *)
Definition remove_symbol (self : state) (symbol : string) : bool * state :=
  if negb (dict_mem symbol (data_sources self)) then (false, self)
  else
    let sources := dict_del symbol (data_sources self) in
    let metrics :=
      if dict_mem symbol (volatility_metrics self)
      then dict_del symbol (volatility_metrics self)
      else volatility_metrics self in
    let symbols_v :=
      if existsb (String.eqb symbol) (symbols self)
      then list_remove symbol (symbols self)
      else symbols self in
    (true, make symbols_v (timeframe self) metrics sources).

(** The manager holds a data source only for symbols of its list. *)
Definition active_are_listed (self : state) : Prop :=
  incl (get_active_symbols self) (symbols self).

End DataSources.

Arguments core {MT5Data}.
Arguments data_sources {MT5Data}.
Arguments symbols {MT5Data}.
Arguments timeframe {MT5Data}.
Arguments volatility_metrics {MT5Data}.
Arguments make {MT5Data}.
Arguments init {MT5Data}.
Arguments get_data_source {MT5Data}.
Arguments get_volatility_metrics {MT5Data}.
Arguments get_active_symbols {MT5Data}.
Arguments update_volatility_metrics {MT5Data}.
Arguments add_symbol {MT5Data}.
Arguments remove_symbol {MT5Data}.
Arguments active_are_listed {MT5Data}.
Arguments initialize_one {MT5Data}.

(** Fixtures: a data source is the pair it was built from. *)
Definition pair_source (symbol : string) (timeframe_v : Z)
    : outcome (string * Z) :=
  Returned (symbol, timeframe_v).

Definition eurusd_only : state (string * Z) :=
  make ["EURUSD"] TIMEFRAME_H1 [] [("EURUSD", ("EURUSD", TIMEFRAME_H1))].

(** A terminal that knows EURUSD and XAUUSD. *)
Definition two_symbol_terminal : MT5 :=
  {| initialize := true;
     login := true;
     account_info := None;
     symbol_select := fun s => String.eqb s "EURUSD" || String.eqb s "XAUUSD";
     symbol_info := fun _ => None;
     symbol_info_tick := fun _ => None;
     positions_get := None;
     copy_rates_from_pos :=
       fun s _ => if String.eqb s "EURUSD"
                  then Some (repeat Fixtures.flat_bar 40) else None |}.

End MultiSymbolManagerOps.

(** ** volatility_analyzer.py: the average true range *)

Module AverageTrueRange.

(** Python list slice [l[a:b]] for [int] bounds. *)
Definition py_index_bound {A} (l : list A) (i : Z) : nat :=
  if (i <? 0)%Z then Z.to_nat (Z.of_nat (length l) + i)
  else Nat.min (Z.to_nat i) (length l).

Definition py_slice {A} (l : list A) (a b : Z) : list A :=
  let start := py_index_bound l a in
  let stop := py_index_bound l b in
  firstn (stop - start) (skipn start l).

(** [range(a, b)] *)
Definition z_range (a b : Z) : list Z :=
  map (fun k => (a + Z.of_nat k)%Z) (seq 0 (Z.to_nat (b - a))).

(** [np.mean] of a list of numbers: NaN ([None]) on an empty list. *)
Definition np_mean (l : list Q) : option Q :=
  match l with
  | [] => None
  | _ :: _ => Some (RiskManager.Qsum l / inject_Z (Z.of_nat (length l)))
  end.

Fixpoint all_numbers (l : list (option Q)) : option (list Q) :=
  match l with
  | [] => Some []
  | None :: _ => None
  | Some x :: rest =>
      match all_numbers rest with
      | Some xs => Some (x :: xs)
      | None => None
      end
  end.

(** [np.mean] of values some of which may be NaN: NaN if any is. *)
Definition np_mean_nan (l : list (option Q)) : option Q :=
  match all_numbers l with
  | Some xs => np_mean xs
  | None => None
  end.

(** The true range of a bar, given the previous close. *)
Definition true_range (previous_close : Q) (b : Bar) : Q :=
  let tr1 := bar_high b - bar_low b in
  let tr2 := Qabs (bar_high b - previous_close) in
  let tr3 := Qabs (bar_low b - previous_close) in
  py_max (py_max tr1 tr2) tr3.

Fixpoint true_ranges_from (previous_close : Q) (bars : list Bar) : list Q :=
  match bars with
  | [] => []
  | b :: rest => true_range previous_close b :: true_ranges_from (bar_close b) rest
  end.

(** [tr_list]: the true ranges of bars 1 .. len-1. *)
Definition tr_list (df : list Bar) : list Q :=
  match df with
  | [] => []
  | first :: rest => true_ranges_from (bar_close first) rest
  end.

(** [calculate_atr]; [None] is NaN. *)
Definition calculate_atr (atr_period lookback_period : Z) (df : list Bar)
    : option Q :=
  if (Z.of_nat (length df) <? atr_period + 1)%Z then Some 0
  else
    let trs := tr_list df in
    if (Z.of_nat (length trs) <? atr_period)%Z then Some 0
    else
      let atr_values :=
        map (fun i => np_mean (py_slice trs (i - atr_period + 1) (i + 1)))
            (z_range (atr_period - 1) (Z.of_nat (length trs))) in
      if (length atr_values =? 0)%nat then Some 0
      else if (lookback_period <=? Z.of_nat (length atr_values))%Z
           then np_mean_nan (slice_from atr_values (- lookback_period))
           else np_mean_nan atr_values.

(** A value between two bounds. *)
Definition within (lo hi : Q) (x : Q) : Prop := lo <= x /\ x <= hi.

(** Fixture: bars with a range of 2, each closing where it opened. *)
Definition wide_bar : Bar :=
  {| bar_time := 0; bar_open := 10; bar_high := 11; bar_low := 9;
     bar_close := 10; bar_tick_volume := 1 |}.

End AverageTrueRange.

(** ** smc_strategy.py: fair value gaps *)

Module SMCStrategy.

Definition empty_bar : Bar :=
  {| bar_time := 0; bar_open := 0; bar_high := 0; bar_low := 0;
     bar_close := 0; bar_tick_volume := 0 |}.

(** [df.iloc[i]] for an index within the frame. *)
Definition row (df : list Bar) (i : nat) : Bar := nth i df empty_bar.

(** The two tests of the loop body of [identify_fair_value_gaps] at
    index [i]. *)
Definition gap_flags (df : list Bar) (i : nat) : bool * bool :=
  let prev_high := bar_high (row df (i - 1)) in
  let prev_low := bar_low (row df (i - 1)) in
  let curr_high := bar_high (row df i) in
  let curr_low := bar_low (row df i) in
  let next_high := bar_high (row df (i + 1)) in
  let next_low := bar_low (row df (i + 1)) in
  (Qltb prev_high next_low && Qltb prev_high curr_low,
   Qltb next_high prev_low && Qltb curr_high prev_low).

(** [identify_fair_value_gaps]: two boolean series over the frame, set at
    the indices of [range(1, len(df) - 1)] that pass the tests. *)
Definition identify_fair_value_gaps (df : list Bar) : list bool * list bool :=
  let in_loop (i : nat) := (1 <=? i)%nat && (i + 1 <? length df)%nat in
  (map (fun i => in_loop i && fst (gap_flags df i)) (seq 0 (length df)),
   map (fun i => in_loop i && snd (gap_flags df i)) (seq 0 (length df))).

(** A bar whose low is not above its high. *)
Definition well_formed (b : Bar) : Prop := bar_low b <= bar_high b.

Definition candle (l h : Q) : Bar :=
  {| bar_time := 0; bar_open := l; bar_high := h; bar_low := l;
     bar_close := h; bar_tick_volume := 1 |}.

(** Three rising candles; the third opens above the high of the first. *)
Definition gap_up : list Bar := [candle 10 11; candle 12 14; candle 13 15].

End SMCStrategy.

(** ** Further vocabulary: misconfigured limits and degenerate metadata *)

Module LimitFixtures.

(** A manager whose configuration gives a negative per-symbol limit
    ([trading_config: risk_per_symbol: -0.01]). *)
Definition negative_symbol_limit : RiskManager.t :=
  {| RiskManager.risk_per_symbol := - (1 # 100);
     RiskManager.max_total_risk := 5 # 100 |}.

Definition negative_total_limit : RiskManager.t :=
  {| RiskManager.risk_per_symbol := 2 # 100;
     RiskManager.max_total_risk := - (5 # 100) |}.

(** EURUSD while the terminal reports a tick size of 0. *)
Definition eurusd_info_no_tick_size : SymbolInfo :=
  {| trade_tick_size := 0;
     trade_tick_value := 1;
     trade_contract_size := 100000;
     digits := 5;
     volume_min := 1 # 100;
     volume_max := 100;
     volume_step := 1 # 100 |}.

Definition overdrawn_no_tick_size_terminal : MT5 :=
  Fixtures.terminal_with "EURUSD" eurusd_info_no_tick_size
    (Some (Fixtures.account (-100))) None 40.

End LimitFixtures.

(** ** Further vocabulary: the calls of a cycle, by symbol *)

Module CycleStatements.
Import MultiSymbolRobot RobotStatements.

Definition is_open_for (symbol : string) (c : TraderCall) : bool :=
  is_any_open c && String.eqb (call_symbol c) symbol.

Definition is_close_for (symbol : string) (c : TraderCall) : bool :=
  is_any_close c && String.eqb (call_symbol c) symbol.

(** A robot that manages two symbols. *)
Definition two_symbol_robot : MultiSymbolRobot.t Fixtures.Book :=
  MultiSymbolRobot.init Fixtures.no_metrics Fixtures.filling_trader
    [("EURUSD", Fixtures.always BUY); ("XAUUSD", Fixtures.always SELL)]
    RiskManager.default (1 # 10) 50.

End CycleStatements.

(** ** Further vocabulary: configuration documents *)

Module StartupFixtures.

(** [volatility_config:] with nothing under it loads as a null entry. *)
Definition null_section : Yaml := YDict [("volatility_config", YNull)].

(** A threshold written as text. *)
Definition text_threshold : Yaml :=
  YDict [("volatility_config",
          YDict [("min_volatility_threshold", YText "high")])].

(** A threshold of 0, which every score of the quiet market reaches. *)
Definition zero_threshold : Yaml :=
  YDict [("volatility_config",
          YDict [("min_volatility_threshold", YNumber 0)])].

Definition host_with (document : Yaml) : MainLive.Host :=
  {| MainLive.mt5 := Fixtures.funded_terminal;
     MainLive.config_file := Returned (Some document);
     MainLive.indicators := Fixtures.quiet;
     MainLive.compare_with_list := fun _ _ => Raised |}.

End StartupFixtures.

(** ** Further vocabulary: binary64 statements and fixtures *)

Module Binary64Statements.
Import Binary64.

Local Open Scope float_scope.

(** The order of the float comparisons, read off a float's sign, exponent
    and mantissa; NaN has no place in it. *)
Definition sf_key (x : spec_float) : option (Z * Z * Z) :=
  match x with
  | S754_nan => None
  | S754_infinity true => Some (-2, 0, 0)%Z
  | S754_infinity false => Some (2, 0, 0)%Z
  | S754_zero _ => Some (0, 0, 0)%Z
  | S754_finite true m e => Some (-1, - e, - Zpos m)%Z
  | S754_finite false m e => Some (1, e, Zpos m)%Z
  end.

Definition key_lt (a b : Z * Z * Z) : Prop :=
  let '(a1, a2, a3) := a in
  let '(b1, b2, b3) := b in
  (a1 < b1 \/ (a1 = b1 /\ (a2 < b2 \/ (a2 = b2 /\ a3 < b3))))%Z.

Definition float_key (x : float) : option (Z * Z * Z) := sf_key (Prim2SF x).

(** The risk amount [calculate_position_size] works with. *)
Definition effective_risk_amount (self : RiskManager.t) (mt5 : MT5)
    (risk_amount : option float) : float :=
  match risk_amount with
  | None => RiskManager.get_account_balance mt5 * RiskManager.risk_per_symbol self
  | Some r => r
  end.

(** The loss of one lot at the stop, [price_diff * tick_value / tick_size]. *)
Definition per_lot_loss (info : SymbolInfo) (stop_loss_pips : float) : float :=
  RiskManager.pips_to_price_diff info stop_loss_pips * trade_tick_value info
  / trade_tick_size info.

(** The raw size and its count of lot steps, as the floats the code
    computes when no divisor is zero. *)
Definition raw_position_size (risk volatility_multiplier : float)
    (info : SymbolInfo) (stop_loss_pips : float) : float :=
  risk / volatility_multiplier / per_lot_loss info stop_loss_pips.

Definition step_count (risk volatility_multiplier : float)
    (info : SymbolInfo) (stop_loss_pips : float) : float :=
  raw_position_size risk volatility_multiplier info stop_loss_pips
  / volume_step info.

(** One of the four divisors of the size formula is zero. *)
Definition zero_divisor (volatility_multiplier : float) (info : SymbolInfo)
    (stop_loss_pips : float) : bool :=
  PrimFloat.is_zero volatility_multiplier
  || PrimFloat.is_zero (trade_tick_size info)
  || PrimFloat.is_zero (per_lot_loss info stop_loss_pips)
  || PrimFloat.is_zero (volume_step info).

(** The analyzer's metrics of the symbols that have them, in input order. *)
Definition available_metrics (self : VolatilityAnalyzer.t) (mt5 : MT5)
    (symbols : list string) (timeframe : Z) : list VolatilityAnalyzer.Metrics :=
  flat_map
    (fun s =>
       match VolatilityAnalyzer.calculate_volatility_metrics self mt5 s
               timeframe with
       | Some m => [m]
       | None => []
       end)
    symbols.

Definition has_metrics (self : VolatilityAnalyzer.t) (mt5 : MT5)
    (timeframe : Z) (s : string) : bool :=
  match VolatilityAnalyzer.calculate_volatility_metrics self mt5 s timeframe with
  | Some _ => true
  | None => false
  end.

(** [a] may stand before [b] in a descending ranking. *)
Definition score_ge (a b : VolatilityAnalyzer.Metrics) : Prop :=
  (VolatilityAnalyzer.score b <=? VolatilityAnalyzer.score a) = true.

Definition has_score (q : float) (m : VolatilityAnalyzer.Metrics) : bool :=
  VolatilityAnalyzer.score m =? q.

Definition score_is_number (m : VolatilityAnalyzer.Metrics) : Prop :=
  PrimFloat.is_nan (VolatilityAnalyzer.score m) = false.

(** *** Fixtures *)

Definition eurusd_info : SymbolInfo :=
  {| trade_tick_size := 0.00001;
     trade_tick_value := 1;
     trade_contract_size := 100000;
     digits := 5;
     volume_min := 0.01;
     volume_max := 100;
     volume_step := 0.01 |}.

(** The same symbol while the terminal reports no tick value yet. *)
Definition eurusd_info_no_tick_value : SymbolInfo :=
  {| trade_tick_size := 0.00001;
     trade_tick_value := 0;
     trade_contract_size := 100000;
     digits := 5;
     volume_min := 0.01;
     volume_max := 100;
     volume_step := 0.01 |}.

Definition xauusd_info_no_tick_value : SymbolInfo :=
  {| trade_tick_size := 0.01;
     trade_tick_value := 0;
     trade_contract_size := 100;
     digits := 2;
     volume_min := 0.01;
     volume_max := 50;
     volume_step := 0.01 |}.

Definition quote : Tick := {| bid := 1.1; ask := 1.1002 |}.

Definition account (b : float) : AccountInfo :=
  {| balance := b; equity := b; margin := 0 |}.

Definition bar (price : float) : Bar :=
  {| bar_time := 0; bar_open := price; bar_high := price;
     bar_low := price; bar_close := price; bar_tick_volume := 1 |}.

(** A terminal that knows one symbol, with no open positions. *)
Definition terminal_with (known : string) (info : SymbolInfo)
    (acct : option AccountInfo) : MT5 :=
  {| initialize := true;
     login := true;
     account_info := acct;
     symbol_select := fun s => String.eqb s known;
     symbol_info := fun s => if String.eqb s known then Some info else None;
     symbol_info_tick := fun s => if String.eqb s known then Some quote else None;
     positions_get := None;
     copy_rates_from_pos :=
       fun s _ => if String.eqb s known then Some (repeat (bar 1.1) 40) else None |}.

(** Balance 10625: two percent are 212.5, the raw size is 0.425 lots, and
    the float step count 42.50000000000001 rounds to 43 steps. *)
Definition funded_terminal : MT5 :=
  terminal_with "EURUSD" eurusd_info (Some (account 10625)).

Definition no_tick_value_terminal : MT5 :=
  terminal_with "EURUSD" eurusd_info_no_tick_value (Some (account 10625)).

(** Balance 10130: two percent are 202.6, the raw size 0.4052 lots rounds
    up to 0.41 lots, whose loss at the stop is 205. *)
Definition rounding_up_terminal : MT5 :=
  terminal_with "EURUSD" eurusd_info (Some (account 10130)).

Definition gold_no_tick_value_terminal : MT5 :=
  terminal_with "XAUUSD" xauusd_info_no_tick_value (Some (account 10625)).

(** Indicators that report the opening price of the last bar as the
    volatility, and no range. *)
Definition by_open : VolatilityAnalyzer.Indicators :=
  {| VolatilityAnalyzer.calculate_atr := fun _ _ _ => 0;
     VolatilityAnalyzer.annualized_volatility :=
       fun df => last (map bar_open df) 0;
     VolatilityAnalyzer.price_range_percent := fun _ => 0 |}.

Definition analyzer : VolatilityAnalyzer.t :=
  {| VolatilityAnalyzer.atr_period := 14;
     VolatilityAnalyzer.lookback_period := 20;
     VolatilityAnalyzer.indicators := by_open |}.

(** Three symbols with data; AUDUSD and GBPUSD score the same, EURUSD
    more, and XAUUSD is unknown. *)
Definition three_symbol_terminal : MT5 :=
  {| initialize := true;
     login := true;
     account_info := None;
     symbol_select :=
       fun s => String.eqb s "AUDUSD" || String.eqb s "EURUSD"
                || String.eqb s "GBPUSD";
     symbol_info := fun _ => None;
     symbol_info_tick := fun _ => None;
     positions_get := None;
     copy_rates_from_pos :=
       fun s _ =>
         if String.eqb s "EURUSD" then Some (repeat (bar 2) 40)
         else if String.eqb s "AUDUSD" || String.eqb s "GBPUSD"
              then Some (repeat (bar 1) 40)
              else None |}.

End Binary64Statements.

(** * Properties *)

(** ** Combined strategy *)

Section CombinedStrategyFacts.
Import CombinedStrategy.

(** The specification's threshold is the strict majority. *)
Lemma spec_majority_threshold_eq (n : nat) :
  spec_majority_threshold n = (n / 2 + 1)%nat.
Proof.
  unfold spec_majority_threshold, Qceiling, Qfloor, Qdiv, Qmult, Qinv, Qopp,
    inject_Z; simpl Qnum; simpl Qden.
  apply Nat2Z.inj. rewrite Nat2Z.inj_add, Nat2Z.inj_div.
  change (Z.of_nat 2) with 2%Z. change (Z.of_nat 1) with 1%Z.
  set (m := Z.of_nat n). assert (Hm : (0 <= m)%Z) by (subst m; lia).
  clearbody m.
  rewrite Z2Nat.id.
  - change (Z.pos (1 * 2)) with 2%Z.
    pose proof (Z.div_mod (- ((m + 1) * 1)) 2 ltac:(lia)).
    pose proof (Z.mod_pos_bound (- ((m + 1) * 1)) 2 ltac:(lia)).
    pose proof (Z.div_mod m 2 ltac:(lia)).
    pose proof (Z.mod_pos_bound m 2 ltac:(lia)).
    lia.
  - change (Z.pos (1 * 2)) with 2%Z.
    pose proof (Z.div_mod (- ((m + 1) * 1)) 2 ltac:(lia)).
    pose proof (Z.mod_pos_bound (- ((m + 1) * 1)) 2 ltac:(lia)).
    lia.
Qed.

(** What the code computes as its threshold: half, rounded up. *)
Lemma code_threshold_le_spec (n : nat) :
  ((n + 1) / 2 <= spec_majority_threshold n)%nat.
Proof.
  rewrite spec_majority_threshold_eq.
  pose proof (Nat.div_mod_eq (n + 1) 2). pose proof (Nat.div_mod_eq n 2).
  pose proof (Nat.mod_upper_bound (n + 1) 2 ltac:(lia)).
  pose proof (Nat.mod_upper_bound n 2 ltac:(lia)).
  lia.
Qed.

Lemma code_threshold_odd (n : nat) :
  Nat.odd n = true -> ((n + 1) / 2)%nat = spec_majority_threshold n.
Proof.
  intros Hodd. rewrite spec_majority_threshold_eq.
  apply Nat.odd_spec in Hodd. destruct Hodd as [k ->].
  replace (2 * k + 1 + 1)%nat with ((k + 1) * 2)%nat by lia.
  rewrite Nat.div_mul by lia.
  replace (2 * k + 1)%nat with (1 + k * 2)%nat by lia.
  rewrite Nat.div_add by lia. simpl. lia.
Qed.

(** Majority mode as the code decides it, for every list of constituents. *)
Lemma signal_majority_mode (self : t) :
  require_all self = false ->
  let signals := collect_signals (strategies self) in
  let n := length signals in
  n <> 0%nat ->
  signal self =
    (get_symbol (data self),
     if ((n + 1) / 2 <=? count_signal BUY signals)%nat then BUY
     else if ((n + 1) / 2 <=? count_signal SELL signals)%nat then SELL
     else NONE).
Proof.
  intros Hmode signals n Hn. unfold signal.
  destruct (Nat.eqb_spec (length (strategies self)) 0) as [E|_].
  - exfalso. apply Hn. subst n signals.
    destruct (strategies self); [reflexivity|discriminate].
  - fold signals. fold n.
    destruct (Nat.eqb_spec n 0) as [E|_]; [contradiction|].
    rewrite Hmode.
    destruct (_ <=? count_signal BUY signals)%nat; [reflexivity|].
    destruct (_ <=? count_signal SELL signals)%nat; reflexivity.
Qed.

(** With an odd number of usable constituents the code decides as the
    specification says. *)
Lemma signal_majority_mode_odd (self : t) :
  require_all self = false ->
  let signals := collect_signals (strategies self) in
  Nat.odd (length signals) = true ->
  snd (signal self) = spec_majority_decision signals.
Proof.
  intros Hmode signals Hodd.
  assert (Hn : length signals <> 0%nat).
  { intros E. rewrite E in Hodd. discriminate. }
  rewrite (signal_majority_mode self Hmode Hn). cbn [snd].
  unfold spec_majority_decision. fold signals.
  rewrite (code_threshold_odd _ Hodd). reflexivity.
Qed.

(** The two examples of the specification for three constituents. *)
Example three_votes_buy_buy_sell :
  signal (three_votes BUY BUY SELL) = ("EURUSD", BUY).
Proof. reflexivity. Qed.

Example three_votes_buy_sell_none :
  signal (three_votes BUY SELL NONE) = ("EURUSD", NONE).
Proof. reflexivity. Qed.

(** C1 (code departs from the claim): with two usable constituents that
    answer BUY and SELL, the threshold ceil((2+1)/2) of the claim is 2 and
    no side reaches it, so the claimed result is NONE; the code computes
    the threshold (2+1)//2 = 1, tests BUY first and returns BUY.  The same
    happens when three are configured and one raises. *)
Theorem C1_split_vote_returns_buy :
  collect_signals (strategies split_vote) = [BUY; SELL]
  /\ require_all split_vote = false
  /\ spec_majority_threshold 2 = 2%nat
  /\ count_signal BUY [BUY; SELL] = 1%nat
  /\ count_signal SELL [BUY; SELL] = 1%nat
  /\ spec_majority_decision [BUY; SELL] = NONE
  /\ signal split_vote = ("EURUSD", BUY)
  /\ collect_signals (strategies split_vote_after_failure) = [BUY; SELL]
  /\ signal split_vote_after_failure = ("EURUSD", BUY).
Proof. repeat split; reflexivity. Qed.

End CombinedStrategyFacts.

(** ** Rational arithmetic helpers *)

Section Arithmetic.

Lemma Qltb_true (a b : Q) : Qltb a b = true <-> a < b.
Proof.
  unfold Qltb. rewrite negb_true_iff. split.
  - intros H. apply Qnot_le_lt. intros Hle.
    apply Qle_bool_iff in Hle. congruence.
  - intros H. destruct (Qle_bool b a) eqn:E; [|reflexivity].
    apply Qle_bool_iff in E. exfalso. exact (Qlt_not_le _ _ H E).
Qed.

Lemma Qltb_false (a b : Q) : Qltb a b = false <-> b <= a.
Proof.
  unfold Qltb. rewrite negb_false_iff. apply Qle_bool_iff.
Qed.

Lemma Qeq_bool_false (a b : Q) : Qeq_bool a b = false <-> ~ a == b.
Proof.
  split.
  - intros H E. apply Qeq_bool_iff in E. congruence.
  - intros H. destruct (Qeq_bool a b) eqn:E; [|reflexivity].
    apply Qeq_bool_iff in E. contradiction.
Qed.

Lemma py_max_cases (a b : Q) :
  (a < b /\ py_max a b = b) \/ (b <= a /\ py_max a b = a).
Proof.
  unfold py_max. destruct (Qltb a b) eqn:E.
  - left. apply Qltb_true in E. auto.
  - right. apply Qltb_false in E. auto.
Qed.

Lemma py_min_cases (a b : Q) :
  (b < a /\ py_min a b = b) \/ (a <= b /\ py_min a b = a).
Proof.
  unfold py_min. destruct (Qltb b a) eqn:E.
  - left. apply Qltb_true in E. auto.
  - right. apply Qltb_false in E. auto.
Qed.

Lemma py_div_nonzero (a b : Q) : ~ b == 0 -> py_div a b = Returned (a / b).
Proof.
  intros H. unfold py_div. apply Qeq_bool_false in H. rewrite H. reflexivity.
Qed.


End Arithmetic.

(** ** Risk manager *)

Section RiskManagerFacts.
Import RiskManager Statements.

(** C3: with a zero balance [check_risk_limits] rejects with the message
    "Account balance is zero", whatever the symbol, the proposed size and
    the stop loss. *)
Theorem C3_zero_balance_always_rejected (self : t) (mt5 : MT5)
    (symbol : string) (proposed_position_size stop_loss_pips : Q) :
  get_account_balance mt5 == 0 ->
  check_risk_limits self mt5 symbol proposed_position_size stop_loss_pips
  = (false, Message "Account balance is zero").
Proof.
  intros Hzero. unfold check_risk_limits, check_risk_limits_body.
  apply Qeq_bool_iff in Hzero. rewrite Hzero. reflexivity.
Qed.

(** An account with balance 0 and a proposed 0.4 lots. *)
Lemma C3_zero_balance_witness :
  get_account_balance Fixtures.unfunded_terminal == 0
  /\ check_risk_limits default Fixtures.unfunded_terminal "EURUSD" (4 # 10) 50
     = (false, Message "Account balance is zero").
Proof.
  split.
  - reflexivity.
  - apply (C3_zero_balance_always_rejected default Fixtures.unfunded_terminal
             "EURUSD" (4 # 10) 50).
    reflexivity.
Defined.

(** What [check_risk_limits] returns under a strictly negative balance when
    symbol info and tick are there: both percentages are 0, so the limits
    alone decide. *)
Lemma check_risk_limits_overdrawn (self : t) (mt5 : MT5)
    (symbol : string) (size stop_loss_pips : Q) (info : SymbolInfo)
    (tick : Tick) :
  get_account_balance mt5 < 0 ->
  symbol_info mt5 symbol = Some info ->
  symbol_info_tick mt5 symbol = Some tick ->
  check_risk_limits self mt5 symbol size stop_loss_pips
  = if Qeq_bool (trade_tick_size info) 0 then (false, ErrorChecking)
    else if Qltb (risk_per_symbol self * 100) 0
    then (false, PositionRiskExceeds 0 (risk_per_symbol self * 100))
    else if Qltb (max_total_risk self * 100) 0
    then (false, TotalRiskExceeds 0 (max_total_risk self * 100))
    else (true, RiskCheckPassed 0 0).
Proof.
  intros Hneg Hinfo Htick. unfold check_risk_limits, check_risk_limits_body.
  assert (E0 : Qeq_bool (get_account_balance mt5) 0 = false).
  { apply Qeq_bool_false. intros E. rewrite E in Hneg. discriminate. }
  assert (E1 : Qltb 0 (get_account_balance mt5) = false).
  { apply Qltb_false. apply Qlt_le_weak. exact Hneg. }
  rewrite E0, Hinfo, Htick.
  unfold py_div. destruct (Qeq_bool (trade_tick_size info) 0); [reflexivity|].
  cbn [bind_outcome]. rewrite E1.
  destruct (Qltb (risk_per_symbol self * 100) 0); [reflexivity|].
  change (0 + 0) with 0.
  destruct (Qltb (max_total_risk self * 100) 0); reflexivity.
Qed.

(** C8 (claim as stated fails): on an overdrawn account with symbol info
    and tick available, a manager configured with a negative per-symbol
    limit rejects the trade on risk grounds (0 percent exceeds the limit),
    and so does one with a negative total limit; and when the terminal
    reports a tick size of 0 the risk formula raises and the trade is not
    allowed either. *)
Lemma C8_negative_limit_counterexample :
  get_account_balance Fixtures.overdrawn_terminal < 0
  /\ symbol_info Fixtures.overdrawn_terminal "EURUSD"
     = Some Fixtures.eurusd_info
  /\ symbol_info_tick Fixtures.overdrawn_terminal "EURUSD"
     = Some Fixtures.quote
  /\ check_risk_limits LimitFixtures.negative_symbol_limit
       Fixtures.overdrawn_terminal "EURUSD" (1 # 100) 50
     = (false, PositionRiskExceeds 0 (- (1 # 100) * 100))
  /\ check_risk_limits LimitFixtures.negative_total_limit
       Fixtures.overdrawn_terminal "EURUSD" (1 # 100) 50
     = (false, TotalRiskExceeds 0 (- (5 # 100) * 100))
  /\ get_account_balance LimitFixtures.overdrawn_no_tick_size_terminal < 0
  /\ symbol_info LimitFixtures.overdrawn_no_tick_size_terminal "EURUSD"
     = Some LimitFixtures.eurusd_info_no_tick_size
  /\ symbol_info_tick LimitFixtures.overdrawn_no_tick_size_terminal "EURUSD"
     = Some Fixtures.quote
  /\ check_risk_limits default LimitFixtures.overdrawn_no_tick_size_terminal
       "EURUSD" (1 # 100) 50
     = (false, ErrorChecking).
Proof. repeat split. Qed.

(** C8 (amended): under a strictly negative balance, with symbol info and
    tick available, the zero-balance guard does not fire and both
    percentages are 0, so the result does not depend on the proposed size
    or the stop: the trade is allowed exactly when the tick size is not
    zero and neither configured limit is negative.  A negative per-symbol
    limit rejects it on the per-symbol check, a negative total limit on the
    total check, and a tick size of 0 gives the error result. *)
Theorem C8_negative_balance_limits_decide (self : t) (mt5 : MT5)
    (symbol : string) (size stop_loss_pips : Q) (info : SymbolInfo)
    (tick : Tick) :
  get_account_balance mt5 < 0 ->
  symbol_info mt5 symbol = Some info ->
  symbol_info_tick mt5 symbol = Some tick ->
  let result := check_risk_limits self mt5 symbol size stop_loss_pips in
  result <> (false, Message "Account balance is zero")
  /\ (fst result = true
      <-> ~ trade_tick_size info == 0
          /\ 0 <= risk_per_symbol self /\ 0 <= max_total_risk self)
  /\ (fst result = true -> result = (true, RiskCheckPassed 0 0))
  /\ (~ trade_tick_size info == 0 -> risk_per_symbol self < 0 ->
      result = (false, PositionRiskExceeds 0 (risk_per_symbol self * 100)))
  /\ (~ trade_tick_size info == 0 -> 0 <= risk_per_symbol self ->
      max_total_risk self < 0 ->
      result = (false, TotalRiskExceeds 0 (max_total_risk self * 100)))
  /\ (trade_tick_size info == 0 -> result = (false, ErrorChecking)).
Proof.
  intros Hneg Hinfo Htick result. subst result.
  rewrite (check_risk_limits_overdrawn self mt5 symbol size stop_loss_pips
             info tick Hneg Hinfo Htick).
  destruct (Qeq_bool (trade_tick_size info) 0) eqn:Ets.
  { apply Qeq_bool_iff in Ets.
    repeat split; try discriminate; try tauto; cbn [fst] in *;
      try (intros; discriminate). }
  apply Qeq_bool_false in Ets.
  destruct (Qltb (risk_per_symbol self * 100) 0) eqn:Erps.
  { apply Qltb_true in Erps.
    repeat split; try discriminate; try tauto; cbn [fst] in *;
      try (intros; discriminate); try (intros; lra). }
  apply Qltb_false in Erps.
  destruct (Qltb (max_total_risk self * 100) 0) eqn:Emtr.
  { apply Qltb_true in Emtr.
    repeat split; try discriminate; try tauto; cbn [fst] in *;
      try (intros; discriminate); try (intros; lra). }
  apply Qltb_false in Emtr.
  repeat split; try discriminate; try tauto; cbn [fst] in *;
    try (intros; lra).
Qed.

(** A size of a million lots passes on an overdrawn account with the
    default limits. *)
Lemma C8_negative_balance_witness :
  get_account_balance Fixtures.overdrawn_terminal < 0
  /\ check_risk_limits default Fixtures.overdrawn_terminal "EURUSD" 1000000 50
     = (true, RiskCheckPassed 0 0).
Proof.
  split.
  - reflexivity.
  - pose proof (C8_negative_balance_limits_decide default
                  Fixtures.overdrawn_terminal "EURUSD" 1000000 50
                  Fixtures.eurusd_info Fixtures.quote
                  eq_refl eq_refl eq_refl) as H.
    cbv zeta in H. destruct H as [_ [Hiff [Hpass _]]].
    apply Hpass. apply Hiff.
    split; [discriminate|]. split; discriminate.
Defined.

(** Every missing-data branch of [calculate_position_size] yields 0. *)
Lemma calculate_position_size_missing_data (self : t) (mt5 : MT5)
    (symbol : string) (stop_loss_pips : Q) (risk_amount : option Q)
    (volatility_multiplier : Q) :
  symbol_select mt5 symbol = false
  \/ symbol_info mt5 symbol = None
  \/ symbol_info_tick mt5 symbol = None
  \/ (exists info, symbol_info mt5 symbol = Some info
                   /\ pips_to_price_diff info stop_loss_pips == 0) ->
  calculate_position_size self mt5 symbol stop_loss_pips risk_amount
    volatility_multiplier = 0.
Proof.
  intros H. unfold calculate_position_size, calculate_position_size_body.
  destruct (symbol_select mt5 symbol) eqn:Hsel; [|reflexivity]. cbn [negb].
  destruct (symbol_info mt5 symbol) as [info|] eqn:Hinfo; [|reflexivity].
  destruct (symbol_info_tick mt5 symbol) as [tick|] eqn:Htick; [|reflexivity].
  destruct H as [H|[H|[H|[info' [Hi Hpd]]]]]; try discriminate.
  injection Hi as <-.
  destruct (py_div _ volatility_multiplier); [|reflexivity].
  cbn [bind_outcome]. apply Qeq_bool_iff in Hpd. rewrite Hpd. reflexivity.
Qed.



End RiskManagerFacts.

Section PositionSizeClaims.
Import RiskManager Statements.

Example funded_size :
  calculate_position_size default Fixtures.funded_terminal "EURUSD" 50 None 1
  == 4 # 10.
Proof. vm_compute. reflexivity. Qed.

(** A budget of one cent rounds to zero lots and is raised to the minimum. *)
Example tiny_budget_size :
  calculate_position_size default Fixtures.funded_terminal "EURUSD" 50
    (Some (1 # 100)) 1
  == 1 # 100.
Proof. vm_compute. reflexivity. Qed.

End PositionSizeClaims.

(** ** Volatility analyzer *)

Section VolatilityAnalyzerFacts.
Import VolatilityAnalyzer Statements.

Variable self : VolatilityAnalyzer.t.
Variable mt5 : MT5.
Variable timeframe : Z.

Lemma metrics_symbol (s : string) (m : Metrics) :
  calculate_volatility_metrics self mt5 s timeframe = Some m -> symbol m = s.
Proof.
  unfold calculate_volatility_metrics. intros H.
  destruct (negb (symbol_select mt5 s)); [discriminate|].
  destruct (copy_rates_from_pos mt5 s timeframe) as [rates|]; [|discriminate].
  destruct (length rates =? 0)%nat; [discriminate|].
  destruct (Z.of_nat (length rates) <? _)%Z; [discriminate|].
  injection H as <-. reflexivity.
Qed.

Lemma unavailable_no_metrics (s : string) :
  data_unavailable self mt5 s timeframe ->
  calculate_volatility_metrics self mt5 s timeframe = None.
Proof.
  unfold data_unavailable, calculate_volatility_metrics.
  intros [H|[H|[H|[rates [H Hlen]]]]].
  - rewrite H. reflexivity.
  - rewrite H. destruct (negb _); reflexivity.
  - rewrite H. destruct (negb _); reflexivity.
  - rewrite H. destruct (negb _); [reflexivity|].
    destruct (length rates =? 0)%nat; [reflexivity|].
    apply Z.ltb_lt in Hlen. rewrite Hlen. reflexivity.
Qed.

Lemma collect_metrics_from (symbols : list string) (acc : list Metrics) :
  fold_left
    (fun results symbol_arg =>
       match calculate_volatility_metrics self mt5 symbol_arg timeframe with
       | Some metrics => results ++ [metrics]
       | None => results
       end)
    symbols acc
  = acc ++ available_metrics self mt5 symbols timeframe.
Proof.
  revert acc. induction symbols as [|s rest IH]; intros acc; cbn.
  - rewrite app_nil_r. reflexivity.
  - rewrite IH.
    destruct (calculate_volatility_metrics self mt5 s timeframe).
    + rewrite <- app_assoc. reflexivity.
    + reflexivity.
Qed.

Lemma collect_metrics_available (symbols : list string) :
  collect_metrics self mt5 symbols timeframe
  = available_metrics self mt5 symbols timeframe.
Proof. unfold collect_metrics. apply collect_metrics_from. Qed.

Lemma available_symbols (symbols : list string) :
  map symbol (available_metrics self mt5 symbols timeframe)
  = filter (has_metrics self mt5 timeframe) symbols.
Proof.
  induction symbols as [|s rest IH]; [reflexivity|].
  cbn [available_metrics flat_map filter]. unfold has_metrics at 1.
  fold (available_metrics self mt5 rest timeframe).
  destruct (calculate_volatility_metrics self mt5 s timeframe) as [m|] eqn:E.
  - cbn [app map]. rewrite IH, (metrics_symbol s m E). reflexivity.
  - exact IH.
Qed.

Lemma available_sound (symbols : list string) (m : Metrics) :
  In m (available_metrics self mt5 symbols timeframe) ->
  calculate_volatility_metrics self mt5 (symbol m) timeframe = Some m.
Proof.
  unfold available_metrics. rewrite in_flat_map. intros [s [_ Hin]].
  destruct (calculate_volatility_metrics self mt5 s timeframe) as [m'|] eqn:E;
    [|contradiction].
  destruct Hin as [<-|[]]. rewrite (metrics_symbol s m' E). exact E.
Qed.

(** *** The stable descending sort *)

Lemma insert_by_score_perm (m : Metrics) (l : list Metrics) :
  Permutation (insert_by_score m l) (m :: l).
Proof.
  induction l as [|x rest IH]; cbn; [reflexivity|].
  destruct (Qltb (score m) (score x)); [|reflexivity].
  rewrite IH. apply perm_swap.
Qed.

Lemma sort_by_score_reverse_perm (l : list Metrics) :
  Permutation (sort_by_score_reverse l) l.
Proof.
  induction l as [|x rest IH]; cbn; [constructor|].
  rewrite insert_by_score_perm. constructor. exact IH.
Qed.

Lemma insert_by_score_sorted (m : Metrics) (l : list Metrics) :
  StronglySorted score_ge l -> StronglySorted score_ge (insert_by_score m l).
Proof.
  induction 1 as [|x rest Hsorted IH Hall]; cbn.
  - constructor; constructor.
  - destruct (Qltb (score m) (score x)) eqn:E.
    + apply Qltb_true in E. constructor; [exact IH|].
      apply (Permutation_Forall (Permutation_sym (insert_by_score_perm m rest))).
      constructor; [|exact Hall].
      unfold score_ge. apply Qlt_le_weak. exact E.
    + apply Qltb_false in E. constructor.
      * constructor; assumption.
      * constructor; [exact E|].
        eapply Forall_impl; [|exact Hall].
        intros y Hy. unfold score_ge in *. eapply Qle_trans; eassumption.
Qed.

Lemma sort_by_score_reverse_sorted (l : list Metrics) :
  StronglySorted score_ge (sort_by_score_reverse l).
Proof.
  induction l as [|x rest IH]; cbn; [constructor|].
  apply insert_by_score_sorted. exact IH.
Qed.

(** Inserting moves an element only past strictly greater scores, so the
    entries of any one score keep their order. *)
Lemma insert_by_score_stable (q : Q) (m : Metrics) (l : list Metrics) :
  filter (has_score q) (insert_by_score m l) = filter (has_score q) (m :: l).
Proof.
  induction l as [|x rest IH]; [reflexivity|].
  cbn [insert_by_score].
  destruct (Qltb (score m) (score x)) eqn:E; [|reflexivity].
  apply Qltb_true in E. cbn [filter] in *. rewrite IH.
  unfold has_score.
  destruct (Qeq_bool (score m) q) eqn:Em; [|reflexivity].
  destruct (Qeq_bool (score x) q) eqn:Ex; [|reflexivity].
  apply Qeq_bool_iff in Em, Ex. rewrite Em, Ex in E.
  exfalso. exact (Qlt_irrefl _ E).
Qed.

Lemma sort_by_score_reverse_stable (q : Q) (l : list Metrics) :
  filter (has_score q) (sort_by_score_reverse l) = filter (has_score q) l.
Proof.
  induction l as [|x rest IH]; [reflexivity|].
  cbn [sort_by_score_reverse fold_right].
  fold (sort_by_score_reverse rest).
  rewrite insert_by_score_stable. cbn [filter]. rewrite IH. reflexivity.
Qed.

(** *** Slices *)

Lemma slice_to_prefix {A} (l : list A) (n : Z) :
  exists rest, l = slice_to l n ++ rest.
Proof.
  unfold slice_to. destruct (n <? 0)%Z.
  - exists (skipn (Z.to_nat (Z.of_nat (length l) + n)) l).
    symmetry. apply firstn_skipn.
  - exists (skipn (Z.to_nat n) l). symmetry. apply firstn_skipn.
Qed.

Lemma slice_to_length {A} (l : list A) (n : Z) :
  (0 <= n)%Z -> (Z.of_nat (length (slice_to l n)) <= n)%Z.
Proof.
  intros Hn. unfold slice_to. destruct (Z.ltb_spec n 0); [lia|].
  rewrite length_firstn. lia.
Qed.

(** Dropping entries from a ranking keeps its symbols distinct. *)
Lemma filtered_symbols_distinct (keep : Metrics -> bool) (ranked : list Metrics) :
  NoDup (map symbol ranked) -> NoDup (map symbol (filter keep ranked)).
Proof.
  induction ranked as [|m others IH]; intros Hdistinct; [exact Hdistinct|].
  apply NoDup_cons_iff in Hdistinct. destruct Hdistinct as [Hfresh Hothers].
  cbn [filter]. destruct (keep m); [|exact (IH Hothers)].
  cbn [map]. apply NoDup_cons; [|exact (IH Hothers)].
  intros Hin. apply Hfresh.
  apply (@incl_map _ _ symbol _ _ (incl_filter keep others)). exact Hin.
Qed.

End VolatilityAnalyzerFacts.

Section SelectionClaims.
Import VolatilityAnalyzer Statements.

(** C6: a symbol that cannot be selected, has no bars, or has fewer than
    [atr_period + lookback_period] bars gets no metrics, appears in no
    ranking (with a zero score or any other) and in no selection. *)
Theorem C6_unavailable_symbol_excluded (self : VolatilityAnalyzer.t)
    (mt5 : MT5) (timeframe : Z) (s : string) :
  data_unavailable self mt5 s timeframe ->
  calculate_volatility_metrics self mt5 s timeframe = None
  /\ (forall symbols m,
        In m (rank_symbols_by_volatility self mt5 symbols timeframe) ->
        symbol m <> s)
  /\ (forall symbols max_symbols min_volatility_threshold,
        ~ In s (select_top_volatile_symbols self mt5 symbols max_symbols
                  min_volatility_threshold timeframe)).
Proof.
  intros Hun.
  pose proof (unavailable_no_metrics self mt5 timeframe s Hun) as Hnone.
  assert (Hrank : forall symbols m,
             In m (rank_symbols_by_volatility self mt5 symbols timeframe) ->
             symbol m <> s).
  { intros symbols m Hin Hs. unfold rank_symbols_by_volatility in Hin.
    apply (Permutation_in _ (sort_by_score_reverse_perm _)) in Hin.
    rewrite collect_metrics_available in Hin.
    apply available_sound in Hin. rewrite Hs in Hin. congruence. }
  split; [exact Hnone|]. split; [exact Hrank|].
  intros symbols max_symbols threshold Hin.
  unfold select_top_volatile_symbols in Hin.
  destruct (slice_to_prefix
              (map symbol
                 (filter (fun r => Qle_bool threshold (score r))
                    (rank_symbols_by_volatility self mt5 symbols timeframe)))
              max_symbols) as [rest Hrest].
  assert (Hin' : In s (map symbol
                 (filter (fun r => Qle_bool threshold (score r))
                    (rank_symbols_by_volatility self mt5 symbols timeframe)))).
  { rewrite Hrest. apply in_or_app. left. exact Hin. }
  apply in_map_iff in Hin'. destruct Hin' as [m [Hs Hm]].
  apply filter_In in Hm. exact (Hrank symbols m (proj1 Hm) Hs).
Qed.

(** 33 bars with periods 14 and 20. *)
Lemma C6_unavailable_symbol_witness :
  calculate_volatility_metrics Fixtures.default_analyzer
    Fixtures.short_history_terminal "EURUSD" TIMEFRAME_H1 = None
  /\ ~ In "EURUSD"
       (select_top_volatile_symbols Fixtures.default_analyzer
          Fixtures.short_history_terminal ["EURUSD"] 3 0 TIMEFRAME_H1).
Proof.
  assert (Hun : data_unavailable Fixtures.default_analyzer
                  Fixtures.short_history_terminal "EURUSD" TIMEFRAME_H1).
  { right. right. right. exists (repeat Fixtures.flat_bar 33).
    split; [reflexivity|]. reflexivity. }
  destruct (C6_unavailable_symbol_excluded Fixtures.default_analyzer
              Fixtures.short_history_terminal TIMEFRAME_H1 "EURUSD" Hun)
    as [Hnone [_ Hsel]].
  split; [exact Hnone|apply Hsel].
Defined.

Example quiet_selection :
  select_top_volatile_symbols Fixtures.default_analyzer
    Fixtures.funded_terminal ["GBPUSD"; "EURUSD"] 3 0 TIMEFRAME_H1
  = ["EURUSD"].
Proof. vm_compute. reflexivity. Qed.

End SelectionClaims.

Section StartupSelectionClaims.
Import VolatilityAnalyzer MainLive Statements.

(** Equal scores keep the order of the input, also when written as
    different fractions. *)
Example sort_keeps_ties_in_input_order :
  map symbol
    (sort_by_score_reverse
       [Fixtures.scored "AUDUSD" (1 # 2); Fixtures.scored "EURUSD" 2;
        Fixtures.scored "GBPUSD" (2 # 4); Fixtures.scored "USDJPY" 2])
  = ["EURUSD"; "USDJPY"; "AUDUSD"; "GBPUSD"].
Proof. reflexivity. Qed.

(** What the threshold filter returns for a configuration value. *)
Lemma filter_by_threshold_number
    (compare_list : Q -> list Yaml -> outcome bool)
    (ranked : list Metrics) (v : Yaml) (q : Q) :
  as_number v = Some q ->
  filter_by_threshold compare_list ranked v
  = Returned (filter (fun r => Qle_bool q (score r)) ranked).
Proof.
  intros Hq. induction ranked as [|r rest IH]; [reflexivity|].
  cbn [filter_by_threshold filter]. rewrite IH.
  destruct v; try discriminate; cbn in Hq; injection Hq as <-;
    cbn [score_at_least bind_outcome]; reflexivity.
Qed.

Lemma filter_by_threshold_none
    (compare_list : Q -> list Yaml -> outcome bool)
    (ranked : list Metrics) (v : Yaml) :
  v = YNaN \/ v = YInf false ->
  filter_by_threshold compare_list ranked v = Returned [].
Proof.
  intros Hv. induction ranked as [|r rest IH]; [reflexivity|].
  cbn [filter_by_threshold]. rewrite IH.
  destruct Hv as [-> | ->]; reflexivity.
Qed.

Lemma filter_by_threshold_all
    (compare_list : Q -> list Yaml -> outcome bool) (ranked : list Metrics) :
  filter_by_threshold compare_list ranked (YInf true) = Returned ranked.
Proof.
  induction ranked as [|r rest IH]; [reflexivity|].
  cbn [filter_by_threshold]. rewrite IH. reflexivity.
Qed.

Lemma filter_by_threshold_type_error
    (compare_list : Q -> list Yaml -> outcome bool)
    (ranked : list Metrics) (v : Yaml) :
  no_order_with_float v = true ->
  ranked <> [] ->
  filter_by_threshold compare_list ranked v = Raised.
Proof.
  intros Hv Hne. destruct ranked as [|r rest]; [contradiction|].
  cbn [filter_by_threshold].
  destruct v; try discriminate; reflexivity.
Qed.

(** Whatever it returns is a sublist of the ranking, picked by a test on
    the entries. *)
Lemma filter_by_threshold_returned
    (compare_list : Q -> list Yaml -> outcome bool)
    (ranked : list Metrics) (v : Yaml) (passing : list Metrics) :
  filter_by_threshold compare_list ranked v = Returned passing ->
  exists keep, passing = filter keep ranked.
Proof.
  intros H.
  exists (fun r => match score_at_least compare_list (score r) v with
                   | Returned b => b
                   | Raised => false
                   end).
  revert passing H. induction ranked as [|r rest IH]; intros passing H.
  - injection H as <-. reflexivity.
  - cbn [filter_by_threshold] in H. cbn [filter].
    destruct (score_at_least compare_list (score r) v) as [keep|];
      [|discriminate].
    cbn [bind_outcome] in H.
    destruct (filter_by_threshold compare_list rest v) as [others|];
      [|discriminate].
    cbn [bind_outcome] in H. injection H as <-.
    rewrite (IH others eq_refl). reflexivity.
Qed.

(** The selection up to the threshold filter. *)
Lemma select_volatile_symbols_loaded (host : Host) (candidates : list string)
    (max_symbols : Z) (config section : list (string * Yaml)) :
  initialize (mt5 host) = true ->
  login (mt5 host) = true ->
  load_config host = Returned (YDict config) ->
  volatility_section config = Some section ->
  select_volatile_symbols host candidates max_symbols
  = match filter_by_threshold (compare_with_list host)
            (rank_symbols_by_volatility (startup_analyzer host) (mt5 host)
               candidates TIMEFRAME_H1)
            (configured_threshold section) with
    | Returned passing => slice_to (map symbol passing) max_symbols
    | Raised => slice_to candidates max_symbols
    end.
Proof.
  intros Hinit Hlogin Hconfig Hsection.
  unfold select_volatile_symbols, VolatilityAnalyzer.init.
  rewrite Hinit, Hlogin, Hconfig. cbn [negb bind_outcome yaml_get].
  unfold volatility_section in Hsection.
  unfold call_select_top_volatile_symbols, configured_threshold, startup_analyzer.
  destruct (dict_get "volatility_config" config) as [entry|].
  - destruct entry; try discriminate. injection Hsection as <-.
    cbn [bind_outcome yaml_get].
    destruct (filter_by_threshold _ _); reflexivity.
  - injection Hsection as <-. cbn [bind_outcome yaml_get dict_get].
    destruct (filter_by_threshold _ _); reflexivity.
Qed.

(** C2 (claim as stated fails): the only candidate with data scores 0,
    below the default threshold 0.5, so nothing is selected; the result is
    the empty list, not the candidates truncated to two, and start-up
    raises. *)
Lemma C2_empty_selection_counterexample :
  let candidates := ["EURUSD"; "GBPUSD"] in
  let ranked :=
    rank_symbols_by_volatility (startup_analyzer Fixtures.quiet_host)
      Fixtures.funded_terminal candidates TIMEFRAME_H1 in
  map symbol ranked = ["EURUSD"]
  /\ filter (fun r => Qle_bool (1 # 2) (score r)) ranked = []
  /\ select_volatile_symbols Fixtures.quiet_host candidates 2 = []
  /\ slice_to candidates 2 = ["EURUSD"; "GBPUSD"]
  /\ select_volatile_symbols Fixtures.quiet_host candidates 2
     <> slice_to candidates 2
  /\ initialize_selected_symbols Fixtures.quiet_host candidates 2 = Raised.
Proof.
  cbv zeta. repeat split; try reflexivity. vm_compute. discriminate.
Qed.

(** C2 (amended): [select_volatile_symbols] returns the caller's candidates
    in their order, truncated to max_n, exactly when the selection raises:
    the terminal cannot be initialised, the login fails, loading the
    configuration raises, the loaded document or its [volatility_config]
    entry is not a dictionary, or the configured threshold is null, text or
    a dictionary while the ranking is not empty.  When the selection
    completes with a numeric threshold, the result is the analyzer's
    selection: if no ranked symbol reaches the threshold it is the empty
    list, and start-up fails on it.  (Nothing is stated for a threshold
    given as a list, which numpy compares element by element.) *)
Theorem C2_fallback_only_when_selection_raises (host : Host)
    (candidates : list string) (max_symbols : Z) :
  let ranked :=
    rank_symbols_by_volatility (startup_analyzer host) (mt5 host) candidates
      TIMEFRAME_H1 in
  let selected := select_volatile_symbols host candidates max_symbols in
  (initialize (mt5 host) = false
   \/ login (mt5 host) = false
   \/ config_file host = Raised
   \/ (exists document,
         load_config host = Returned document /\ is_dict document = false)
   \/ (exists config,
         load_config host = Returned (YDict config)
         /\ volatility_section config = None)
   \/ (exists config section,
         load_config host = Returned (YDict config)
         /\ volatility_section config = Some section
         /\ no_order_with_float (configured_threshold section) = true
         /\ ranked <> []) ->
   selected = slice_to candidates max_symbols)
  /\ (forall config section,
        initialize (mt5 host) = true ->
        login (mt5 host) = true ->
        load_config host = Returned (YDict config) ->
        volatility_section config = Some section ->
        (forall q,
           as_number (configured_threshold section) = Some q ->
           selected
           = select_top_volatile_symbols (startup_analyzer host) (mt5 host)
               candidates max_symbols q TIMEFRAME_H1
           /\ ((forall m, In m ranked -> score m < q) ->
               selected = []
               /\ initialize_selected_symbols host candidates max_symbols
                  = Raised))
        /\ (configured_threshold section = YNaN
            \/ configured_threshold section = YInf false ->
            selected = [])
        /\ (configured_threshold section = YInf true ->
            selected = slice_to (map symbol ranked) max_symbols)
        /\ (ranked = [] -> selected = [])).
Proof.
  intros ranked selected. split.
  - intros H. subst selected.
    destruct (initialize (mt5 host)) eqn:Hinit.
    2:{ unfold select_volatile_symbols, VolatilityAnalyzer.init.
        rewrite Hinit. reflexivity. }
    destruct (login (mt5 host)) eqn:Hlogin.
    2:{ unfold select_volatile_symbols, VolatilityAnalyzer.init.
        rewrite Hinit, Hlogin. reflexivity. }
    destruct H as [H|[H|[H|[H|[H|H]]]]]; try discriminate.
    + unfold select_volatile_symbols, VolatilityAnalyzer.init, load_config.
      rewrite Hinit, Hlogin, H. reflexivity.
    + destruct H as [document [Hconfig Hdict]].
      unfold select_volatile_symbols, VolatilityAnalyzer.init.
      rewrite Hinit, Hlogin, Hconfig. cbn [negb bind_outcome].
      destruct document; try discriminate; reflexivity.
    + destruct H as [config [Hconfig Hsection]].
      unfold select_volatile_symbols, VolatilityAnalyzer.init.
      rewrite Hinit, Hlogin, Hconfig. cbn [negb bind_outcome yaml_get].
      unfold volatility_section in Hsection.
      destruct (dict_get "volatility_config" config) as [entry|];
        [|discriminate].
      destruct entry; try discriminate; reflexivity.
    + destruct H as [config [section [Hconfig [Hsection [Hv Hne]]]]].
      rewrite (select_volatile_symbols_loaded host candidates max_symbols
                 config section Hinit Hlogin Hconfig Hsection).
      fold ranked.
      rewrite (filter_by_threshold_type_error _ ranked _ Hv Hne). reflexivity.
  - intros config section Hinit Hlogin Hconfig Hsection.
    pose proof (select_volatile_symbols_loaded host candidates max_symbols
                  config section Hinit Hlogin Hconfig Hsection) as Hsel.
    fold ranked in Hsel. fold selected in Hsel.
    split; [|split; [|split]].
    + intros q Hq.
      rewrite (filter_by_threshold_number _ ranked _ q Hq) in Hsel.
      split; [exact Hsel|].
      intros Hbelow.
      assert (Hempty : selected = []).
      { rewrite Hsel.
        replace (filter _ ranked) with (@nil Metrics).
        - unfold slice_to. cbn [map length]. destruct (max_symbols <? 0)%Z;
            apply firstn_nil.
        - symmetry. clear Hsel.
          induction ranked as [|m rest IH]; [reflexivity|].
          cbn [filter].
          assert (E : Qle_bool q (score m) = false).
          { destruct (Qle_bool _ _) eqn:E; [|reflexivity].
            apply Qle_bool_iff in E.
            pose proof (Hbelow m (or_introl eq_refl)). lra. }
          rewrite E. apply IH. intros m' Hm'. apply Hbelow. right. exact Hm'. }
      split; [exact Hempty|].
      unfold initialize_selected_symbols. fold selected. rewrite Hempty.
      destruct (length candidates =? 0)%nat; reflexivity.
    + intros Hv. rewrite (filter_by_threshold_none _ ranked _ Hv) in Hsel.
      rewrite Hsel. unfold slice_to. cbn [map length].
      destruct (max_symbols <? 0)%Z; apply firstn_nil.
    + intros Hv. rewrite Hv, filter_by_threshold_all in Hsel. exact Hsel.
    + intros Hnil. rewrite Hnil in Hsel. cbn [filter_by_threshold map] in Hsel.
      rewrite Hsel. unfold slice_to. cbn [length].
      destruct (max_symbols <? 0)%Z; apply firstn_nil.
Qed.

(** Without a terminal the first two candidates come back, and so they do
    with a terminal and a null [volatility_config] entry; with the default
    threshold and a quiet market nothing does. *)
Lemma C2_fallback_witness :
  select_volatile_symbols Fixtures.offline_host
    ["EURUSD"; "GBPUSD"; "XAUUSD"] 2
  = ["EURUSD"; "GBPUSD"]
  /\ select_volatile_symbols
       (StartupFixtures.host_with StartupFixtures.null_section)
       ["GBPUSD"; "EURUSD"; "XAUUSD"] 2
     = ["GBPUSD"; "EURUSD"]
  /\ select_volatile_symbols Fixtures.quiet_host ["EURUSD"; "GBPUSD"] 2 = [].
Proof.
  split; [|split].
  - apply (proj1 (C2_fallback_only_when_selection_raises Fixtures.offline_host
                    ["EURUSD"; "GBPUSD"; "XAUUSD"] 2)).
    left. reflexivity.
  - apply (proj1 (C2_fallback_only_when_selection_raises
                    (StartupFixtures.host_with StartupFixtures.null_section)
                    ["GBPUSD"; "EURUSD"; "XAUUSD"] 2)).
    right. right. right. right. left.
    exists [("volatility_config", YNull)]. split; reflexivity.
  - refine (proj1 (proj2 (proj1 (proj2 (C2_fallback_only_when_selection_raises
              Fixtures.quiet_host ["EURUSD"; "GBPUSD"] 2)
              [] [] eq_refl eq_refl eq_refl eq_refl) (1 # 2) eq_refl) _)).
    intros m Hm. vm_compute in Hm. destruct Hm as [<-|[]]. reflexivity.
Defined.

(** A threshold written as text makes the comparison raise, and the
    candidates come back in their order although EURUSD alone has data. *)
Example text_threshold_falls_back :
  select_volatile_symbols
    (StartupFixtures.host_with StartupFixtures.text_threshold)
    ["GBPUSD"; "EURUSD"; "XAUUSD"] 2
  = ["GBPUSD"; "EURUSD"].
Proof. vm_compute. reflexivity. Qed.

Example zero_threshold_selects :
  select_volatile_symbols
    (StartupFixtures.host_with StartupFixtures.zero_threshold)
    ["GBPUSD"; "EURUSD"; "XAUUSD"] 2
  = ["EURUSD"].
Proof. vm_compute. reflexivity. Qed.

End StartupSelectionClaims.

(** ** Orchestrator *)

Section RobotFacts.
Import MultiSymbolRobot Statements.

Context {World : Type}.
Variable self : MultiSymbolRobot.t World.
Variable symbol : string.

Lemma count_one_open (side : OrderType) (lots : Q) (comment : string)
    (magic : Z) (rest : list TraderCall) :
  count_calls (is_open side symbol)
    (OpenPosition symbol lots side comment magic :: rest)
  = S (count_calls (is_open side symbol) rest).
Proof.
  unfold count_calls. cbn [filter is_open].
  destruct side; rewrite String.eqb_refl; reflexivity.
Qed.

Lemma count_one_close (side : OrderType) (robot_name : string)
    (rest : list TraderCall) :
  count_calls (is_close side symbol)
    (ClosePositions robot_name symbol side :: rest)
  = S (count_calls (is_close side symbol) rest).
Proof.
  unfold count_calls. cbn [filter is_close].
  destruct side; rewrite String.eqb_refl; reflexivity.
Qed.

(** What the closing step adds to the calls made so far. *)
Lemma close_opposite_calls (side : OrderType) (w : World)
    (calls : list TraderCall) (n : nat) (ps : list Position) :
  get_opened_positions (trader self) w symbol side = Returned (n, ps) ->
  snd (close_opposite self symbol side w calls)
  = if (0 <? n)%nat
    then calls ++ [ClosePositions (name self) symbol side]
    else calls.
Proof.
  intros H. unfold close_opposite. rewrite H.
  destruct (0 <? n)%nat; [|reflexivity].
  destruct (close_positions (trader self) w (name self) symbol side).
  reflexivity.
Qed.

(** The trader calls of [trade_symbol] for a signal on [side], by cases on
    what the trader and the risk check answer. *)
Lemma trade_symbol_signal (w : World) (strategy : TradingStrategy World)
    (signal_symbol : string) (side : OrderType) :
  dict_get symbol (strategies self) = Some strategy ->
  signal strategy w = Returned (signal_symbol, signal_of_side side) ->
  let mt5 := terminal (trader self) w in
  let size := calculate_position_size self mt5 symbol 1 in
  let request :=
    OpenPosition symbol size side (side_comment (name self) side)
      (magic_number self) in
  trade_symbol self symbol w
  = match get_opened_positions (trader self) w symbol side with
    | Raised => (w, [])
    | Returned (total_same, _) =>
        if (total_same =? 0)%nat then
          if negb (fst (check_risk_before_trade self mt5 symbol size))
          then (w, [])
          else
            match open_position (trader self) w symbol size side
                    (side_comment (name self) side) (magic_number self) with
            | (Raised, w') => (w', [request])
            | (Returned None, w') => (w', [request])
            | (Returned (Some _), w') =>
                close_opposite self symbol (opposite side) w' [request]
            end
        else close_opposite self symbol (opposite side) w []
    end.
Proof.
  intros Hstrategy Hsignal mt5 size request.
  unfold trade_symbol. rewrite Hstrategy, Hsignal.
  destruct side; cbn [signal_of_side side_comment opposite];
    fold mt5; fold size;
    (destruct (get_opened_positions (trader self) w symbol _)
       as [[total_same ps]|]; [|reflexivity]);
    (destruct (total_same =? 0)%nat; [|reflexivity]);
    destruct (check_risk_before_trade self mt5 symbol size)
      as [is_allowed reason];
    reflexivity.
Qed.

End RobotFacts.

Section RobotClaims.
Import MultiSymbolRobot Statements.

(** C5 (claim as stated fails): the strategy says BUY, no BUY position is
    open, the risk check passes and a SELL position is open, but the close
    call is not made: the terminal has automatic trading disabled, the open
    request returns [None] and [trade_symbol] returns at once. *)
Lemma C5_open_returns_none_counterexample :
  let robot := Fixtures.robot_with Fixtures.disabled_trader BUY in
  let w := Fixtures.short_only Fixtures.funded_terminal in
  let size := calculate_position_size robot (terminal (trader robot) w) "EURUSD" 1 in
  let calls := snd (trade_symbol robot "EURUSD" w) in
  get_opened_positions (trader robot) w "EURUSD" ORDER_TYPE_BUY = Returned (0%nat, [])
  /\ fst (check_risk_before_trade robot (terminal (trader robot) w) "EURUSD" size)
     = true
  /\ get_opened_positions (trader robot) w "EURUSD" ORDER_TYPE_SELL
     = Returned (1%nat, [])
  /\ count_calls (is_open ORDER_TYPE_BUY "EURUSD") calls = 1%nat
  /\ count_calls (is_close ORDER_TYPE_SELL "EURUSD") calls = 0%nat
  /\ count_calls (is_close ORDER_TYPE_SELL "EURUSD") calls <> 1%nat.
Proof.
  cbv zeta. repeat split; try (vm_compute; reflexivity).
  vm_compute. discriminate.
Qed.

(** C5 (amended): for a BUY signal (symmetrically SELL), when the query
    reports no open position on the signalled side and the risk check
    passes, exactly one open call for that side is made; when that call
    returns a result and the query then reports a position on the opposite
    side, exactly one close call for the opposite side follows, and when it
    returns no result or raises no close call is made.  When a position on
    the signalled side already exists, no open call is made and the
    opposite side is closed by exactly one call if it has a position. *)
Theorem C5_signal_reconciliation {World : Type}
    (self : MultiSymbolRobot.t World) (symbol : string) (w : World)
    (strategy : TradingStrategy World) (signal_symbol : string)
    (side : OrderType) (total_same : nat) (positions : list Position) :
  dict_get symbol (strategies self) = Some strategy ->
  signal strategy w = Returned (signal_symbol, signal_of_side side) ->
  get_opened_positions (trader self) w symbol side
  = Returned (total_same, positions) ->
  let mt5 := terminal (trader self) w in
  let size := calculate_position_size self mt5 symbol 1 in
  let calls := snd (trade_symbol self symbol w) in
  let request :=
    OpenPosition symbol size side (side_comment (name self) side)
      (magic_number self) in
  let close := ClosePositions (name self) symbol (opposite side) in
  (total_same = 0%nat ->
   fst (check_risk_before_trade self mt5 symbol size) = true ->
   count_calls is_any_open calls = 1%nat
   /\ count_calls (is_open side symbol) calls = 1%nat
   /\ (forall result w',
         open_position (trader self) w symbol size side
           (side_comment (name self) side) (magic_number self)
         = (result, w') ->
         match result with
         | Returned (Some _) =>
             forall n ps,
               get_opened_positions (trader self) w' symbol (opposite side)
               = Returned (n, ps) ->
               calls = (if (0 <? n)%nat then [request; close] else [request])
               /\ count_calls is_any_close calls
                  = (if (0 <? n)%nat then 1%nat else 0%nat)
               /\ count_calls (is_close (opposite side) symbol) calls
                  = (if (0 <? n)%nat then 1%nat else 0%nat)
         | Returned None | Raised =>
             calls = [request] /\ count_calls is_any_close calls = 0%nat
         end))
  /\ (total_same <> 0%nat ->
      count_calls is_any_open calls = 0%nat
      /\ (forall n ps,
            get_opened_positions (trader self) w symbol (opposite side)
            = Returned (n, ps) ->
            calls = (if (0 <? n)%nat then [close] else [])
            /\ count_calls is_any_close calls
               = (if (0 <? n)%nat then 1%nat else 0%nat)
            /\ count_calls (is_close (opposite side) symbol) calls
               = (if (0 <? n)%nat then 1%nat else 0%nat))).
Proof.
  intros Hstrategy Hsignal Hsame mt5 size calls request close.
  pose proof (trade_symbol_signal self symbol w strategy signal_symbol side
                Hstrategy Hsignal) as Hrun.
  cbv zeta in Hrun. fold mt5 in Hrun. fold size in Hrun. fold request in Hrun.
  rewrite Hsame in Hrun.
  split.
  - intros -> Hallowed. cbn [Nat.eqb] in Hrun. rewrite Hallowed in Hrun.
    cbn [negb] in Hrun.
    destruct (open_position (trader self) w symbol size side
                (side_comment (name self) side) (magic_number self))
      as [result w1] eqn:Hopen.
    assert (Hhead : exists rest,
               calls = request :: rest
               /\ count_calls is_any_open rest = 0%nat
               /\ count_calls (is_open side symbol) rest = 0%nat).
    { subst calls. rewrite Hrun.
      destruct result as [[res|]|].
      2:{ exists nil. repeat split. }
      2:{ exists nil. repeat split. }
      unfold close_opposite.
      destruct (get_opened_positions (trader self) w1 symbol (opposite side))
        as [[n ps]|].
      2:{ exists nil. repeat split. }
      destruct (0 <? n)%nat.
      2:{ exists nil. repeat split. }
      destruct (close_positions (trader self) w1 (name self) symbol
                  (opposite side)).
      exists [ClosePositions (name self) symbol (opposite side)].
      repeat split. }
    destruct Hhead as [rest [Hcalls [Hopens Hsides]]].
    split; [rewrite Hcalls; unfold count_calls in *; cbn; congruence|].
    split; [rewrite Hcalls; unfold request; rewrite count_one_open;
            congruence|].
    intros result' w' Heq. injection Heq as <- <-.
    subst calls. rewrite Hrun.
    destruct result as [[res|]|]; [|split; reflexivity|split; reflexivity].
    intros n ps Hopp.
    rewrite (close_opposite_calls self symbol (opposite side) w1 [request]
               n ps Hopp).
    destruct (0 <? n)%nat.
    + split; [reflexivity|]. split; [reflexivity|].
      cbn [app]. unfold count_calls at 1. cbn [filter is_close].
      fold close. fold (count_calls (is_close (opposite side) symbol) [close]).
      replace (filter (is_close (opposite side) symbol) (request :: [close]))
        with (filter (is_close (opposite side) symbol) [close]).
      * apply (count_one_close symbol (opposite side) (name self) []).
      * cbn [filter]. unfold request at 2. cbn [is_close].
        destruct (opposite side); reflexivity.
    + split; [reflexivity|]. split; [reflexivity|].
      unfold count_calls. cbn [filter]. unfold request. cbn [is_close].
      destruct (opposite side); reflexivity.
  - intros Hexists.
    destruct (Nat.eqb_spec total_same 0) as [E|_]; [contradiction|].
    assert (Hcases : forall n ps,
               get_opened_positions (trader self) w symbol (opposite side)
               = Returned (n, ps) ->
               calls = (if (0 <? n)%nat then [close] else [])).
    { intros n ps Hopp. subst calls. rewrite Hrun.
      rewrite (close_opposite_calls self symbol (opposite side) w [] n ps Hopp).
      destruct (0 <? n)%nat; reflexivity. }
    split.
    + subst calls. rewrite Hrun. unfold close_opposite.
      destruct (get_opened_positions (trader self) w symbol (opposite side))
        as [[n ps]|]; [|reflexivity].
      destruct (0 <? n)%nat; [|reflexivity].
      destruct (close_positions (trader self) w (name self) symbol
                  (opposite side)).
      reflexivity.
    + intros n ps Hopp. rewrite (Hcases n ps Hopp).
      destruct (0 <? n)%nat.
      * split; [reflexivity|]. split; [reflexivity|].
        apply (count_one_close symbol (opposite side) (name self) []).
      * repeat split.
Qed.

(** A filling trader, a BUY signal and an open SELL position: one open-BUY
    call, then one close-SELL call. *)
Lemma C5_signal_reconciliation_witness :
  let robot := Fixtures.robot_with Fixtures.filling_trader BUY in
  let w := Fixtures.short_only Fixtures.funded_terminal in
  let calls := snd (trade_symbol robot "EURUSD" w) in
  count_calls (is_open ORDER_TYPE_BUY "EURUSD") calls = 1%nat
  /\ count_calls (is_close ORDER_TYPE_SELL "EURUSD") calls = 1%nat.
Proof.
  cbv zeta.
  pose proof (C5_signal_reconciliation
                (Fixtures.robot_with Fixtures.filling_trader BUY) "EURUSD"
                (Fixtures.short_only Fixtures.funded_terminal)
                (Fixtures.always BUY) "EURUSD" ORDER_TYPE_BUY 0 []
                eq_refl eq_refl eq_refl) as H.
  cbv zeta in H. destruct H as [H _].
  assert (Hallowed :
    fst (check_risk_before_trade
           (Fixtures.robot_with Fixtures.filling_trader BUY)
           Fixtures.funded_terminal "EURUSD"
           (calculate_position_size
              (Fixtures.robot_with Fixtures.filling_trader BUY)
              Fixtures.funded_terminal "EURUSD" 1)) = true)
    by (vm_compute; reflexivity).
  destruct (H eq_refl Hallowed) as [_ [Hopen Hclose]].
  split; [exact Hopen|].
  specialize (Hclose (Returned (Some Fixtures.filled))
                {| Fixtures.buys := 1; Fixtures.sells := 1;
                   Fixtures.book_terminal := Fixtures.funded_terminal |}
                eq_refl 1%nat [] eq_refl).
  cbv beta iota in Hclose.
  exact (proj2 (proj2 Hclose)).
Defined.

(** The SELL branch on a filling trader with both sides open: no open call,
    one close-BUY call. *)
Example sell_signal_with_existing_sell :
  snd (trade_symbol (Fixtures.robot_with Fixtures.filling_trader SELL)
         "EURUSD" (Fixtures.long_and_short Fixtures.funded_terminal))
  = [ClosePositions "Multi-Symbol Robot" "EURUSD" ORDER_TYPE_BUY].
Proof. vm_compute. reflexivity. Qed.

(** C10: on a BUY signal with no open BUY position, a rejected risk check
    ends the processing of the symbol: no trader call is made, neither an
    order nor the close of open SELL positions, and the broker state is
    unchanged. *)
Theorem C10_risk_rejection_skips_opposite_close {World : Type}
    (self : MultiSymbolRobot.t World) (symbol : string) (w : World)
    (strategy : TradingStrategy World) (signal_symbol : string)
    (positions : list Position) :
  dict_get symbol (strategies self) = Some strategy ->
  signal strategy w = Returned (signal_symbol, BUY) ->
  get_opened_positions (trader self) w symbol ORDER_TYPE_BUY
  = Returned (0%nat, positions) ->
  fst (check_risk_before_trade self (terminal (trader self) w) symbol
         (calculate_position_size self (terminal (trader self) w) symbol 1))
  = false ->
  trade_symbol self symbol w = (w, [])
  /\ count_calls is_any_open (snd (trade_symbol self symbol w)) = 0%nat
  /\ count_calls (is_close ORDER_TYPE_SELL symbol)
       (snd (trade_symbol self symbol w)) = 0%nat.
Proof.
  intros Hstrategy Hsignal Hbuy Hrejected.
  assert (Hrun : trade_symbol self symbol w = (w, [])).
  { rewrite (trade_symbol_signal self symbol w strategy signal_symbol
               ORDER_TYPE_BUY Hstrategy Hsignal).
    rewrite Hbuy. cbn [Nat.eqb]. rewrite Hrejected. reflexivity. }
  rewrite Hrun. repeat split.
Qed.

(** Zero balance, BUY signal, one SELL position open: nothing is called and
    the SELL position stays. *)
Lemma C10_risk_rejection_witness :
  let robot := Fixtures.robot_with Fixtures.filling_trader BUY in
  let w := Fixtures.short_only Fixtures.unfunded_terminal in
  get_opened_positions (trader robot) w "EURUSD" ORDER_TYPE_SELL
  = Returned (1%nat, [])
  /\ trade_symbol robot "EURUSD" w = (w, []).
Proof.
  cbv zeta. split; [reflexivity|].
  refine (proj1 (C10_risk_rejection_skips_opposite_close
                   (Fixtures.robot_with Fixtures.filling_trader BUY) "EURUSD"
                   (Fixtures.short_only Fixtures.unfunded_terminal)
                   (Fixtures.always BUY) "EURUSD" [] eq_refl eq_refl eq_refl _)).
  vm_compute. reflexivity.
Defined.

(** The same on a SELL signal. *)
Lemma risk_rejection_on_sell_signal {World : Type}
    (self : MultiSymbolRobot.t World) (symbol : string) (w : World)
    (strategy : TradingStrategy World) (signal_symbol : string)
    (positions : list Position) :
  dict_get symbol (strategies self) = Some strategy ->
  signal strategy w = Returned (signal_symbol, SELL) ->
  get_opened_positions (trader self) w symbol ORDER_TYPE_SELL
  = Returned (0%nat, positions) ->
  fst (check_risk_before_trade self (terminal (trader self) w) symbol
         (calculate_position_size self (terminal (trader self) w) symbol 1))
  = false ->
  trade_symbol self symbol w = (w, []).
Proof.
  intros Hstrategy Hsignal Hsell Hrejected.
  rewrite (trade_symbol_signal self symbol w strategy signal_symbol
             ORDER_TYPE_SELL Hstrategy Hsignal).
  rewrite Hsell. cbn [Nat.eqb]. rewrite Hrejected. reflexivity.
Qed.

End RobotClaims.

(** * Further properties of the modelled code *)

(** ** Combined strategy: unanimity, majorities, faults and order *)

Section CombinedStrategyMore.
Import CombinedStrategy.

Lemma count_signal_le (v : Signal) (signals : list Signal) :
  (count_signal v signals <= length signals)%nat.
Proof. unfold count_signal. apply filter_length_le. Qed.

Lemma Signal_eqb_eq (a b : Signal) : Signal_eqb a b = true <-> a = b.
Proof. destruct a, b; cbn; split; intros H; congruence. Qed.

Lemma count_signal_all (v : Signal) (signals : list Signal) :
  count_signal v signals = length signals <-> Forall (eq v) signals.
Proof.
  unfold count_signal. induction signals as [|s rest IH]; cbn.
  - split; [constructor|reflexivity].
  - pose proof (filter_length_le (Signal_eqb v) rest) as Hle.
    destruct (Signal_eqb v s) eqn:E; cbn [length].
    + apply Signal_eqb_eq in E. subst s. split.
      * intros H. constructor; [reflexivity|]. apply IH. lia.
      * intros H. inversion H; subst. f_equal. apply IH. assumption.
    + split.
      * intros H. lia.
      * intros H. inversion H; subst.
        assert (Signal_eqb s s = true) by (apply Signal_eqb_eq; reflexivity).
        congruence.
Qed.

Lemma count_signal_total (signals : list Signal) :
  (count_signal BUY signals + count_signal SELL signals
   + count_signal NONE signals = length signals)%nat.
Proof.
  unfold count_signal. induction signals as [|s rest IH]; [reflexivity|].
  destruct s; cbn [filter Signal_eqb length]; lia.
Qed.

Lemma signal_unanimity_mode (self : t) :
  require_all self = true ->
  let signals := collect_signals (strategies self) in
  snd (signal self)
  = if (length signals =? 0)%nat then NONE
    else if (count_signal BUY signals =? length signals)%nat then BUY
    else if (count_signal SELL signals =? length signals)%nat then SELL
    else NONE.
Proof.
  intros Hmode signals. unfold signal.
  destruct (Nat.eqb_spec (length (strategies self)) 0) as [E|_].
  - assert (Hnil : signals = []).
    { subst signals. destruct (strategies self); [reflexivity|discriminate]. }
    rewrite Hnil. reflexivity.
  - fold signals. rewrite Hmode.
    destruct (length signals =? 0)%nat; [reflexivity|].
    destruct (count_signal BUY signals =? length signals)%nat; [reflexivity|].
    destruct (count_signal SELL signals =? length signals)%nat; reflexivity.
Qed.

(** X1: with [require_all] the result is BUY exactly when at least one
    constituent answered and every answer is BUY, SELL exactly when every
    answer is SELL, and NONE in every other case. *)
Theorem X1_require_all_is_unanimity (self : t) :
  require_all self = true ->
  let signals := collect_signals (strategies self) in
  (snd (signal self) = BUY <-> signals <> [] /\ Forall (eq BUY) signals)
  /\ (snd (signal self) = SELL <-> signals <> [] /\ Forall (eq SELL) signals).
Proof.
  intros Hmode signals.
  rewrite (signal_unanimity_mode self Hmode). fold signals.
  destruct signals as [|s rest] eqn:Hs.
  - cbn. split; split; try discriminate; intros [H _]; contradiction.
  - rewrite <- Hs. assert (Hne : signals <> []) by (rewrite Hs; discriminate).
    assert (Hlen : (length signals =? 0)%nat = false).
    { rewrite Hs. reflexivity. }
    rewrite Hlen.
    pose proof (count_signal_all BUY signals) as Hbuy.
    pose proof (count_signal_all SELL signals) as Hsell.
    destruct (Nat.eqb_spec (count_signal BUY signals) (length signals))
      as [Eb|Eb].
    + split; [tauto|]. split; [discriminate|].
      intros [_ Hall]. apply Hbuy in Eb. rewrite Hs in Eb, Hall.
      inversion Eb; inversion Hall; congruence.
    + destruct (Nat.eqb_spec (count_signal SELL signals) (length signals))
        as [Es|Es].
      * split; [split; [discriminate|tauto]|tauto].
      * split; (split; [discriminate|tauto]).
Qed.

Lemma X1_require_all_witness :
  snd (signal
         (init {| CrossOverStrategy := answers BUY;
                  SMCStrategy := failing;
                  TrendBreakoutStrategy := answers BUY |}
               eurusd None true)) = BUY.
Proof.
  apply (proj1 (X1_require_all_is_unanimity
                  (init {| CrossOverStrategy := answers BUY;
                           SMCStrategy := failing;
                           TrendBreakoutStrategy := answers BUY |}
                        eurusd None true) eq_refl)).
  split; [discriminate|repeat constructor].
Defined.

(** X2: in majority mode a signal given by more than half of the usable
    constituents is the result, for BUY, SELL and NONE alike. *)
Theorem X2_strict_majority_wins (self : t) (v : Signal) :
  require_all self = false ->
  let signals := collect_signals (strategies self) in
  (length signals < 2 * count_signal v signals)%nat ->
  snd (signal self) = v.
Proof.
  intros Hmode signals Hmaj.
  assert (Hn : length signals <> 0%nat).
  { pose proof (count_signal_le v signals). lia. }
  rewrite (signal_majority_mode self Hmode Hn). cbn [snd]. fold signals.
  pose proof (count_signal_total signals) as Htotal.
  set (n := length signals) in *.
  assert (Hthr : ((n + 1) / 2 * 2 <= n + 1 /\ n < (n + 1) / 2 * 2 + 1)%nat).
  { pose proof (Nat.div_mod_eq (n + 1) 2).
    pose proof (Nat.mod_upper_bound (n + 1) 2 ltac:(lia)). lia. }
  destruct v.
  - destruct (Nat.leb_spec ((n + 1) / 2) (count_signal BUY signals));
      [reflexivity|lia].
  - destruct (Nat.leb_spec ((n + 1) / 2) (count_signal BUY signals)); [lia|].
    destruct (Nat.leb_spec ((n + 1) / 2) (count_signal SELL signals));
      [reflexivity|lia].
  - destruct (Nat.leb_spec ((n + 1) / 2) (count_signal BUY signals)); [lia|].
    destruct (Nat.leb_spec ((n + 1) / 2) (count_signal SELL signals)); [lia|].
    reflexivity.
Qed.

Lemma X2_strict_majority_witness :
  snd (signal (three_votes SELL NONE SELL)) = SELL.
Proof.
  apply (X2_strict_majority_wins (three_votes SELL NONE SELL) SELL eq_refl).
  cbn. lia.
Defined.

End CombinedStrategyMore.

Section CombinedStrategyFaults.
Import CombinedStrategy CombinedStatements.

Lemma collect_signals_without_failing (items : list (string * TradingStrategy)) :
  collect_signals (filter answers_now items) = collect_signals items.
Proof.
  induction items as [|[name strategy] rest IH]; [reflexivity|].
  cbn [filter]. unfold answers_now at 1. cbn [snd collect_signals].
  destruct (strategy_signal strategy) as [[sym s]|] eqn:E.
  - cbn [collect_signals]. rewrite E, IH. reflexivity.
  - exact IH.
Qed.

Lemma collect_signals_nil_length (items : list (string * TradingStrategy)) :
  length items = 0%nat -> collect_signals items = [].
Proof. destruct items; [reflexivity|discriminate]. Qed.

(** The result of [signal] from the collected answers alone. *)
Lemma signal_from_answers (self : t) :
  signal self
  = let signals := collect_signals (strategies self) in
    (get_symbol (data self),
     if (length signals =? 0)%nat then NONE
     else if require_all self then
       if (count_signal BUY signals =? length signals)%nat then BUY
       else if (count_signal SELL signals =? length signals)%nat then SELL
       else NONE
     else
       if ((length signals + 1) / 2 <=? count_signal BUY signals)%nat then BUY
       else if ((length signals + 1) / 2 <=? count_signal SELL signals)%nat
            then SELL
       else NONE).
Proof.
  unfold signal. cbv zeta.
  destruct (Nat.eqb_spec (length (strategies self)) 0) as [E|_].
  - rewrite (collect_signals_nil_length _ E). reflexivity.
  - destruct (length (collect_signals (strategies self)) =? 0)%nat;
      [reflexivity|].
    destruct (require_all self).
    + destruct (_ =? _)%nat; [reflexivity|].
      destruct (_ =? _)%nat; reflexivity.
    + destruct (_ <=? _)%nat; [reflexivity|].
      destruct (_ <=? _)%nat; reflexivity.
Qed.

(** X3: a constituent whose [signal()] raises has the same effect as a
    constituent that is not configured, in both modes. *)
Theorem X3_failing_constituent_is_absent (self : t) :
  signal (without_failing self) = signal self.
Proof.
  rewrite (signal_from_answers (without_failing self)).
  rewrite (signal_from_answers self).
  unfold without_failing. cbn [strategies data require_all].
  rewrite collect_signals_without_failing. reflexivity.
Qed.

Lemma collect_signals_permutation (a b : list (string * TradingStrategy)) :
  Permutation a b -> Permutation (collect_signals a) (collect_signals b).
Proof.
  induction 1 as [|[n x] l l' _ IH|[n x] [m y] l|l l' l'' _ IH1 _ IH2].
  - constructor.
  - cbn. destruct (strategy_signal x) as [[? ?]|]; [constructor|]; exact IH.
  - cbn. destruct (strategy_signal x) as [[? ?]|];
      destruct (strategy_signal y) as [[? ?]|];
      try reflexivity. apply perm_swap.
  - eapply perm_trans; eassumption.
Qed.

Lemma count_signal_permutation (v : Signal) (a b : list Signal) :
  Permutation a b -> count_signal v a = count_signal v b.
Proof.
  induction 1 as [|x l l' _ IH|x y l|l l' l'' _ IH1 _ IH2]; cbn.
  - reflexivity.
  - unfold count_signal in *. cbn. destruct (Signal_eqb v x); cbn; congruence.
  - unfold count_signal. cbn.
    destruct (Signal_eqb v x), (Signal_eqb v y); reflexivity.
  - congruence.
Qed.

(** X4: the result does not depend on the order in which the constituents
    are held or queried. *)
Theorem X4_constituent_order_irrelevant (self : t)
    (items : list (string * TradingStrategy)) :
  Permutation (strategies self) items ->
  signal (with_strategies self items) = signal self.
Proof.
  intros Hperm.
  rewrite (signal_from_answers (with_strategies self items)).
  rewrite (signal_from_answers self).
  unfold with_strategies. cbn [strategies data require_all]. cbv zeta.
  pose proof (collect_signals_permutation _ _ Hperm) as Hsignals.
  rewrite <- (Permutation_length Hsignals).
  rewrite <- (count_signal_permutation BUY _ _ Hsignals).
  rewrite <- (count_signal_permutation SELL _ _ Hsignals).
  reflexivity.
Qed.

Lemma X4_constituent_order_witness :
  signal (with_strategies (three_votes BUY SELL BUY)
            (rev (strategies (three_votes BUY SELL BUY))))
  = signal (three_votes BUY SELL BUY).
Proof.
  apply (X4_constituent_order_irrelevant (three_votes BUY SELL BUY)).
  apply Permutation_rev.
Defined.

(** X5: the constructor keeps exactly the known names that occur in the
    requested list, always in the order crossover, smc, trend_breakout;
    unknown names, repetitions and the order of the request have no effect,
    and a request without a known name gives a strategy that always answers
    NONE. *)
Theorem X5_init_keeps_known_names (cls : Constituents) (d : TradingData)
    (names : list string) (all : bool) :
  map fst (strategies (init cls d (Some names) all))
  = filter (fun n => str_in n names) known_names
  /\ (filter (fun n => str_in n names) known_names = [] ->
      signal (init cls d (Some names) all) = (get_symbol d, NONE)).
Proof.
  unfold init, known_names. cbn [filter].
  destruct (str_in "crossover" names), (str_in "smc" names),
    (str_in "trend_breakout" names);
    (split; [reflexivity|intros H; try discriminate H; reflexivity]).
Qed.

Lemma X5_init_witness :
  signal (init {| CrossOverStrategy := answers BUY;
                  SMCStrategy := answers BUY;
                  TrendBreakoutStrategy := answers BUY |}
               eurusd (Some ["macd"; "rsi"]) false)
  = ("EURUSD", NONE).
Proof.
  apply (proj2 (X5_init_keeps_known_names
                  {| CrossOverStrategy := answers BUY;
                     SMCStrategy := answers BUY;
                     TrendBreakoutStrategy := answers BUY |}
                  eurusd ["macd"; "rsi"] false)).
  reflexivity.
Defined.

End CombinedStrategyFaults.

(** ** Risk manager: the volatility multiplier *)

(** Case analysis on every [min] and [max] of the goal. *)
Ltac clamp_cases :=
  repeat match goal with
    | |- context [py_min ?a ?b] =>
        let H := fresh "Hmin" in
        let E := fresh "Emin" in
        destruct (py_min_cases a b) as [[H E]|[H E]]; rewrite !E; clear E
    | |- context [py_max ?a ?b] =>
        let H := fresh "Hmax" in
        let E := fresh "Emax" in
        destruct (py_max_cases a b) as [[H E]|[H E]]; rewrite !E; clear E
    end.

Section VolatilityMultiplierFacts.
Import RiskManager.

Lemma clamp_half_two_bounds (m : Q) :
  1 # 2 <= py_max (1 # 2) (py_min 2 m) /\ py_max (1 # 2) (py_min 2 m) <= 2.
Proof. split; clamp_cases; lra. Qed.

Lemma clamp_half_two_monotone (a b : Q) :
  a <= b -> py_max (1 # 2) (py_min 2 a) <= py_max (1 # 2) (py_min 2 b).
Proof. intros Hab. clamp_cases; lra. Qed.

Lemma clamp_half_two_negative (m : Q) :
  m <= 0 -> py_max (1 # 2) (py_min 2 m) = 1 # 2.
Proof.
  intros Hm.
  destruct (py_min_cases 2 m) as [[H1 ->]|[H1 ->]]; [|lra].
  destruct (py_max_cases (1 # 2) m) as [[H2 ->]|[H2 ->]]; [lra|reflexivity].
Qed.

Lemma floor_tenth (atr : Q) : 1 # 10 <= py_max atr (1 # 10).
Proof.
  destruct (py_max_cases atr (1 # 10)) as [[H ->]|[H ->]]; lra.
Qed.

Lemma floor_tenth_monotone (a b : Q) :
  a <= b -> py_max a (1 # 10) <= py_max b (1 # 10).
Proof.
  intros Hab.
  destruct (py_max_cases a (1 # 10)) as [[Ha ->]|[Ha ->]];
    destruct (py_max_cases b (1 # 10)) as [[Hb ->]|[Hb ->]]; lra.
Qed.

Lemma multiplier_bounds (atr_percentage base_atr : Q) :
  1 # 2 <= get_volatility_multiplier atr_percentage base_atr
  /\ get_volatility_multiplier atr_percentage base_atr <= 2.
Proof. unfold get_volatility_multiplier. apply clamp_half_two_bounds. Qed.

(** X6: the volatility multiplier always lies in [0.5, 2.0], whatever the
    ATR percentage and the base (zero, negative or positive); it is 2.0
    for every ATR percentage up to half a base of at least 0.2, and 0.5
    from twice a positive base on. *)
Theorem X6_volatility_multiplier_bounds (atr_percentage base_atr : Q) :
  (1 # 2 <= get_volatility_multiplier atr_percentage base_atr
   /\ get_volatility_multiplier atr_percentage base_atr <= 2)
  /\ (1 # 5 <= base_atr -> atr_percentage <= base_atr / 2 ->
      get_volatility_multiplier atr_percentage base_atr == 2)
  /\ (0 < base_atr -> 2 * base_atr <= atr_percentage ->
      get_volatility_multiplier atr_percentage base_atr == 1 # 2).
Proof.
  split; [apply multiplier_bounds|].
  unfold get_volatility_multiplier.
  split; intros Hbase Hatr.
  - assert (Hhalf : base_atr / 2 * 2 == base_atr) by field.
    assert (E : Qeq_bool base_atr 0 = false)
      by (apply Qeq_bool_false; lra).
    rewrite E.
    pose proof (floor_tenth atr_percentage) as Hfloor.
    assert (Hm : 2 <= base_atr / py_max atr_percentage (1 # 10)).
    { apply Qle_shift_div_l; [lra|].
      destruct (py_max_cases atr_percentage (1 # 10)) as [[H ->]|[H ->]];
        lra. }
    clamp_cases; lra.
  - assert (E : Qeq_bool base_atr 0 = false)
      by (apply Qeq_bool_false; lra).
    rewrite E.
    assert (Hm : base_atr / py_max atr_percentage (1 # 10) <= 1 # 2).
    { apply Qle_shift_div_r.
      - pose proof (floor_tenth atr_percentage). lra.
      - destruct (py_max_cases atr_percentage (1 # 10)) as [[H ->]|[H ->]];
          lra. }
    clamp_cases; lra.
Qed.

Lemma X6_volatility_multiplier_witness :
  get_volatility_multiplier 7 3 == 1 # 2.
Proof.
  apply (proj2 (proj2 (X6_volatility_multiplier_bounds 7 3))).
  - reflexivity.
  - discriminate.
Defined.

Lemma Qdiv_le_divisor (b d1 d2 : Q) :
  0 <= b -> 0 < d1 -> d1 <= d2 -> b / d2 <= b / d1.
Proof.
  intros Hb Hd1 Hd12.
  apply Qle_shift_div_l; [exact Hd1|].
  assert (Hd2 : 0 < d2) by lra.
  assert (Hq : 0 <= b / d2).
  { apply Qle_shift_div_l; [exact Hd2|]. lra. }
  assert (E : b == b / d2 * d2) by (field; lra).
  rewrite E at 2.
  rewrite (Qmult_comm (b / d2) d1), (Qmult_comm (b / d2) d2).
  apply Qmult_le_compat_r; assumption.
Qed.

Lemma Qdiv_neg_pos (b d : Q) : b <= 0 -> 0 < d -> b / d <= 0.
Proof.
  intros Hb Hd. apply Qle_shift_div_r; [exact Hd|]. lra.
Qed.

Lemma multiplier_antitone (atr1 atr2 base_atr : Q) :
  atr1 <= atr2 ->
  get_volatility_multiplier atr2 base_atr
  <= get_volatility_multiplier atr1 base_atr.
Proof.
  intros Hatr. unfold get_volatility_multiplier.
  set (b := if Qeq_bool base_atr 0 then 1 else base_atr).
  pose proof (floor_tenth atr1) as H1. pose proof (floor_tenth atr2) as H2.
  pose proof (floor_tenth_monotone atr1 atr2 Hatr) as H12.
  destruct (Qlt_le_dec b 0) as [Hneg|Hpos].
  - rewrite !clamp_half_two_negative; [apply Qle_refl| |];
      apply Qdiv_neg_pos; lra.
  - apply clamp_half_two_monotone. apply Qdiv_le_divisor; lra.
Qed.

(** X7: the multiplier never increases with the ATR percentage: a more
    volatile symbol gets a multiplier that is at most that of a calmer
    one. *)
Theorem X7_volatility_multiplier_antitone (atr1 atr2 base_atr : Q) :
  atr1 <= atr2 ->
  get_volatility_multiplier atr2 base_atr
  <= get_volatility_multiplier atr1 base_atr.
Proof. apply multiplier_antitone. Qed.

Lemma X7_volatility_multiplier_witness :
  get_volatility_multiplier 3 1 <= get_volatility_multiplier (3 # 4) 1.
Proof.
  apply (X7_volatility_multiplier_antitone (3 # 4) 3 1). discriminate.
Defined.

Example volatility_multiplier_values :
  map (fun atr => get_volatility_multiplier atr 1) [-1; 1 # 4; 1; 4 # 3; 5]
  = [2; 2; 1; 3 # 4; 1 # 2].
Proof. reflexivity. Qed.

End VolatilityMultiplierFacts.

(** ** Risk manager: exposure *)

Section ExposureFacts.
Import RiskManager ExposureStatements.

Lemma Qsum_from (l : list Q) (acc : Q) : fold_left Qplus l acc == acc + Qsum l.
Proof.
  unfold Qsum. revert acc. induction l as [|x rest IH]; intros acc; cbn.
  - ring.
  - rewrite (IH (acc + x)), (IH (0 + x)). ring.
Qed.

Lemma Qsum_cons (x : Q) (l : list Q) : Qsum (x :: l) == x + Qsum l.
Proof. unfold Qsum at 1. cbn. rewrite Qsum_from. ring. Qed.

Lemma unique_In (x : string) (l : list string) : In x (unique l) <-> In x l.
Proof.
  induction l as [|y rest IH]; [reflexivity|]. cbn [unique].
  split.
  - intros [H|H]; [left; exact H|].
    apply filter_In in H. right. apply IH. tauto.
  - intros [H|H]; [left; exact H|].
    destruct (String.eqb_spec y x) as [E|E]; [left; exact E|].
    right. apply filter_In. split; [apply IH; exact H|].
    apply negb_true_iff. apply String.eqb_neq. exact E.
Qed.

Lemma unique_NoDup (l : list string) : NoDup (unique l).
Proof.
  induction l as [|y rest IH]; cbn [unique]; constructor.
  - intros H. apply filter_In in H. destruct H as [_ H].
    rewrite String.eqb_refl in H. discriminate.
  - apply NoDup_filter. exact IH.
Qed.

Lemma share_of_absent (f : Position -> Q) (p : Position) (df : list Position)
    (keys : list string) :
  ~ In (position_symbol p) keys ->
  Qsum (map (symbol_share f (p :: df)) keys)
  == Qsum (map (symbol_share f df) keys).
Proof.
  induction keys as [|k rest IH]; intros Hnot; [reflexivity|].
  cbn [map]. rewrite !Qsum_cons. rewrite IH by (intros H; apply Hnot; right; exact H).
  unfold symbol_share at 1 3. cbn [filter].
  destruct (String.eqb_spec (position_symbol p) k) as [E|_].
  - exfalso. apply Hnot. left. symmetry. exact E.
  - reflexivity.
Qed.

Lemma shares_add_up (f : Position -> Q) (df : list Position) (keys : list string) :
  NoDup keys ->
  (forall p, In p df -> In (position_symbol p) keys) ->
  Qsum (map (symbol_share f df) keys) == Qsum (map f df).
Proof.
  intros Hnodup. revert keys Hnodup.
  induction df as [|p rest IH]; intros keys Hnodup Hcover.
  - clear. induction keys as [|k ks IH]; [reflexivity|].
    cbn [map]. rewrite Qsum_cons, IH. unfold symbol_share. cbn. reflexivity.
  - cbn [map]. rewrite Qsum_cons.
    rewrite <- (IH keys Hnodup) by (intros q Hq; apply Hcover; right; exact Hq).
    assert (Hin : In (position_symbol p) keys) by (apply Hcover; left; reflexivity).
    clear IH Hcover. induction Hnodup as [|k ks Hk Hks IHks]; [contradiction|].
    cbn [map]. rewrite !Qsum_cons.
    unfold symbol_share at 1 3. cbn [filter].
    destruct (String.eqb_spec (position_symbol p) k) as [E|E].
    + cbn [map]. rewrite Qsum_cons.
      rewrite share_of_absent by (rewrite E; exact Hk). ring.
    + destruct Hin as [Hin|Hin]; [symmetry in Hin; contradiction|].
      rewrite (IHks Hin). ring.
Qed.

Lemma Qsum_ones (l : list Position) :
  Qsum (map (fun _ => 1) l) == inject_Z (Z.of_nat (length l)).
Proof.
  induction l as [|p rest IH]; [reflexivity|].
  cbn [map length]. rewrite Qsum_cons, IH, Nat2Z.inj_succ.
  unfold Z.succ. rewrite inject_Z_plus. ring.
Qed.

End ExposureFacts.

Section ExposureClaims.
Import RiskManager ExposureStatements.

Lemma counts_as_shares (df : list Position) (keys : list string) :
  inject_Z (Z.of_nat
    (fold_right Nat.add 0%nat
       (map (fun s =>
               length (filter (fun p => String.eqb (position_symbol p) s) df))
            keys)))
  == Qsum (map (symbol_share (fun _ => 1) df) keys).
Proof.
  induction keys as [|k ks IH]; [reflexivity|].
  cbn [map fold_right]. rewrite Qsum_cons, <- IH.
  unfold symbol_share. rewrite Qsum_ones.
  rewrite Nat2Z.inj_add, inject_Z_plus. reflexivity.
Qed.

Lemma breakdown_of_frame (df : list Position) :
  let keys := unique (map position_symbol df) in
  fold_right Nat.add 0%nat
    (map (fun s =>
            length (filter (fun p => String.eqb (position_symbol p) s) df))
         keys) = length df
  /\ Qsum (map (symbol_share position_volume df) keys)
     == Qsum (map position_volume df)
  /\ Qsum (map (symbol_share position_profit df) keys)
     == Qsum (map position_profit df).
Proof.
  intros keys.
  assert (Hcover : forall p, In p df -> In (position_symbol p) keys).
  { intros p Hp. apply unique_In. apply in_map. exact Hp. }
  pose proof (unique_NoDup (map position_symbol df)) as Hnodup.
  split; [|split; apply shares_add_up; assumption].
  apply Nat2Z.inj. apply inject_Z_injective.
  rewrite counts_as_shares, (shares_add_up _ df keys Hnodup Hcover).
  apply Qsum_ones.
Qed.

(** X8: the per-symbol breakdown of [get_total_exposure] partitions the
    reported positions: every symbol occurs once, has at least one
    position, and the per-symbol position counts add up to
    [total_positions].  With a non-empty symbol filter only requested
    symbols are reported. *)
Theorem X8_exposure_breakdown_partitions (mt5 : MT5)
    (symbols_arg : option (list string)) :
  let e := get_total_exposure mt5 symbols_arg in
  NoDup (map fst (symbols e))
  /\ breakdown_positions e = total_positions e
  /\ (forall s x, In (s, x) (symbols e) -> (1 <= exposure_positions x)%nat)
  /\ (forall requested s,
        symbols_arg = Some requested -> requested <> [] ->
        In s (map fst (symbols e)) -> In s requested).
Proof.
  unfold get_total_exposure.
  destruct (positions_get mt5) as [positions|].
  2:{ cbv zeta. repeat split; try reflexivity;
        [constructor|intros s x []|contradiction]. }
  destruct (length positions =? 0)%nat.
  { cbv zeta. repeat split; try reflexivity;
      [constructor|intros s x []|contradiction]. }
  set (df := match symbols_arg with
             | None | Some [] => positions
             | Some _ => _
             end).
  cbv zeta.
  unfold breakdown_positions.
  cbn [symbols total_positions].
  rewrite !map_map. cbn [fst snd exposure_positions].
  rewrite map_id.
  destruct (breakdown_of_frame df) as [Hcount _].
  split; [apply unique_NoDup|].
  split; [exact Hcount|]. split.
  - intros s x Hin. apply in_map_iff in Hin.
    destruct Hin as [k [E Hk]]. injection E as <- <-.
    cbn [exposure_positions].
    apply (proj1 (unique_In _ _)) in Hk. apply in_map_iff in Hk.
    destruct Hk as [p [Hp Hin]].
    assert (Hmem : In p (filter (fun p => String.eqb (position_symbol p) k) df)).
    { apply filter_In. split; [exact Hin|]. rewrite Hp. apply String.eqb_refl. }
    destruct (filter (fun p => String.eqb (position_symbol p) k) df);
      [contradiction|cbn [length]; lia].
  - intros requested s -> Hne Hin. apply (proj1 (unique_In _ _)) in Hin.
    apply in_map_iff in Hin. destruct Hin as [p [<- Hp]].
    subst df. destruct requested as [|r rs]; [contradiction|].
    apply filter_In in Hp. destruct Hp as [_ Hp].
    apply existsb_exists in Hp. destruct Hp as [x [Hx E]].
    apply String.eqb_eq in E. rewrite E. exact Hx.
Qed.

Lemma X8_exposure_breakdown_witness :
  let e := get_total_exposure (terminal_with_positions three_positions)
             (Some ["EURUSD"]) in
  map fst (symbols e) = ["EURUSD"]
  /\ breakdown_positions e = 2%nat
  /\ total_positions e = 2%nat.
Proof.
  cbv zeta.
  destruct (X8_exposure_breakdown_partitions
              (terminal_with_positions three_positions) (Some ["EURUSD"]))
    as [_ [Hcount _]].
  split; [reflexivity|]. split; [rewrite Hcount|]; reflexivity.
Defined.

End ExposureClaims.

(** ** Risk manager: the limit check on a funded account *)

Section RiskCheckFacts.
Import RiskManager RiskStatements.

(** What [check_risk_limits] returns when the balance is positive and the
    symbol's metadata (with a non-zero tick size) and tick are present. *)
Lemma check_risk_limits_funded (self : t) (mt5 : MT5) (symbol : string)
    (size stop_loss_pips : Q) (info : SymbolInfo) (tick : Tick) :
  0 < get_account_balance mt5 ->
  symbol_info mt5 symbol = Some info ->
  symbol_info_tick mt5 symbol = Some tick ->
  ~ trade_tick_size info == 0 ->
  let p := position_risk_percent mt5 info stop_loss_pips size in
  let total := current_total_risk mt5 + p in
  check_risk_limits self mt5 symbol size stop_loss_pips
  = if Qltb (risk_per_symbol self * 100) p
    then (false, PositionRiskExceeds p (risk_per_symbol self * 100))
    else if Qltb (max_total_risk self * 100) total
         then (false, TotalRiskExceeds total (max_total_risk self * 100))
         else (true, RiskCheckPassed p total).
Proof.
  intros Hpos Hinfo Htick Hts p total.
  unfold check_risk_limits, check_risk_limits_body.
  assert (E0 : Qeq_bool (get_account_balance mt5) 0 = false).
  { apply Qeq_bool_false. intros E. rewrite E in Hpos. discriminate. }
  assert (E1 : Qltb 0 (get_account_balance mt5) = true)
    by (apply Qltb_true; exact Hpos).
  rewrite E0, Hinfo, Htick, (py_div_nonzero _ _ Hts). cbn [bind_outcome].
  rewrite E1.
  fold (position_risk info stop_loss_pips size).
  fold (position_risk_percent mt5 info stop_loss_pips size). fold p.
  fold (current_total_risk mt5). fold total.
  destruct (Qltb (risk_per_symbol self * 100) p); [reflexivity|].
  destruct (Qltb (max_total_risk self * 100) total); reflexivity.
Qed.

Lemma check_risk_limits_allowed_has_data (self : t) (mt5 : MT5)
    (symbol : string) (size stop_loss_pips : Q) :
  fst (check_risk_limits self mt5 symbol size stop_loss_pips) = true ->
  exists info tick,
    symbol_info mt5 symbol = Some info
    /\ symbol_info_tick mt5 symbol = Some tick
    /\ ~ trade_tick_size info == 0.
Proof.
  unfold check_risk_limits, check_risk_limits_body.
  destruct (Qeq_bool (get_account_balance mt5) 0); [discriminate|].
  destruct (symbol_info mt5 symbol) as [info|]; [|discriminate].
  destruct (symbol_info_tick mt5 symbol) as [tick|]; [|discriminate].
  unfold py_div. destruct (Qeq_bool (trade_tick_size info) 0) eqn:E;
    [discriminate|].
  intros _. exists info, tick. apply Qeq_bool_false in E. auto.
Qed.

Lemma position_risk_monotone (info : SymbolInfo) (stop_loss_pips a b : Q) :
  Qabs a <= Qabs b ->
  position_risk info stop_loss_pips a <= position_risk info stop_loss_pips b.
Proof.
  intros Hab. unfold position_risk, Qdiv.
  rewrite !Qabs_Qmult.
  apply Qmult_le_compat_r; [|apply Qabs_nonneg].
  set (k := Qabs (pips_to_price_diff info stop_loss_pips)
            * Qabs (trade_tick_value info)).
  assert (Hk : 0 <= k)
    by (apply Qmult_le_0_compat; apply Qabs_nonneg).
  rewrite (Qmult_comm k (Qabs a)), (Qmult_comm k (Qabs b)).
  apply Qmult_le_compat_r; assumption.
Qed.

Lemma percent_monotone (balance a b : Q) :
  0 < balance -> a <= b -> a / balance * 100 <= b / balance * 100.
Proof.
  intros Hpos Hab. apply Qmult_le_compat_r; [|discriminate].
  unfold Qdiv. apply Qmult_le_compat_r; [exact Hab|].
  apply Qinv_le_0_compat. apply Qlt_le_weak. exact Hpos.
Qed.

(** X10: on a funded account the check is monotone in the size: when a
    size is allowed, every size of at most that magnitude is allowed too. *)
Theorem X10_smaller_size_still_allowed (self : t) (mt5 : MT5) (symbol : string)
    (size smaller stop_loss_pips : Q) :
  0 < get_account_balance mt5 ->
  Qabs smaller <= Qabs size ->
  fst (check_risk_limits self mt5 symbol size stop_loss_pips) = true ->
  fst (check_risk_limits self mt5 symbol smaller stop_loss_pips) = true.
Proof.
  intros Hpos Hle Hallowed.
  destruct (check_risk_limits_allowed_has_data self mt5 symbol size
              stop_loss_pips Hallowed) as [info [tick [Hinfo [Htick Hts]]]].
  rewrite (check_risk_limits_funded self mt5 symbol size stop_loss_pips
             info tick Hpos Hinfo Htick Hts) in Hallowed.
  rewrite (check_risk_limits_funded self mt5 symbol smaller stop_loss_pips
             info tick Hpos Hinfo Htick Hts).
  cbv zeta in *.
  assert (Hp : position_risk_percent mt5 info stop_loss_pips smaller
               <= position_risk_percent mt5 info stop_loss_pips size).
  { unfold position_risk_percent. apply percent_monotone; [exact Hpos|].
    apply position_risk_monotone. exact Hle. }
  destruct (Qltb _ (position_risk_percent _ _ _ size)) eqn:E1; [discriminate|].
  destruct (Qltb (max_total_risk self * 100)
              (_ + position_risk_percent _ _ _ size)) eqn:E2; [discriminate|].
  apply Qltb_false in E1, E2.
  assert (F1 : Qltb (risk_per_symbol self * 100)
                 (position_risk_percent mt5 info stop_loss_pips smaller) = false)
    by (apply Qltb_false; lra).
  assert (F2 : Qltb (max_total_risk self * 100)
                 (current_total_risk mt5
                  + position_risk_percent mt5 info stop_loss_pips smaller) = false)
    by (apply Qltb_false; lra).
  rewrite F1, F2. reflexivity.
Qed.

Lemma X10_smaller_size_witness :
  fst (check_risk_limits default Fixtures.funded_terminal "EURUSD" (-(1 # 10)) 50)
  = true.
Proof.
  apply (X10_smaller_size_still_allowed default Fixtures.funded_terminal
           "EURUSD" (4 # 10) (-(1 # 10)) 50).
  - reflexivity.
  - discriminate.
  - reflexivity.
Defined.

End RiskCheckFacts.

(** ** Risk manager: how the sizer and the check compose *)

Section SizerAndCheckFacts.
Import RiskManager Statements RiskStatements.




End SizerAndCheckFacts.

Section SizerAndCheckClaims.
Import RiskManager Statements RiskStatements.




Example sizes_at_low_and_high_volatility :
  calculate_position_size default Fixtures.funded_terminal "EURUSD" 50 None
    (get_volatility_multiplier (1 # 2) 1) == 20 # 100
  /\ calculate_position_size default Fixtures.funded_terminal "EURUSD" 50 None
       (get_volatility_multiplier 3 1) == 81 # 100.
Proof. split; vm_compute; reflexivity. Qed.

End SizerAndCheckClaims.

(** ** Orchestrator: fallback size, shape of a symbol's calls, cycles *)

Section RobotMore.
Import MultiSymbolRobot Statements RobotStatements.

Context {World : Type}.
Variable self : MultiSymbolRobot.t World.

(** X14: the robot's position size falls back to [default_lot_size] when
    market data is missing (symbol not selectable, no symbol info, no tick
    or a zero price difference), and it is zero only if the configured
    default is zero. *)
Theorem X14_robot_size_falls_back (mt5 : MT5) (symbol : string)
    (volatility_multiplier : Q) :
  let size := calculate_position_size self mt5 symbol volatility_multiplier in
  (symbol_select mt5 symbol = false
   \/ symbol_info mt5 symbol = None
   \/ symbol_info_tick mt5 symbol = None
   \/ (exists info, symbol_info mt5 symbol = Some info
                    /\ RiskManager.pips_to_price_diff info (stop_loss_pips self)
                       == 0) ->
   size = default_lot_size self)
  /\ (size == 0 -> default_lot_size self == 0).
Proof.
  intros size. subst size. unfold calculate_position_size. split.
  - intros Hmissing.
    rewrite (calculate_position_size_missing_data (risk_manager self) mt5
               symbol (stop_loss_pips self) None _ Hmissing).
    reflexivity.
  - destruct (Qeq_bool _ 0) eqn:E; [trivial|].
    apply Qeq_bool_false in E. intros H. contradiction.
Qed.

Lemma close_opposite_shape (symbol : string) (side : OrderType) (w : World)
    (calls : list TraderCall) :
  snd (close_opposite self symbol side w calls) = calls
  \/ snd (close_opposite self symbol side w calls)
     = calls ++ [ClosePositions (name self) symbol side].
Proof.
  unfold close_opposite.
  destruct (get_opened_positions (trader self) w symbol side) as [[n ps]|];
    [|left; reflexivity].
  destruct (0 <? n)%nat; [|left; reflexivity].
  destruct (close_positions (trader self) w (name self) symbol side).
  right. reflexivity.
Qed.

Lemma close_opposite_state (symbol : string) (side : OrderType) (w : World) :
  snd (close_opposite self symbol side w []) = [] ->
  fst (close_opposite self symbol side w []) = w.
Proof.
  unfold close_opposite.
  destruct (get_opened_positions (trader self) w symbol side) as [[n ps]|];
    [|reflexivity].
  destruct (0 <? n)%nat; [|reflexivity].
  destruct (close_positions (trader self) w (name self) symbol side).
  discriminate.
Qed.

(** The calls of one symbol: nothing, or for the side of the signal an open
    request, a close of the opposite side, or the one followed by the
    other. *)
Lemma trade_symbol_shape (symbol : string) (w : World) :
  let calls := snd (trade_symbol self symbol w) in
  calls = []
  \/ exists strategy signal_symbol side,
       dict_get symbol (strategies self) = Some strategy
       /\ signal strategy w = Returned (signal_symbol, signal_of_side side)
       /\ let request :=
            OpenPosition symbol
              (calculate_position_size self (terminal (trader self) w) symbol 1)
              side (side_comment (name self) side) (magic_number self) in
          let close := ClosePositions (name self) symbol (opposite side) in
          calls = [request] \/ calls = [close] \/ calls = [request; close].
Proof.
  cbv zeta.
  destruct (dict_get symbol (strategies self)) as [strategy|] eqn:Hstrategy.
  2:{ left. unfold trade_symbol. rewrite Hstrategy. reflexivity. }
  destruct (signal strategy w) as [[signal_symbol sig]|] eqn:Hsignal.
  2:{ left. unfold trade_symbol. rewrite Hstrategy, Hsignal. reflexivity. }
  assert (Hside : forall side, sig = signal_of_side side ->
    snd (trade_symbol self symbol w) = []
    \/ (let request :=
          OpenPosition symbol
            (calculate_position_size self (terminal (trader self) w) symbol 1)
            side (side_comment (name self) side) (magic_number self) in
        let close := ClosePositions (name self) symbol (opposite side) in
        snd (trade_symbol self symbol w) = [request]
        \/ snd (trade_symbol self symbol w) = [close]
        \/ snd (trade_symbol self symbol w) = [request; close])).
  { intros side ->.
    rewrite (trade_symbol_signal self symbol w strategy signal_symbol side
               Hstrategy Hsignal).
    cbv zeta.
    destruct (get_opened_positions (trader self) w symbol side)
      as [[total_same ps]|]; [|left; reflexivity].
    destruct (total_same =? 0)%nat.
    - destruct (negb _); [left; reflexivity|].
      destruct (open_position _ _ _ _ _ _ _) as [[[result|]|] w'];
        try (right; left; reflexivity).
      right.
      destruct (close_opposite_shape symbol (opposite side) w'
                  [OpenPosition symbol
                     (calculate_position_size self (terminal (trader self) w)
                        symbol 1)
                     side (side_comment (name self) side) (magic_number self)])
        as [E|E]; rewrite E; auto.
    - destruct (close_opposite_shape symbol (opposite side) w []) as [E|E];
        rewrite E; auto. }
  destruct sig.
  - destruct (Hside ORDER_TYPE_BUY eq_refl) as [H|H]; [left; exact H|].
    right. exists strategy, signal_symbol, ORDER_TYPE_BUY. auto.
  - destruct (Hside ORDER_TYPE_SELL eq_refl) as [H|H]; [left; exact H|].
    right. exists strategy, signal_symbol, ORDER_TYPE_SELL. auto.
  - left. unfold trade_symbol. rewrite Hstrategy, Hsignal. reflexivity.
Qed.

End RobotMore.

Section RobotMoreClaims.
Import MultiSymbolRobot Statements RobotStatements.

(** An unknown symbol on a robot with default size 0.1. *)
Lemma X14_robot_size_witness :
  calculate_position_size (Fixtures.robot_with Fixtures.filling_trader BUY)
    Fixtures.funded_terminal "GBPUSD" 1
  = 1 # 10.
Proof.
  apply (proj1 (X14_robot_size_falls_back
                  (Fixtures.robot_with Fixtures.filling_trader BUY)
                  Fixtures.funded_terminal "GBPUSD" 1)).
  left. reflexivity.
Defined.

(** X15: for one symbol and one cycle [trade_symbol] makes at most one open
    call and at most one close call, the open call first; both are for the
    symbol itself, the open call on the side of the strategy's signal and
    the close call on the opposite side.  When it makes no call the broker
    state is the one it started from. *)
Theorem X15_symbol_calls_shape {World : Type} (self : MultiSymbolRobot.t World)
    (symbol : string) (w : World) :
  let calls := snd (trade_symbol self symbol w) in
  (count_calls is_any_open calls <= 1)%nat
  /\ (count_calls is_any_close calls <= 1)%nat
  /\ Forall (fun c => call_symbol c = symbol) calls
  /\ (calls = [] -> fst (trade_symbol self symbol w) = w)
  /\ (calls <> [] ->
      exists strategy signal_symbol side,
        dict_get symbol (strategies self) = Some strategy
        /\ signal strategy w = Returned (signal_symbol, signal_of_side side)
        /\ let request :=
             OpenPosition symbol
               (calculate_position_size self (terminal (trader self) w) symbol 1)
               side (side_comment (name self) side) (magic_number self) in
           let close := ClosePositions (name self) symbol (opposite side) in
           calls = [request] \/ calls = [close] \/ calls = [request; close]).
Proof.
  intros calls.
  pose proof (trade_symbol_shape self symbol w) as Hshape.
  cbv zeta in Hshape. fold calls in Hshape.
  assert (Hcounts :
    (count_calls is_any_open calls <= 1)%nat
    /\ (count_calls is_any_close calls <= 1)%nat
    /\ Forall (fun c => call_symbol c = symbol) calls).
  { destruct Hshape as [->|[_ [_ [side [_ [_ [->|[->| ->]]]]]]]];
      unfold count_calls; cbn; repeat split; repeat constructor. }
  destruct Hcounts as [Hopen [Hclose Hsymbol]].
  repeat (split; [assumption|]). split.
  - intros Hnil. subst calls. unfold trade_symbol in *.
    destruct (dict_get symbol (strategies self)) as [strategy|]; [|reflexivity].
    destruct (signal strategy w) as [[signal_symbol sig]|]; [|reflexivity].
    destruct sig; [| |reflexivity];
      (destruct (get_opened_positions (trader self) w symbol _)
         as [[total ps]|]; [|reflexivity]);
      (destruct (total =? 0)%nat;
       [|apply close_opposite_state; exact Hnil]);
      destruct (check_risk_before_trade self _ symbol _) as [allowed reason];
      (destruct (negb allowed); [reflexivity|]);
      destruct (open_position _ _ _ _ _ _ _) as [[[result|]|] w'];
      try discriminate Hnil;
      exfalso;
      match type of Hnil with
      | snd (close_opposite ?s ?sym ?side ?st ?cs) = [] =>
          destruct (close_opposite_shape s sym side st cs) as [E|E];
            rewrite E in Hnil; discriminate Hnil
      end.
  - intros Hne. destruct Hshape as [Hnil|Hshape]; [contradiction|].
    exact Hshape.
Qed.

Lemma zero_balance_rejects {World : Type} (self : MultiSymbolRobot.t World)
    (mt5 : MT5) (symbol : string) (size : Q) :
  RiskManager.get_account_balance mt5 == 0 ->
  fst (check_risk_before_trade self mt5 symbol size) = false.
Proof.
  intros Hzero.
  unfold check_risk_before_trade, RiskManager.check_risk_limits,
    RiskManager.check_risk_limits_body.
  apply Qeq_bool_iff in Hzero. rewrite Hzero. reflexivity.
Qed.

(** X16: while the account balance is zero or the account information is
    unavailable, [trade_symbol] never sends an order, whatever the signal
    and the open positions. *)
Theorem X16_zero_balance_never_opens {World : Type}
    (self : MultiSymbolRobot.t World) (symbol : string) (w : World) :
  RiskManager.get_account_balance (terminal (trader self) w) == 0 ->
  count_calls is_any_open (snd (trade_symbol self symbol w)) = 0%nat.
Proof.
  intros Hzero.
  destruct (dict_get symbol (strategies self)) as [strategy|] eqn:Hstrategy.
  2:{ unfold trade_symbol. rewrite Hstrategy. reflexivity. }
  destruct (signal strategy w) as [[signal_symbol sig]|] eqn:Hsignal.
  2:{ unfold trade_symbol. rewrite Hstrategy, Hsignal. reflexivity. }
  assert (Hside : forall side, sig = signal_of_side side ->
            count_calls is_any_open (snd (trade_symbol self symbol w)) = 0%nat).
  { intros side ->.
    rewrite (trade_symbol_signal self symbol w strategy signal_symbol side
               Hstrategy Hsignal).
    cbv zeta.
    destruct (get_opened_positions (trader self) w symbol side)
      as [[total_same ps]|]; [|reflexivity].
    destruct (total_same =? 0)%nat.
    - rewrite (zero_balance_rejects self _ symbol _ Hzero). reflexivity.
    - destruct (close_opposite_shape self symbol (opposite side) w [])
        as [E|E]; rewrite E; reflexivity. }
  destruct sig.
  - apply (Hside ORDER_TYPE_BUY eq_refl).
  - apply (Hside ORDER_TYPE_SELL eq_refl).
  - unfold trade_symbol. rewrite Hstrategy, Hsignal. reflexivity.
Qed.

(** No account information and a SELL signal with nothing open. *)
Lemma X16_zero_balance_witness :
  let robot := Fixtures.robot_with Fixtures.filling_trader SELL in
  let w := {| Fixtures.buys := 0; Fixtures.sells := 0;
              Fixtures.book_terminal :=
                Fixtures.terminal_with "EURUSD" Fixtures.eurusd_info None None 40 |} in
  count_calls is_any_open (snd (trade_symbol robot "EURUSD" w)) = 0%nat.
Proof.
  cbv zeta.
  apply (X16_zero_balance_never_opens
           (Fixtures.robot_with Fixtures.filling_trader SELL) "EURUSD").
  reflexivity.
Defined.

Lemma trade_from {World : Type} (self : MultiSymbolRobot.t World)
    (keys : list string) (w : World) (done : list TraderCall)
    (P : TraderCall -> Prop) (bound : nat) (count : TraderCall -> bool) :
  (forall s st, In s keys ->
     Forall P (snd (trade_symbol self s st))
     /\ (count_calls count (snd (trade_symbol self s st)) <= 1)%nat) ->
  Forall P done ->
  (count_calls count done <= bound)%nat ->
  let result :=
    fold_left
      (fun (acc : World * list TraderCall) symbol =>
         let (w', calls') := trade_symbol self symbol (fst acc) in
         (w', snd acc ++ calls'))
      keys (w, done) in
  Forall P (snd result)
  /\ (count_calls count (snd result) <= bound + length keys)%nat.
Proof.
  cbv zeta. revert w done bound.
  induction keys as [|k rest IH]; intros w done bound Hstep Hdone Hbound.
  - cbn [fold_left snd length]. split; [exact Hdone|lia].
  - cbn [fold_left fst snd length].
    destruct (trade_symbol self k w) as [w' calls'] eqn:E.
    destruct (Hstep k w (or_introl eq_refl)) as [HP Hc].
    rewrite E in HP, Hc. cbn [snd] in HP, Hc.
    destruct (IH w' (done ++ calls') (S bound)) as [H1 H2].
    + intros s st Hs. apply Hstep. right. exact Hs.
    + apply Forall_app. split; assumption.
    + unfold count_calls in *. rewrite filter_app, length_app. lia.
    + split; [exact H1|lia].
Qed.

(** The calls of one symbol are for that symbol, at most one of each
    kind. *)
Lemma trade_symbol_counts {World : Type} (self : MultiSymbolRobot.t World)
    (k s : string) (st : World) :
  (count_calls (CycleStatements.is_open_for s) (snd (trade_symbol self k st))
   <= if String.eqb k s then 1 else 0)%nat
  /\ (count_calls (CycleStatements.is_close_for s)
        (snd (trade_symbol self k st))
      <= if String.eqb k s then 1 else 0)%nat.
Proof.
  pose proof (trade_symbol_shape self k st) as Hshape. cbv zeta in Hshape.
  destruct Hshape as [->|[_ [_ [side [_ [_ [->|[->| ->]]]]]]]];
    unfold count_calls, CycleStatements.is_open_for,
      CycleStatements.is_close_for;
    cbn; destruct (String.eqb k s); cbn; lia.
Qed.

(** Over a list of keys, the calls of either kind for one symbol are at
    most as many as the symbol occurs among the keys. *)
Lemma trade_from_symbol {World : Type} (self : MultiSymbolRobot.t World)
    (s : string) (keys : list string) (w : World) (done : list TraderCall) :
  let result :=
    fold_left
      (fun (acc : World * list TraderCall) symbol =>
         let (w', calls') := trade_symbol self symbol (fst acc) in
         (w', snd acc ++ calls'))
      keys (w, done) in
  let occurrences := length (filter (fun k => String.eqb k s) keys) in
  (count_calls (CycleStatements.is_open_for s) (snd result)
   <= count_calls (CycleStatements.is_open_for s) done + occurrences)%nat
  /\ (count_calls (CycleStatements.is_close_for s) (snd result)
      <= count_calls (CycleStatements.is_close_for s) done + occurrences)%nat.
Proof.
  cbv zeta. revert w done.
  induction keys as [|k rest IH]; intros w done.
  - cbn [fold_left snd filter length]. lia.
  - cbn [fold_left fst snd filter].
    destruct (trade_symbol self k w) as [w' calls'] eqn:E.
    destruct (trade_symbol_counts self k s w) as [Hopen Hclose].
    rewrite E in Hopen, Hclose. cbn [snd] in Hopen, Hclose.
    destruct (IH w' (done ++ calls')) as [H1 H2].
    unfold count_calls in *. rewrite !filter_app, !length_app in H1, H2.
    destruct (String.eqb k s); cbn [length]; lia.
Qed.

(** A symbol occurs at most once among distinct keys. *)
Lemma key_occurs_once (s : string) (keys : list string) :
  NoDup keys -> (length (filter (fun k => String.eqb k s) keys) <= 1)%nat.
Proof.
  induction 1 as [|k rest Hfresh Hrest IH]; cbn [filter length]; [lia|].
  destruct (String.eqb k s) eqn:E; [|exact IH].
  apply String.eqb_eq in E. subst k. cbn [length].
  replace (filter (fun k => String.eqb k s) rest) with (@nil string);
    [cbn; lia|].
  symmetry. clear IH Hrest.
  induction rest as [|y others IHo]; [reflexivity|].
  cbn [filter]. destruct (String.eqb y s) eqn:Ey.
  - apply String.eqb_eq in Ey. exfalso. apply Hfresh. left. exact Ey.
  - apply IHo. intros Hin. apply Hfresh. right. exact Hin.
Qed.

(** X17: in one cycle [trade] only makes calls for symbols that have a
    strategy assigned, and for each symbol it makes at most one open call
    and at most one close call (the keys of the strategies dictionary being
    distinct). *)
Theorem X17_cycle_calls_are_bounded {World : Type}
    (self : MultiSymbolRobot.t World) (w : World) :
  NoDup (map fst (strategies self)) ->
  let calls := snd (trade self w) in
  Forall (fun c => In (call_symbol c) (map fst (strategies self))) calls
  /\ forall s,
       (count_calls (CycleStatements.is_open_for s) calls <= 1)%nat
       /\ (count_calls (CycleStatements.is_close_for s) calls <= 1)%nat.
Proof.
  intros Hkeys calls. subst calls. unfold trade. split.
  - assert (Hstep : forall s st, In s (map fst (strategies self)) ->
              Forall (fun c => In (call_symbol c) (map fst (strategies self)))
                (snd (trade_symbol self s st))
              /\ (count_calls is_any_open (snd (trade_symbol self s st))
                  <= 1)%nat).
    { intros s st Hs.
      pose proof (trade_symbol_shape self s st) as Hshape. cbv zeta in Hshape.
      destruct Hshape as [->|[_ [_ [side [_ [_ [->|[->| ->]]]]]]]];
        (split; [repeat constructor; exact Hs|]);
        unfold count_calls; cbn; lia. }
    exact (proj1 (trade_from self (map fst (strategies self)) w []
                    (fun c => In (call_symbol c) (map fst (strategies self)))
                    0 is_any_open Hstep (Forall_nil _) (Nat.le_0_l _))).
  - intros s.
    pose proof (trade_from_symbol self s (map fst (strategies self)) w [])
      as Hcount.
    cbv zeta in Hcount. destruct Hcount as [Hopen Hclose].
    pose proof (key_occurs_once s _ Hkeys) as Honce.
    unfold count_calls in *. cbn [filter length] in Hopen, Hclose.
    split; lia.
Qed.

(** A cycle over EURUSD (BUY) and XAUUSD (SELL). *)
Lemma X17_cycle_calls_witness :
  let calls :=
    snd (trade CycleStatements.two_symbol_robot
           (Fixtures.short_only Fixtures.funded_terminal)) in
  (count_calls (CycleStatements.is_open_for "EURUSD") calls <= 1)%nat
  /\ (count_calls (CycleStatements.is_close_for "EURUSD") calls <= 1)%nat.
Proof.
  cbv zeta.
  refine (proj2 (X17_cycle_calls_are_bounded CycleStatements.two_symbol_robot
                   (Fixtures.short_only Fixtures.funded_terminal) _) "EURUSD").
  cbn. constructor.
  - intros [H|[]]. discriminate H.
  - constructor; [intros []|constructor].
Defined.

End RobotMoreClaims.

(** ** Start-up selection: what the caller can rely on *)

Section StartupSelectionMore.
Import VolatilityAnalyzer MainLive Statements.

Lemma slice_to_incl {A} (l : list A) (n : Z) : incl (slice_to l n) l.
Proof.
  destruct (slice_to_prefix l n) as [rest Hrest].
  intros x Hx. rewrite Hrest. apply in_or_app. left. exact Hx.
Qed.

Lemma slice_to_distinct {A} (l : list A) (n : Z) :
  NoDup l -> NoDup (slice_to l n).
Proof.
  destruct (slice_to_prefix l n) as [rest Hrest].
  intros H. rewrite Hrest in H. exact (NoDup_app_remove_r _ _ H).
Qed.

Lemma ranked_symbols (self : VolatilityAnalyzer.t) (mt5 : MT5)
    (symbols : list string) (timeframe : Z) :
  Permutation
    (map symbol (rank_symbols_by_volatility self mt5 symbols timeframe))
    (filter (has_metrics self mt5 timeframe) symbols).
Proof.
  unfold rank_symbols_by_volatility.
  rewrite <- available_symbols, <- collect_metrics_available.
  apply Permutation_map. apply sort_by_score_reverse_perm.
Qed.

(** X18: whichever way [select_volatile_symbols] ends, by the analyzer's
    selection or by the fallback after an error, every symbol it returns is
    one of the caller's candidates, distinct candidates give distinct
    results, and for a non-negative max_symbols at most that many are
    returned. *)
Theorem X18_selected_symbols_are_candidates (host : Host)
    (candidates : list string) (max_symbols : Z) :
  let selected := select_volatile_symbols host candidates max_symbols in
  incl selected candidates
  /\ (NoDup candidates -> NoDup selected)
  /\ ((0 <= max_symbols)%Z -> (Z.of_nat (length selected) <= max_symbols)%Z).
Proof.
  cbv zeta.
  assert (Hfallback :
    incl (slice_to candidates max_symbols) candidates
    /\ (NoDup candidates -> NoDup (slice_to candidates max_symbols))
    /\ ((0 <= max_symbols)%Z ->
        (Z.of_nat (length (slice_to candidates max_symbols)) <= max_symbols)%Z)).
  { split; [apply slice_to_incl|].
    split; [apply slice_to_distinct|apply slice_to_length]. }
  unfold select_volatile_symbols.
  destruct (VolatilityAnalyzer.init (indicators host) (mt5 host) 14 20)
    as [analyzer|]; cbn [bind_outcome]; [|exact Hfallback].
  destruct (load_config host) as [config|]; cbn [bind_outcome];
    [|exact Hfallback].
  destruct (yaml_get config "volatility_config" (YDict []))
    as [volatility_config|]; cbn [bind_outcome]; [|exact Hfallback].
  destruct (yaml_get volatility_config "min_volatility_threshold"
              (YNumber (1 # 2)))
    as [min_threshold|]; cbn [bind_outcome]; [|exact Hfallback].
  unfold call_select_top_volatile_symbols.
  destruct (filter_by_threshold _ _ min_threshold) as [passing|] eqn:Hpassing;
    cbn [bind_outcome]; [|exact Hfallback].
  destruct (filter_by_threshold_returned _ _ _ _ Hpassing) as [keep ->].
  pose proof (ranked_symbols analyzer (mt5 host) candidates TIMEFRAME_H1)
    as Hperm.
  split; [|split].
  - intros s Hs. apply slice_to_incl in Hs. apply in_map_iff in Hs.
    destruct Hs as [m [<- Hm]]. apply filter_In in Hm. destruct Hm as [Hm _].
    assert (Hin : In (symbol m)
                    (map symbol
                       (rank_symbols_by_volatility analyzer (mt5 host)
                          candidates TIMEFRAME_H1)))
      by (apply in_map; exact Hm).
    apply (Permutation_in _ Hperm) in Hin. apply filter_In in Hin. tauto.
  - intros Hnodup. apply slice_to_distinct. apply filtered_symbols_distinct.
    apply (Permutation_NoDup (Permutation_sym Hperm)).
    apply NoDup_filter. exact Hnodup.
  - apply slice_to_length.
Qed.

Lemma X18_selected_symbols_witness :
  let selected :=
    select_volatile_symbols Fixtures.offline_host ["EURUSD"; "GBPUSD"; "XAUUSD"] 2 in
  NoDup selected /\ (Z.of_nat (length selected) <= 2)%Z.
Proof.
  cbv zeta.
  destruct (X18_selected_symbols_are_candidates Fixtures.offline_host
              ["EURUSD"; "GBPUSD"; "XAUUSD"] 2) as [_ [Hnodup Hlen]].
  split; [apply Hnodup|apply Hlen; discriminate].
  repeat constructor; cbn; intuition discriminate.
Defined.

End StartupSelectionMore.

(** ** Trend breakout strategy *)

Section TrendBreakoutFacts.
Import TrendBreakoutStrategy.

Lemma fold_py_max_ge (l : list Q) (acc : Q) :
  acc <= fold_left py_max l acc
  /\ forall x, In x l -> x <= fold_left py_max l acc.
Proof.
  revert acc. induction l as [|y rest IH]; intros acc; cbn [fold_left].
  - split; [apply Qle_refl|intros x []].
  - destruct (IH (py_max acc y)) as [Hacc Hin].
    assert (Hstep : acc <= py_max acc y /\ y <= py_max acc y).
    { destruct (py_max_cases acc y) as [[H ->]|[H ->]]; split; lra. }
    split; [lra|].
    intros x [<-|Hx]; [lra|apply Hin; exact Hx].
Qed.

Lemma fold_py_min_le (l : list Q) (acc : Q) :
  fold_left py_min l acc <= acc
  /\ forall x, In x l -> fold_left py_min l acc <= x.
Proof.
  revert acc. induction l as [|y rest IH]; intros acc; cbn [fold_left].
  - split; [apply Qle_refl|intros x []].
  - destruct (IH (py_min acc y)) as [Hacc Hin].
    assert (Hstep : py_min acc y <= acc /\ py_min acc y <= y).
    { destruct (py_min_cases acc y) as [[H ->]|[H ->]]; split; lra. }
    split; [lra|].
    intros x [<-|Hx]; [lra|apply Hin; exact Hx].
Qed.

Lemma series_max_ge (l : list Q) (x : Q) : In x l -> x <= series_max l.
Proof.
  destruct l as [|y rest]; [intros []|]. cbn [series_max].
  destruct (fold_py_max_ge rest y) as [Hacc Hin].
  intros [<-|Hx]; [exact Hacc|apply Hin; exact Hx].
Qed.

Lemma series_min_le (l : list Q) (x : Q) : In x l -> series_min l <= x.
Proof.
  destruct l as [|y rest]; [intros []|]. cbn [series_min].
  destruct (fold_py_min_le rest y) as [Hacc Hin].
  intros [<-|Hx]; [exact Hacc|apply Hin; exact Hx].
Qed.

Lemma last_in_tail {A} (l : list A) (n : nat) (d : A) :
  (n < length l)%nat -> In (last l d) (skipn n l).
Proof.
  revert n. induction l as [|x rest IH]; intros n Hn; [cbn in Hn; lia|].
  destruct n as [|n].
  - cbn [skipn]. destruct rest as [|y rest']; [left; reflexivity|].
    right. apply (IH 0%nat). cbn. lia.
  - cbn [skipn]. destruct rest as [|y rest']; [cbn in Hn; lia|].
    change (last (x :: y :: rest') d) with (last (y :: rest') d).
    apply IH. cbn in *. lia.
Qed.

(** The current bar lies in the window from which the levels are taken. *)
Lemma last_in_window (df : list Bar) (k : Z) (f : Bar -> Q) :
  (1 <= k <= Z.of_nat (length df))%Z ->
  In (last (map f df) 0) (map f (slice_from df (- k))).
Proof.
  intros Hk. unfold slice_from.
  destruct (Z.ltb_spec (- k) 0) as [_|H]; [|lia].
  rewrite <- skipn_map. apply last_in_tail. rewrite length_map. lia.
Qed.

Lemma levels_bracket_current_bar (self : t) (df : list Bar) :
  (1 <= lookback_period self <= Z.of_nat (length df))%Z ->
  fst (identify_support_resistance self df) <= last (map bar_low df) 0
  /\ last (map bar_high df) 0 <= snd (identify_support_resistance self df).
Proof.
  intros Hk. unfold identify_support_resistance.
  destruct (Z.ltb_spec (Z.of_nat (length df)) (lookback_period self)) as [H|_];
    [lia|].
  cbn [fst snd]. split.
  - apply series_min_le. apply last_in_window. exact Hk.
  - apply series_max_ge. apply last_in_window. exact Hk.
Qed.

Lemma no_breakout_within_levels (self : t) (df : list Bar)
    (support resistance : Q) :
  support <= last (map bar_low df) 0 ->
  last (map bar_high df) 0 <= resistance ->
  detect_breakout self df support resistance = (false, "").
Proof.
  intros Hlow Hhigh. unfold detect_breakout.
  destruct (length df <? 2)%nat; [reflexivity|].
  apply Qltb_false in Hlow, Hhigh. rewrite Hlow, Hhigh. reflexivity.
Qed.

Lemma breakout_on_own_levels (self : t) (df : list Bar) :
  (1 <= lookback_period self <= Z.of_nat (length df))%Z ->
  detect_breakout self df
    (fst (identify_support_resistance self df))
    (snd (identify_support_resistance self df))
  = (false, "").
Proof.
  intros Hk.
  destruct (levels_bracket_current_bar self df Hk) as [Hlow Hhigh].
  apply no_breakout_within_levels; assumption.
Qed.

End TrendBreakoutFacts.

Section TrendBreakoutClaims.
Import TrendBreakoutStrategy.

(** X19: with the support and resistance that
    [identify_support_resistance] computes from a frame, [detect_breakout]
    on the same frame never reports a breakout: the window of the levels
    includes the current bar, so its high cannot exceed the resistance nor
    its low undercut the support. *)
Theorem X19_breakout_never_detected (self : t) (df : list Bar) :
  (1 <= lookback_period self <= Z.of_nat (length df))%Z ->
  detect_breakout self df
    (fst (identify_support_resistance self df))
    (snd (identify_support_resistance self df))
  = (false, "").
Proof.
  intros Hk.
  destruct (levels_bracket_current_bar self df Hk) as [Hlow Hhigh].
  apply no_breakout_within_levels; assumption.
Qed.

(** The last bar spikes nine percent above all earlier highs. *)
Lemma X19_breakout_never_detected_witness :
  detect_breakout (on_frame spike_frame 40) spike_frame
    (fst (identify_support_resistance (on_frame spike_frame 40) spike_frame))
    (snd (identify_support_resistance (on_frame spike_frame 40) spike_frame))
  = (false, "").
Proof.
  apply (X19_breakout_never_detected (on_frame spike_frame 40) spike_frame).
  cbn. lia.
Defined.

(** X20: [TrendBreakoutStrategy.signal] answers NONE whenever the trend
    strength (ADX) is at most 30: the breakout branches, which need only a
    strength above 25, cannot fire, because no breakout is ever detected. *)
Theorem X20_signal_needs_strong_trend (self : t) (df : list Bar) :
  (1 <= lookback_period self)%Z ->
  get_data (data self) = Returned df ->
  calculate_trend_strength self df <= 30 ->
  signal self = Returned (get_symbol (data self), NONE).
Proof.
  intros Hk Hdata Hadx. unfold signal. rewrite Hdata. cbn [bind_outcome].
  destruct (Z.ltb_spec (Z.of_nat (length df)) (lookback_period self + 5))
    as [_|Hlen]; [reflexivity|].
  pose proof (breakout_on_own_levels self df ltac:(lia)) as Hno.
  destruct (identify_support_resistance self df) as [support resistance].
  cbn [fst snd] in Hno.
  destruct (Qeq_bool support 0 || Qeq_bool resistance 0); [reflexivity|].
  rewrite Hno.
  destruct (iloc_last (map bar_close df)) as [current_price|] eqn:Hprice.
  2:{ destruct df; [cbn in Hlen; lia|discriminate]. }
  cbn [bind_outcome andb].
  apply Qltb_false in Hadx. rewrite Hadx. reflexivity.
Qed.

(** A strength of 28 and a last bar far above the earlier highs. *)
Lemma X20_signal_needs_strong_trend_witness :
  signal (on_frame spike_frame 28) = Returned ("EURUSD", NONE).
Proof.
  apply (X20_signal_needs_strong_trend (on_frame spike_frame 28) spike_frame).
  - cbn. lia.
  - reflexivity.
  - vm_compute. discriminate.
Defined.

(** X21: [detect_breakout] answers no breakout, bullish or bearish; a
    bullish breakout needs a current high above the resistance and a
    bearish one a current low below the support; with a positive threshold
    a level that is not positive is never broken; and lowering the
    threshold keeps a bullish breakout bullish and keeps any breakout a
    breakout. *)
Theorem X21_breakout_conditions (self self' : t) (df : list Bar)
    (support resistance : Q) :
  let current_high := last (map bar_high df) 0 in
  let current_low := last (map bar_low df) 0 in
  let result := detect_breakout self df support resistance in
  let result' := detect_breakout self' df support resistance in
  (result = (false, "") \/ result = (true, "bullish")
   \/ result = (true, "bearish"))
  /\ (result = (true, "bullish") ->
      (2 <= length df)%nat /\ resistance < current_high)
  /\ (result = (true, "bearish") ->
      (2 <= length df)%nat /\ current_low < support)
  /\ (0 < breakout_threshold self -> resistance <= 0 ->
      result <> (true, "bullish"))
  /\ (0 < breakout_threshold self -> support <= 0 ->
      result <> (true, "bearish"))
  /\ (breakout_threshold self' <= breakout_threshold self ->
      (result = (true, "bullish") -> result' = (true, "bullish"))
      /\ (fst result = true -> fst result' = true)).
Proof.
  intros current_high current_low result result'.
  subst result result'. unfold detect_breakout.
  destruct (Nat.ltb_spec (length df) 2) as [Hshort|Hlen].
  { repeat split; try discriminate; auto. }
  fold current_high. fold current_low.
  set (up := if Qltb 0 resistance
             then (current_high - resistance) / resistance else 0).
  set (down := if Qltb 0 support
               then (support - current_low) / support else 0).
  assert (Hup : resistance <= 0 -> up = 0).
  { intros H. subst up. apply Qltb_false in H. rewrite H. reflexivity. }
  assert (Hdown : support <= 0 -> down = 0).
  { intros H. subst down. apply Qltb_false in H. rewrite H. reflexivity. }
  clearbody up down.
  destruct (Qltb resistance current_high) eqn:Eh;
    destruct (Qltb current_low support) eqn:El;
    destruct (Qle_bool (breakout_threshold self) up) eqn:Eu;
    destruct (Qle_bool (breakout_threshold self) down) eqn:Ed;
    try apply Qltb_true in Eh; try apply Qltb_true in El;
    repeat split; try discriminate; auto;
    try (intros Ht Hr _; rewrite (Hup Hr) in Eu;
         apply Qle_bool_iff in Eu; lra);
    try (intros Ht Hs _; rewrite (Hdown Hs) in Ed;
         apply Qle_bool_iff in Ed; lra);
    try (intros _;
         assert (Eu' : Qle_bool (breakout_threshold self') up = true)
           by (apply Qle_bool_iff; apply Qle_bool_iff in Eu; lra);
         rewrite Eu'; reflexivity);
    try (intros _;
         assert (Ed' : Qle_bool (breakout_threshold self') down = true)
           by (apply Qle_bool_iff; apply Qle_bool_iff in Ed; lra);
         rewrite Ed';
         destruct (Qle_bool (breakout_threshold self') up); reflexivity).
Qed.

(** Resistance 1.10 and threshold 0.1 percent: a high of 1.20 breaks out,
    and the high is above the resistance. *)
Lemma X21_breakout_conditions_witness :
  detect_breakout (on_frame spike_frame 40) spike_frame (109 # 100) (110 # 100)
  = (true, "bullish")
  /\ 110 # 100 < last (map bar_high spike_frame) 0.
Proof.
  assert (E : detect_breakout (on_frame spike_frame 40) spike_frame
                (109 # 100) (110 # 100) = (true, "bullish"))
    by (vm_compute; reflexivity).
  split; [exact E|].
  exact (proj2 (proj1 (proj2 (X21_breakout_conditions (on_frame spike_frame 40)
                  (on_frame spike_frame 40) spike_frame
                  (109 # 100) (110 # 100))) E)).
Defined.

End TrendBreakoutClaims.

(** ** Dictionaries *)

Section DictFacts.
Context {V : Type}.

Lemma dict_get_set_same (k : string) (v : V) (d : list (string * V)) :
  dict_get k (dict_set k v d) = Some v.
Proof.
  induction d as [|[k' v'] rest IH]; cbn.
  - rewrite String.eqb_refl. reflexivity.
  - destruct (String.eqb_spec k k') as [E|E]; cbn.
    + rewrite String.eqb_refl. reflexivity.
    + destruct (String.eqb_spec k k'); [contradiction|exact IH].
Qed.

Lemma dict_get_set_other (k k' : string) (v : V) (d : list (string * V)) :
  k <> k' -> dict_get k' (dict_set k v d) = dict_get k' d.
Proof.
  intros Hne. induction d as [|[k0 v0] rest IH]; cbn.
  - destruct (String.eqb_spec k' k); [congruence|reflexivity].
  - destruct (String.eqb_spec k k0) as [E|E]; cbn.
    + subst k0. destruct (String.eqb_spec k' k); [congruence|reflexivity].
    + destruct (String.eqb_spec k' k0); [reflexivity|exact IH].
Qed.

Lemma dict_get_del_same (k : string) (d : list (string * V)) :
  dict_get k (dict_del k d) = None.
Proof.
  unfold dict_del. induction d as [|[k0 v0] rest IH]; cbn; [reflexivity|].
  destruct (String.eqb_spec k k0) as [E|E]; cbn; [exact IH|].
  destruct (String.eqb_spec k k0); [contradiction|exact IH].
Qed.

Lemma dict_get_del_other (k k' : string) (d : list (string * V)) :
  k <> k' -> dict_get k' (dict_del k d) = dict_get k' d.
Proof.
  intros Hne. unfold dict_del.
  induction d as [|[k0 v0] rest IH]; cbn; [reflexivity|].
  destruct (String.eqb_spec k k0) as [E|E]; cbn.
  - subst k0. destruct (String.eqb_spec k' k); [congruence|exact IH].
  - destruct (String.eqb_spec k' k0); [reflexivity|exact IH].
Qed.

Lemma dict_del_absent (k : string) (d : list (string * V)) :
  dict_get k d = None -> dict_del k d = d.
Proof.
  unfold dict_del. induction d as [|[k0 v0] rest IH]; cbn; [reflexivity|].
  destruct (String.eqb_spec k k0) as [E|E]; [discriminate|].
  intros H. cbn. rewrite (IH H). reflexivity.
Qed.

Lemma dict_set_absent (k : string) (v : V) (d : list (string * V)) :
  dict_get k d = None -> dict_set k v d = d ++ [(k, v)].
Proof.
  induction d as [|[k0 v0] rest IH]; cbn; [reflexivity|].
  destruct (String.eqb_spec k k0) as [E|E]; [discriminate|].
  intros H. rewrite (IH H). reflexivity.
Qed.

Lemma dict_del_appended (k : string) (v : V) (d : list (string * V)) :
  dict_get k d = None -> dict_del k (d ++ [(k, v)]) = d.
Proof.
  intros H. unfold dict_del. rewrite filter_app. cbn.
  rewrite String.eqb_refl. cbn. rewrite app_nil_r.
  apply (dict_del_absent k d H).
Qed.

Lemma dict_keys (k : string) (d : list (string * V)) :
  In k (map fst d) <-> dict_get k d <> None.
Proof.
  induction d as [|[k0 v0] rest IH]; cbn.
  - split; [intros []|congruence].
  - destruct (String.eqb_spec k k0) as [E|E].
    + split; [discriminate|]. intros _. left. symmetry. exact E.
    + rewrite <- IH. split; [intros [H|H]; [congruence|exact H]|auto].
Qed.

Lemma dict_mem_true (k : string) (d : list (string * V)) :
  dict_mem k d = true <-> dict_get k d <> None.
Proof.
  unfold dict_mem. destruct (dict_get k d); split; congruence.
Qed.

Lemma dict_mem_false (k : string) (d : list (string * V)) :
  dict_mem k d = false <-> dict_get k d = None.
Proof.
  unfold dict_mem. destruct (dict_get k d); split; congruence.
Qed.

End DictFacts.

Section ListRemoveFacts.

Lemma list_remove_appended (x : string) (l : list string) :
  ~ In x l -> list_remove x (l ++ [x]) = l.
Proof.
  induction l as [|y rest IH]; cbn; intros H.
  - rewrite String.eqb_refl. reflexivity.
  - destruct (String.eqb_spec x y) as [E|E]; [exfalso; auto|].
    rewrite IH; auto.
Qed.

Lemma list_remove_keeps_others (x k : string) (l : list string) :
  k <> x -> In k l -> In k (list_remove x l).
Proof.
  intros Hne. induction l as [|y rest IH]; cbn; [auto|].
  intros [H|H]; destruct (String.eqb_spec x y) as [E|E].
  - congruence.
  - left. exact H.
  - exact H.
  - right. apply IH. exact H.
Qed.

Lemma existsb_eqb_In (x : string) (l : list string) :
  existsb (String.eqb x) l = true <-> In x l.
Proof.
  rewrite existsb_exists. split.
  - intros [y [Hy E]]. apply String.eqb_eq in E. subst. exact Hy.
  - intros H. exists x. split; [exact H|apply String.eqb_refl].
Qed.

End ListRemoveFacts.

(** ** Symbol manager *)

Section ManagerFacts.
Import MultiSymbolManagerOps.

Context {MT5Data : Type}.
Variable new_MT5Data : string -> Z -> outcome MT5Data.

Lemma state_eta (self : state MT5Data) :
  make (symbols self) (timeframe self) (volatility_metrics self)
    (data_sources self) = self.
Proof. destruct self as [[? ? ?] ?]. reflexivity. Qed.

(** The data sources after the initialisation loop. *)
Lemma initialize_loop (mt5 : MT5) (tf : Z) (listed : list string)
    (sources : list (string * MT5Data)) (s : string) :
  dict_get s (fold_left (initialize_one new_MT5Data mt5 tf) listed sources)
  <> None
  <-> dict_get s sources <> None
      \/ (In s listed /\ symbol_select mt5 s = true
          /\ new_MT5Data s tf <> Raised).
Proof.
  revert sources. induction listed as [|k rest IH]; intros sources; cbn.
  - tauto.
  - rewrite IH. unfold initialize_one.
    destruct (symbol_select mt5 k) eqn:Hsel; cbn [negb].
    + destruct (new_MT5Data k tf) as [ds|] eqn:Hnew.
      * destruct (String.eqb_spec k s) as [->|Hne].
        -- rewrite dict_get_set_same. split; [intros _|intros _; left; discriminate].
           right. split; [left; reflexivity|]. split; [exact Hsel|].
           rewrite Hnew. discriminate.
        -- rewrite (dict_get_set_other k s ds sources Hne).
           split; [intros [H|[H1 H2]]; [left; exact H|right; tauto]|].
           intros [H|[[H|H] H2]]; [left; exact H|contradiction|right; tauto].
      * split; [intros [H|[H1 H2]]; [left; exact H|right; tauto]|].
        intros [H|[[->|H] [H2 H3]]]; [left; exact H|contradiction|right; tauto].
    + split; [intros [H|[H1 H2]]; [left; exact H|right; tauto]|].
      intros [H|[[->|H] [H2 H3]]]; [left; exact H|congruence|right; tauto].
Qed.

(** The cache after the update loop. *)
Lemma update_loop (analyzer : VolatilityAnalyzer.t) (mt5 : MT5) (tf : Z)
    (listed : list string)
    (cache : list (string * VolatilityAnalyzer.Metrics)) (s : string) :
  dict_get s
    (fold_left
       (fun cache symbol =>
          match VolatilityAnalyzer.calculate_volatility_metrics
                  analyzer mt5 symbol tf with
          | Some metrics => dict_set symbol metrics cache
          | None => cache
          end)
       listed cache)
  = match VolatilityAnalyzer.calculate_volatility_metrics analyzer mt5 s tf with
    | Some metrics =>
        if existsb (String.eqb s) listed then Some metrics else dict_get s cache
    | None => dict_get s cache
    end.
Proof.
  revert cache. induction listed as [|k rest IH]; intros cache; cbn.
  - destruct (VolatilityAnalyzer.calculate_volatility_metrics analyzer mt5 s tf);
      reflexivity.
  - rewrite IH.
    destruct (VolatilityAnalyzer.calculate_volatility_metrics analyzer mt5 s tf)
      as [m|] eqn:Hs.
    + destruct (existsb (String.eqb s) rest) eqn:Hrest.
      * rewrite orb_true_r. reflexivity.
      * rewrite orb_false_r.
        destruct (String.eqb_spec s k) as [->|Hne].
        -- rewrite Hs. apply dict_get_set_same.
        -- destruct (VolatilityAnalyzer.calculate_volatility_metrics
                       analyzer mt5 k tf); [|reflexivity].
           apply dict_get_set_other. congruence.
    + destruct (VolatilityAnalyzer.calculate_volatility_metrics
                  analyzer mt5 k tf) as [m|] eqn:Hk; [|reflexivity].
      apply dict_get_set_other. intros ->. congruence.
Qed.

Lemma keys_after_set (k s : string) (v : MT5Data)
    (d : list (string * MT5Data)) :
  In s (map fst (dict_set k v d)) -> s = k \/ In s (map fst d).
Proof.
  rewrite !dict_keys. destruct (String.eqb_spec k s) as [->|Hne].
  - left. reflexivity.
  - rewrite (dict_get_set_other k s v d Hne). right. assumption.
Qed.

Lemma keys_after_del (k s : string) (d : list (string * MT5Data)) :
  In s (map fst (dict_del k d)) -> s <> k /\ In s (map fst d).
Proof.
  rewrite !dict_keys. destruct (String.eqb_spec k s) as [->|Hne].
  - rewrite dict_get_del_same. congruence.
  - rewrite (dict_get_del_other k s d Hne). split; [congruence|assumption].
Qed.

End ManagerFacts.

Section ManagerClaims.
Import MultiSymbolManagerOps.

(** X22: [add_symbol] returns True exactly when the symbol has a data
    source afterwards; a refused addition (symbol not selectable, or the
    data source cannot be built) and the addition of a symbol that is
    already managed leave the manager as it was; other symbols keep their
    data sources; and adding the same symbol again changes nothing. *)
Theorem X22_add_symbol_outcome {MT5Data : Type}
    (new_MT5Data : string -> Z -> outcome MT5Data)
    (self : state MT5Data) (mt5 : MT5) (symbol : string) :
  let result := add_symbol new_MT5Data self mt5 symbol in
  (fst result = true <-> get_data_source (snd result) symbol <> None)
  /\ (fst result = false -> snd result = self)
  /\ (get_data_source self symbol <> None -> result = (true, self))
  /\ (forall other, other <> symbol ->
        get_data_source (snd result) other = get_data_source self other)
  /\ add_symbol new_MT5Data (snd result) mt5 symbol = result.
Proof.
  cbv zeta. unfold add_symbol, get_data_source.
  destruct (dict_mem symbol (data_sources self)) eqn:Hmem.
  - cbn [fst snd]. rewrite Hmem. apply dict_mem_true in Hmem.
    repeat split; auto; discriminate.
  - pose proof (proj1 (dict_mem_false _ _) Hmem) as Habsent.
    destruct (symbol_select mt5 symbol) eqn:Hsel; cbn [negb].
    + destruct (new_MT5Data symbol (timeframe self)) as [ds|] eqn:Hnew.
      * cbn [fst snd make data_sources].
        assert (Hnow : dict_mem symbol (dict_set symbol ds (data_sources self))
                       = true).
        { apply dict_mem_true. rewrite dict_get_set_same. discriminate. }
        rewrite Hnow, dict_get_set_same.
        repeat split; try discriminate; try congruence.
        intros other Hother. apply dict_get_set_other. congruence.
      * cbn [fst snd]. rewrite ?Hmem, ?Hsel, ?Hnew, ?Habsent. cbn [negb].
        repeat split; congruence.
    + cbn [fst snd]. rewrite ?Hmem, ?Hsel, ?Habsent. cbn [negb].
      repeat split; congruence.
Qed.

Lemma X22_add_symbol_witness :
  get_data_source
    (snd (add_symbol pair_source eurusd_only two_symbol_terminal "XAUUSD"))
    "XAUUSD" <> None
  /\ snd (add_symbol pair_source eurusd_only two_symbol_terminal "GBPUSD")
     = eurusd_only.
Proof.
  split.
  - apply (proj1 (X22_add_symbol_outcome pair_source eurusd_only
                    two_symbol_terminal "XAUUSD")).
    reflexivity.
  - apply (proj1 (proj2 (X22_add_symbol_outcome pair_source eurusd_only
                           two_symbol_terminal "GBPUSD"))).
    reflexivity.
Defined.

(** X23: [remove_symbol] returns True exactly when the symbol had a data
    source; then its data source and its cached metrics are gone, while a
    refused removal changes nothing; every other symbol keeps its data
    source and its cached metrics. *)
Theorem X23_remove_symbol_outcome {MT5Data : Type} (self : state MT5Data)
    (symbol : string) :
  let result := remove_symbol self symbol in
  (fst result = true <-> get_data_source self symbol <> None)
  /\ (fst result = false -> snd result = self)
  /\ get_data_source (snd result) symbol = None
  /\ (fst result = true -> get_volatility_metrics (snd result) symbol = None)
  /\ (forall other, other <> symbol ->
        get_data_source (snd result) other = get_data_source self other
        /\ get_volatility_metrics (snd result) other
           = get_volatility_metrics self other)
  /\ fst (remove_symbol (snd result) symbol) = false.
Proof.
  cbv zeta.
  unfold remove_symbol, get_data_source, get_volatility_metrics,
    MultiSymbolManager.get_volatility_metrics.
  destruct (dict_mem symbol (data_sources self)) eqn:Hmem; cbn [negb].
  - pose proof (proj1 (dict_mem_true _ _) Hmem) as Hpresent.
    cbn [fst snd make core data_sources
         MultiSymbolManager.volatility_metrics].
    assert (Hgone : dict_mem symbol (dict_del symbol (data_sources self))
                    = false).
    { apply dict_mem_false. apply dict_get_del_same. }
    rewrite Hgone, dict_get_del_same. cbn [negb fst].
    split; [tauto|]. split; [discriminate|]. split; [reflexivity|].
    split.
    + intros _. destruct (dict_mem symbol (volatility_metrics self)) eqn:Hm.
      * apply dict_get_del_same.
      * apply dict_mem_false. exact Hm.
    + split; [|reflexivity].
      intros other Hother. split.
      * apply dict_get_del_other. congruence.
      * destruct (dict_mem symbol (volatility_metrics self));
          [apply dict_get_del_other; congruence|reflexivity].
  - pose proof (proj1 (dict_mem_false _ _) Hmem) as Habsent.
    cbn [fst snd]. rewrite Hmem. cbn [negb fst].
    repeat split; try congruence; try discriminate.
Qed.

Lemma X23_remove_symbol_witness :
  snd (remove_symbol eurusd_only "XAUUSD") = eurusd_only
  /\ fst (remove_symbol eurusd_only "EURUSD") = true.
Proof.
  split.
  - apply (proj1 (proj2 (X23_remove_symbol_outcome eurusd_only "XAUUSD"))).
    reflexivity.
  - apply (proj2 (proj1 (X23_remove_symbol_outcome eurusd_only "EURUSD"))).
    discriminate.
Defined.

(** X24: adding a symbol that is neither managed nor listed and has no
    cached metrics, and then removing it, gives back the manager exactly as
    it was. *)
Theorem X24_add_then_remove {MT5Data : Type}
    (new_MT5Data : string -> Z -> outcome MT5Data)
    (self : state MT5Data) (mt5 : MT5) (symbol : string) :
  get_data_source self symbol = None ->
  ~ In symbol (symbols self) ->
  get_volatility_metrics self symbol = None ->
  fst (add_symbol new_MT5Data self mt5 symbol) = true ->
  remove_symbol (snd (add_symbol new_MT5Data self mt5 symbol)) symbol
  = (true, self).
Proof.
  destruct self as [[listed tf metrics] sources].
  unfold get_data_source, get_volatility_metrics,
    MultiSymbolManager.get_volatility_metrics, add_symbol, remove_symbol,
    symbols, timeframe, volatility_metrics, make.
  cbn [core data_sources MultiSymbolManager.symbols
       MultiSymbolManager.timeframe MultiSymbolManager.volatility_metrics].
  intros Hsource Hlisted Hmetrics.
  assert (Hmem : dict_mem symbol sources = false)
    by (apply dict_mem_false; exact Hsource).
  rewrite Hmem.
  destruct (negb (symbol_select mt5 symbol)); [discriminate|].
  destruct (new_MT5Data symbol tf) as [ds|]; [|discriminate].
  intros _.
  cbn [snd core data_sources MultiSymbolManager.symbols
       MultiSymbolManager.timeframe MultiSymbolManager.volatility_metrics].
  assert (Hnow : dict_mem symbol (dict_set symbol ds sources) = true).
  { apply dict_mem_true. rewrite dict_get_set_same. discriminate. }
  rewrite Hnow. cbn [negb].
  assert (Hm : dict_mem symbol metrics = false)
    by (apply dict_mem_false; exact Hmetrics).
  rewrite Hm.
  assert (Hin : existsb (String.eqb symbol) (listed ++ [symbol]) = true).
  { apply existsb_eqb_In. apply in_or_app. right. left. reflexivity. }
  rewrite Hin, (list_remove_appended symbol _ Hlisted).
  rewrite (dict_set_absent symbol ds _ Hsource),
    (dict_del_appended symbol ds _ Hsource).
  reflexivity.
Qed.

Lemma X24_add_then_remove_witness :
  remove_symbol
    (snd (add_symbol pair_source eurusd_only two_symbol_terminal "XAUUSD"))
    "XAUUSD"
  = (true, eurusd_only).
Proof.
  apply (X24_add_then_remove pair_source eurusd_only two_symbol_terminal
           "XAUUSD").
  - reflexivity.
  - intros [H|[]]. discriminate H.
  - reflexivity.
  - reflexivity.
Defined.

(** X25: a freshly constructed manager holds a data source exactly for
    the listed symbols that the terminal can select and whose data source
    can be built; and construction, [add_symbol], [remove_symbol] and
    [update_volatility_metrics] all keep every symbol with a data source in
    the manager's symbol list. *)
Theorem X25_active_symbols_are_listed {MT5Data : Type}
    (new_MT5Data : string -> Z -> outcome MT5Data) (mt5 : MT5) :
  (forall listed tf fresh,
     init new_MT5Data mt5 listed tf = Returned fresh ->
     active_are_listed fresh
     /\ forall s,
          get_data_source fresh s <> None
          <-> In s listed /\ symbol_select mt5 s = true
              /\ new_MT5Data s tf <> Raised)
  /\ (forall self symbol analyzer,
        active_are_listed self ->
        active_are_listed (snd (add_symbol new_MT5Data self mt5 symbol))
        /\ active_are_listed (snd (remove_symbol self symbol))
        /\ active_are_listed (update_volatility_metrics self analyzer mt5)).
Proof.
  split.
  - intros listed tf fresh. unfold init.
    destruct (negb (initialize mt5)); [discriminate|].
    destruct (negb (login mt5)); [discriminate|].
    intros H. injection H as <-.
    assert (Hkeys : forall s,
              dict_get s (fold_left (initialize_one new_MT5Data mt5 tf) listed [])
              <> None
              <-> In s listed /\ symbol_select mt5 s = true
                  /\ new_MT5Data s tf <> Raised).
    { intros s. rewrite (initialize_loop new_MT5Data mt5 tf listed [] s).
      cbn [dict_get]. tauto. }
    split; [|exact Hkeys].
    intros s Hs. unfold get_active_symbols in Hs. cbn [make data_sources] in Hs.
    apply dict_keys in Hs. apply Hkeys in Hs. apply Hs.
  - intros self symbol analyzer Hinv. unfold active_are_listed in *.
    split; [|split].
    + unfold add_symbol.
      destruct (dict_mem symbol (data_sources self)); [exact Hinv|].
      destruct (negb (symbol_select mt5 symbol)); [exact Hinv|].
      destruct (new_MT5Data symbol (timeframe self)) as [ds|]; [|exact Hinv].
      intros s Hs. unfold get_active_symbols in Hs.
      cbn [snd make data_sources] in Hs. apply keys_after_set in Hs.
      cbn [snd make symbols core MultiSymbolManager.symbols].
      apply in_or_app. destruct Hs as [->|Hs]; [right; left; reflexivity|].
      left. apply Hinv. exact Hs.
    + unfold remove_symbol.
      destruct (negb (dict_mem symbol (data_sources self))); [exact Hinv|].
      intros s Hs. unfold get_active_symbols in Hs.
      cbn [snd make data_sources] in Hs. apply keys_after_del in Hs.
      destruct Hs as [Hne Hs].
      cbn [snd make symbols core MultiSymbolManager.symbols].
      destruct (existsb (String.eqb symbol) (symbols self)).
      * apply list_remove_keeps_others; [exact Hne|]. apply Hinv. exact Hs.
      * apply Hinv. exact Hs.
    + exact Hinv.
Qed.

(** GBPUSD is unknown to the terminal and gets no data source. *)
Lemma X25_active_symbols_witness :
  active_are_listed
    (make ["GBPUSD"; "XAUUSD"; "EURUSD"] TIMEFRAME_H1 []
       [("XAUUSD", ("XAUUSD", TIMEFRAME_H1));
        ("EURUSD", ("EURUSD", TIMEFRAME_H1))]).
Proof.
  apply (proj1 (proj1 (X25_active_symbols_are_listed pair_source
                         two_symbol_terminal)
                  ["GBPUSD"; "XAUUSD"; "EURUSD"] TIMEFRAME_H1 _ eq_refl)).
Defined.

(** X26: after [update_volatility_metrics] the cached metrics of a listed
    symbol whose data is available are the freshly computed ones; a symbol
    whose data is unavailable, or which is not listed, keeps whatever was
    cached before, so stale metrics survive an update. *)
Theorem X26_update_keeps_stale_metrics {MT5Data : Type}
    (self : state MT5Data) (analyzer : VolatilityAnalyzer.t) (mt5 : MT5)
    (s : string) :
  let updated := update_volatility_metrics self analyzer mt5 in
  let fresh :=
    VolatilityAnalyzer.calculate_volatility_metrics analyzer mt5 s
      (timeframe self) in
  (In s (symbols self) -> fresh <> None ->
   get_volatility_metrics updated s = fresh)
  /\ (~ In s (symbols self) \/ fresh = None ->
      get_volatility_metrics updated s = get_volatility_metrics self s)
  /\ data_sources updated = data_sources self
  /\ symbols updated = symbols self.
Proof.
  destruct self as [[listed tf metrics] sources]. cbv zeta.
  unfold update_volatility_metrics, get_volatility_metrics,
    MultiSymbolManager.get_volatility_metrics, symbols, timeframe,
    volatility_metrics, make.
  cbn [core data_sources MultiSymbolManager.symbols
       MultiSymbolManager.timeframe MultiSymbolManager.volatility_metrics].
  rewrite update_loop.
  destruct (VolatilityAnalyzer.calculate_volatility_metrics analyzer mt5 s tf)
    as [m|].
  - destruct (existsb (String.eqb s) listed) eqn:E.
    + apply existsb_eqb_In in E.
      split; [reflexivity|]. split; [|split; reflexivity].
      intros [H|H]; [contradiction|discriminate].
    + split; [|split; [reflexivity|split; reflexivity]].
      intros Hin. apply existsb_eqb_In in Hin. congruence.
  - split; [congruence|]. split; [reflexivity|split; reflexivity].
Qed.

Lemma X26_update_witness :
  get_volatility_metrics
    (update_volatility_metrics
       (make ["EURUSD"; "XAUUSD"] TIMEFRAME_H1
          [("XAUUSD", Fixtures.scored "XAUUSD" 3)]
          [("EURUSD", ("EURUSD", TIMEFRAME_H1))])
       Fixtures.default_analyzer two_symbol_terminal)
    "XAUUSD"
  = Some (Fixtures.scored "XAUUSD" 3).
Proof.
  apply (proj1 (proj2 (X26_update_keeps_stale_metrics
                         (make ["EURUSD"; "XAUUSD"] TIMEFRAME_H1
                            [("XAUUSD", Fixtures.scored "XAUUSD" 3)]
                            [("EURUSD", ("EURUSD", TIMEFRAME_H1))])
                         Fixtures.default_analyzer two_symbol_terminal
                         "XAUUSD"))).
  right. reflexivity.
Defined.

End ManagerClaims.

(** ** Average true range *)

Section AverageTrueRangeFacts.
Import AverageTrueRange.

Lemma Qsum_bounds (lo hi : Q) (l : list Q) :
  Forall (within lo hi) l ->
  inject_Z (Z.of_nat (length l)) * lo <= RiskManager.Qsum l
  /\ RiskManager.Qsum l <= inject_Z (Z.of_nat (length l)) * hi.
Proof.
  induction 1 as [|x rest [Hlo Hhi] _ [IHlo IHhi]].
  - change (inject_Z (Z.of_nat (length (@nil Q)))) with 0.
    change (RiskManager.Qsum []) with 0. split; lra.
  - cbn [length]. rewrite Qsum_cons, Nat2Z.inj_succ. unfold Z.succ.
    rewrite inject_Z_plus. change (inject_Z 1) with 1. split; lra.
Qed.

Lemma np_mean_bounds (lo hi : Q) (l : list Q) :
  l <> [] -> Forall (within lo hi) l ->
  exists a, np_mean l = Some a /\ within lo hi a.
Proof.
  intros Hne Hall. destruct l as [|x rest]; [contradiction|].
  cbn [np_mean]. eexists. split; [reflexivity|].
  destruct (Qsum_bounds lo hi (x :: rest) Hall) as [Hlo Hhi].
  assert (Hlen : 0 < inject_Z (Z.of_nat (length (x :: rest)))).
  { cbn [length]. rewrite Nat2Z.inj_succ.
    change 0 with (inject_Z 0). rewrite <- Zlt_Qlt. lia. }
  split.
  - apply Qle_shift_div_l; [exact Hlen|]. lra.
  - apply Qle_shift_div_r; [exact Hlen|]. lra.
Qed.

Lemma all_numbers_bounds (lo hi : Q) (l : list (option Q)) :
  Forall (fun v => exists a, v = Some a /\ within lo hi a) l ->
  exists xs, all_numbers l = Some xs /\ Forall (within lo hi) xs
             /\ length xs = length l.
Proof.
  induction 1 as [|v rest [a [-> Ha]] _ [xs [E [Hxs Hlen]]]].
  - exists []. repeat split. constructor.
  - exists (a :: xs). cbn. rewrite E. repeat split.
    + constructor; assumption.
    + congruence.
Qed.

Lemma np_mean_nan_bounds (lo hi : Q) (l : list (option Q)) :
  l <> [] ->
  Forall (fun v => exists a, v = Some a /\ within lo hi a) l ->
  exists a, np_mean_nan l = Some a /\ within lo hi a.
Proof.
  intros Hne Hall.
  destruct (all_numbers_bounds lo hi l Hall) as [xs [E [Hxs Hlen]]].
  unfold np_mean_nan. rewrite E. apply np_mean_bounds; [|exact Hxs].
  intros ->. destruct l; [contradiction|discriminate].
Qed.

Lemma In_head_part {A} (n : nat) (l : list A) (x : A) :
  In x (firstn n l) -> In x l.
Proof.
  intros H. rewrite <- (firstn_skipn n l). apply in_or_app. left. exact H.
Qed.

Lemma In_tail_part {A} (n : nat) (l : list A) (x : A) :
  In x (skipn n l) -> In x l.
Proof.
  intros H. rewrite <- (firstn_skipn n l). apply in_or_app. right. exact H.
Qed.

Lemma py_slice_incl {A} (l : list A) (a b : Z) : incl (py_slice l a b) l.
Proof.
  unfold py_slice. intros x Hx.
  apply In_head_part in Hx. apply In_tail_part in Hx. exact Hx.
Qed.

Lemma py_slice_length {A} (l : list A) (a b : Z) :
  (0 <= a)%Z -> (a <= b)%Z -> (b <= Z.of_nat (length l))%Z ->
  length (py_slice l a b) = Z.to_nat (b - a).
Proof.
  intros Ha Hab Hb. unfold py_slice, py_index_bound.
  destruct (Z.ltb_spec a 0); [lia|]. destruct (Z.ltb_spec b 0); [lia|].
  rewrite length_firstn, length_skipn. lia.
Qed.

Lemma true_range_nonneg (c : Q) (b : Bar) : 0 <= true_range c b.
Proof.
  unfold true_range.
  pose proof (Qabs_nonneg (bar_high b - c)) as H.
  destruct (py_max_cases (bar_high b - bar_low b) (Qabs (bar_high b - c)))
    as [[H1 ->]|[H1 ->]];
    match goal with
    | |- 0 <= py_max ?x ?y =>
        destruct (py_max_cases x y) as [[H2 ->]|[H2 ->]]
    end; lra.
Qed.

Lemma tr_list_nonneg (df : list Bar) : Forall (fun tr => 0 <= tr) (tr_list df).
Proof.
  destruct df as [|first rest]; [constructor|]. cbn [tr_list].
  generalize (bar_close first). induction rest as [|b rest IH]; intros c.
  - constructor.
  - cbn. constructor; [apply true_range_nonneg|apply IH].
Qed.

Lemma tr_list_length (df : list Bar) : length (tr_list df) = (length df - 1)%nat.
Proof.
  destruct df as [|first rest]; [reflexivity|]. cbn [tr_list length].
  replace (S (length rest) - 1)%nat with (length rest) by lia.
  generalize (bar_close first). induction rest as [|b rest IH]; intros c.
  - reflexivity.
  - cbn. rewrite IH. reflexivity.
Qed.

Lemma slice_from_incl {A} (l : list A) (n : Z) : incl (slice_from l n) l.
Proof.
  unfold slice_from. intros x Hx.
  destruct (n <? 0)%Z; apply In_tail_part in Hx; exact Hx.
Qed.

Lemma z_range_In (a b i : Z) : In i (z_range a b) -> (a <= i < b)%Z.
Proof.
  unfold z_range. rewrite in_map_iff. intros [k [<- Hk]].
  apply in_seq in Hk. lia.
Qed.

(** With a period of at least 1 and a non-negative lookback the average
    true range of a long enough series is a number that lies between any
    two bounds of its true ranges. *)
Lemma calculate_atr_bounds (atr_period lookback_period : Z) (df : list Bar)
    (lo hi : Q) :
  (1 <= atr_period)%Z ->
  (0 <= lookback_period)%Z ->
  (atr_period + 1 <= Z.of_nat (length df))%Z ->
  Forall (within lo hi) (tr_list df) ->
  exists a, calculate_atr atr_period lookback_period df = Some a
            /\ within lo hi a.
Proof.
  intros Hp Hlb Hlen Hall. unfold calculate_atr.
  destruct (Z.ltb_spec (Z.of_nat (length df)) (atr_period + 1)); [lia|].
  pose proof (tr_list_length df) as Hn.
  set (trs := tr_list df) in *.
  destruct (Z.ltb_spec (Z.of_nat (length trs)) atr_period); [lia|].
  set (atr_values :=
         map (fun i => np_mean (py_slice trs (i - atr_period + 1) (i + 1)))
             (z_range (atr_period - 1) (Z.of_nat (length trs)))).
  assert (Hvalues : Forall (fun v => exists a, v = Some a /\ within lo hi a)
                      atr_values).
  { subst atr_values. apply Forall_forall. intros v Hv.
    apply in_map_iff in Hv. destruct Hv as [i [<- Hi]].
    apply z_range_In in Hi. apply np_mean_bounds.
    - intros E.
      pose proof (py_slice_length trs (i - atr_period + 1) (i + 1)
                    ltac:(lia) ltac:(lia) ltac:(lia)) as Hl.
      rewrite E in Hl. cbn in Hl. lia.
    - apply Forall_forall. intros x Hx. apply py_slice_incl in Hx.
      exact (proj1 (Forall_forall _ _) Hall x Hx). }
  assert (Hcount : length atr_values
                   = Z.to_nat (Z.of_nat (length trs) - (atr_period - 1))).
  { subst atr_values. unfold z_range. rewrite !length_map, length_seq.
    reflexivity. }
  destruct (Nat.eqb_spec (length atr_values) 0) as [E|_]; [lia|].
  destruct (Z.leb_spec lookback_period (Z.of_nat (length atr_values))).
  - apply np_mean_nan_bounds.
    + intros E.
      assert (Hl : length (slice_from atr_values (- lookback_period)) = 0%nat)
        by (rewrite E; reflexivity).
      unfold slice_from in Hl.
      destruct (Z.ltb_spec (- lookback_period) 0);
        rewrite length_skipn in Hl; lia.
    + apply Forall_forall. intros v Hv. apply slice_from_incl in Hv.
      exact (proj1 (Forall_forall _ _) Hvalues v Hv).
  - apply np_mean_nan_bounds; [|exact Hvalues].
    intros E. rewrite E in Hcount. cbn in Hcount. lia.
Qed.

End AverageTrueRangeFacts.

Section AverageTrueRangeClaims.
Import AverageTrueRange.

(** X27: for a period of at least 1 and a non-negative lookback,
    [calculate_atr] is 0 on a series shorter than atr_period + 1 bars, and
    otherwise a number: every window it averages is non-empty, so the mean
    is never NaN.  That number is non-negative, and it is 0 when all true
    ranges of the series are 0. *)
Theorem X27_atr_is_a_nonnegative_number (atr_period lookback_period : Z)
    (df : list Bar) :
  (1 <= atr_period)%Z ->
  (0 <= lookback_period)%Z ->
  ((Z.of_nat (length df) < atr_period + 1)%Z ->
   calculate_atr atr_period lookback_period df = Some 0)
  /\ ((atr_period + 1 <= Z.of_nat (length df))%Z ->
      exists a,
        calculate_atr atr_period lookback_period df = Some a
        /\ 0 <= a
        /\ (Forall (fun x => x == 0) (tr_list df) -> a == 0)).
Proof.
  intros Hp Hlb. split.
  - intros Hshort. unfold calculate_atr.
    destruct (Z.ltb_spec (Z.of_nat (length df)) (atr_period + 1));
      [reflexivity|lia].
  - intros Hlong.
    assert (Hrange : Forall (within 0 (series_max (tr_list df))) (tr_list df)).
    { apply Forall_forall. intros x Hx. split.
      - exact (proj1 (Forall_forall _ _) (tr_list_nonneg df) x Hx).
      - apply series_max_ge. exact Hx. }
    destruct (calculate_atr_bounds atr_period lookback_period df 0
                (series_max (tr_list df)) Hp Hlb Hlong Hrange)
      as [a [Ha [Hnonneg _]]].
    exists a. split; [exact Ha|]. split; [exact Hnonneg|].
    intros Hall.
    assert (Hzero : Forall (within 0 0) (tr_list df)).
    { eapply Forall_impl; [|exact Hall].
      intros x Hx. unfold within. rewrite Hx. split; apply Qle_refl. }
    destruct (calculate_atr_bounds atr_period lookback_period df 0 0
                Hp Hlb Hlong Hzero) as [a' [Ha' [Hlo Hhi]]].
    rewrite Ha in Ha'. injection Ha' as <-. apply Qle_antisym; assumption.
Qed.

(** Forty bars with a range of 2 and no gaps. *)
Lemma X27_atr_witness :
  exists a, calculate_atr 14 20 (repeat wide_bar 40) = Some a /\ 0 <= a.
Proof.
  destruct (proj2 (X27_atr_is_a_nonnegative_number 14 20 (repeat wide_bar 40)
                     ltac:(lia) ltac:(lia)) ltac:(cbn; lia))
    as [a [Ha [Hb _]]].
  exists a. split; [exact Ha|exact Hb].
Defined.

End AverageTrueRangeClaims.

(** ** Smart money concepts: fair value gaps *)

Section FairValueGapClaims.
Import SMCStrategy.

Lemma row_well_formed (df : list Bar) (i : nat) :
  Forall well_formed df -> (i < length df)%nat -> well_formed (row df i).
Proof.
  intros Hall Hi. unfold row.
  exact (proj1 (Forall_forall _ _) Hall _ (nth_In df empty_bar Hi)).
Qed.

(** X28: [identify_fair_value_gaps] returns two series as long as the
    frame; the first and the last bar are never flagged; a bullish flag
    means that the lows of the bar and of its successor are above the high
    of its predecessor, a bearish flag the mirror image; and on bars whose
    low is not above their high no bar is flagged both ways. *)
Theorem X28_fair_value_gaps_exclusive (df : list Bar) (i : nat) :
  let bullish := fst (identify_fair_value_gaps df) in
  let bearish := snd (identify_fair_value_gaps df) in
  length bullish = length df
  /\ length bearish = length df
  /\ (i = 0%nat \/ (length df <= i + 1)%nat ->
      nth i bullish false = false /\ nth i bearish false = false)
  /\ (nth i bullish false = true ->
      bar_high (row df (i - 1)) < bar_low (row df i)
      /\ bar_high (row df (i - 1)) < bar_low (row df (i + 1)))
  /\ (nth i bearish false = true ->
      bar_high (row df i) < bar_low (row df (i - 1))
      /\ bar_high (row df (i + 1)) < bar_low (row df (i - 1)))
  /\ (Forall well_formed df ->
      nth i bullish false = true -> nth i bearish false = false).
Proof.
  cbv zeta. unfold identify_fair_value_gaps. cbn [fst snd].
  rewrite !length_map, !length_seq.
  split; [reflexivity|]. split; [reflexivity|].
  destruct (Nat.lt_ge_cases i (length df)) as [Hi|Hi].
  2:{ rewrite !nth_overflow by (rewrite length_map, length_seq; exact Hi).
      repeat split; try reflexivity; discriminate. }
  assert (Hnth : forall (f : nat -> bool),
            nth i (map f (seq 0 (length df))) false = f i).
  { intros f. rewrite (nth_indep _ false (f 0%nat))
      by (rewrite length_map, length_seq; exact Hi).
    rewrite map_nth, seq_nth by exact Hi. reflexivity. }
  rewrite !Hnth. unfold gap_flags. cbn [fst snd].
  destruct (Nat.leb_spec 1 i) as [H1|H1];
    destruct (Nat.ltb_spec (i + 1) (length df)) as [H2|H2]; cbn [andb];
    try (repeat split; try reflexivity; try discriminate; intros [H|H]; lia).
  split; [intros [H|H]; lia|].
  split.
  { intros H. apply andb_true_iff in H. destruct H as [Ha Hb].
    apply Qltb_true in Ha, Hb. split; assumption. }
  split.
  { intros H. apply andb_true_iff in H. destruct H as [Ha Hb].
    apply Qltb_true in Ha, Hb. split; assumption. }
  intros Hall H. apply andb_true_iff in H. destruct H as [_ Hb].
  apply Qltb_true in Hb.
  pose proof (row_well_formed df (i - 1) Hall ltac:(lia)) as Hprev.
  pose proof (row_well_formed df i Hall Hi) as Hcurr.
  unfold well_formed in *.
  apply andb_false_iff. right. apply Qltb_false. lra.
Qed.

Lemma X28_fair_value_gaps_witness :
  nth 1 (fst (identify_fair_value_gaps gap_up)) false = true
  /\ nth 1 (snd (identify_fair_value_gaps gap_up)) false = false.
Proof.
  split; [reflexivity|].
  refine (proj2 (proj2 (proj2 (proj2 (proj2
            (X28_fair_value_gaps_exclusive gap_up 1))))) _ eq_refl).
  repeat constructor; unfold well_formed; cbn; discriminate.
Defined.

End FairValueGapClaims.


(** * Properties over binary64 *)

(** ** The order of float comparisons *)

Section Binary64Order.
Import Binary64 Binary64Statements.
Local Open Scope float_scope.

Lemma SFcompare_key (x y : spec_float) :
  match sf_key x, sf_key y with
  | Some a, Some b =>
      (SFcompare x y = Some Lt /\ key_lt a b)
      \/ (SFcompare x y = Some Eq /\ a = b)
      \/ (SFcompare x y = Some Gt /\ key_lt b a)
  | _, _ => SFcompare x y = None
  end.
Proof.
  destruct x as [sx|sx| |sx mx ex], y as [sy|sy| |sy my ey];
    try destruct sx; try destruct sy; cbn [sf_key SFcompare key_lt];
    try reflexivity;
    try (left; split; [reflexivity|lia]);
    try (right; left; split; reflexivity);
    try (right; right; split; [reflexivity|lia]).
  - change (Pos.compare_cont Eq mx my) with (Pos.compare mx my).
    destruct (Z.compare_spec ex ey) as [He|He|He].
    + destruct (Pos.compare_spec mx my) as [Hm|Hm|Hm]; cbn [CompOpp].
      * right. left. split; [reflexivity|]. subst. reflexivity.
      * right. right. split; [reflexivity|]. lia.
      * left. split; [reflexivity|]. lia.
    + right. right. split; [reflexivity|]. lia.
    + left. split; [reflexivity|]. lia.
  - change (Pos.compare_cont Eq mx my) with (Pos.compare mx my).
    destruct (Z.compare_spec ex ey) as [He|He|He].
    + destruct (Pos.compare_spec mx my) as [Hm|Hm|Hm].
      * right. left. split; [reflexivity|]. subst. reflexivity.
      * left. split; [reflexivity|]. lia.
      * right. right. split; [reflexivity|]. lia.
    + left. split; [reflexivity|]. lia.
    + right. right. split; [reflexivity|]. lia.
Qed.

Lemma key_lt_irrefl (a : Z * Z * Z) : ~ key_lt a a.
Proof. destruct a as [[a1 a2] a3]. cbn. lia. Qed.

Lemma key_lt_asym (a b : Z * Z * Z) : key_lt a b -> ~ key_lt b a.
Proof. destruct a as [[a1 a2] a3], b as [[b1 b2] b3]. cbn. lia. Qed.

Lemma key_lt_trans (a b c : Z * Z * Z) : key_lt a b -> key_lt b c -> key_lt a c.
Proof.
  destruct a as [[a1 a2] a3], b as [[b1 b2] b3], c as [[c1 c2] c3]. cbn. lia.
Qed.

Lemma key_total (a b : Z * Z * Z) : key_lt a b \/ a = b \/ key_lt b a.
Proof.
  destruct a as [[a1 a2] a3], b as [[b1 b2] b3]. cbn.
  destruct (Z.lt_trichotomy a1 b1) as [H|[H|H]]; [lia| |lia].
  destruct (Z.lt_trichotomy a2 b2) as [H2|[H2|H2]]; [lia| |lia].
  destruct (Z.lt_trichotomy a3 b3) as [H3|[H3|H3]]; [lia| |lia].
  right. left. congruence.
Qed.

(** The three comparisons of floats in terms of the keys. *)
Lemma ltb_key (x y : float) :
  (x <? y) = true
  <-> exists a b, float_key x = Some a /\ float_key y = Some b /\ key_lt a b.
Proof.
  rewrite FloatAxioms.ltb_spec. unfold SFltb, float_key.
  pose proof (SFcompare_key (Prim2SF x) (Prim2SF y)) as H.
  destruct (sf_key (Prim2SF x)) as [a|], (sf_key (Prim2SF y)) as [b|];
    try (rewrite H; split; [discriminate|intros [? [? [? [? _]]]]; discriminate]).
  destruct H as [[-> H]|[[-> H]|[-> H]]].
  - split; [intros _; exists a, b; auto|reflexivity].
  - split; [discriminate|]. intros [a' [b' [Ea [Eb Hlt]]]].
    injection Ea as <-. injection Eb as <-. subst b.
    exfalso. exact (key_lt_irrefl a Hlt).
  - split; [discriminate|]. intros [a' [b' [Ea [Eb Hlt]]]].
    injection Ea as <-. injection Eb as <-.
    exfalso. exact (key_lt_asym _ _ H Hlt).
Qed.

Lemma leb_key (x y : float) :
  (x <=? y) = true
  <-> exists a b, float_key x = Some a /\ float_key y = Some b
                  /\ (key_lt a b \/ a = b).
Proof.
  rewrite FloatAxioms.leb_spec. unfold SFleb, float_key.
  pose proof (SFcompare_key (Prim2SF x) (Prim2SF y)) as H.
  destruct (sf_key (Prim2SF x)) as [a|], (sf_key (Prim2SF y)) as [b|];
    try (rewrite H; split; [discriminate|intros [? [? [? [? _]]]]; discriminate]).
  destruct H as [[-> H]|[[-> H]|[-> H]]].
  - split; [intros _; exists a, b; auto|reflexivity].
  - split; [intros _; exists a, b; auto|reflexivity].
  - split; [discriminate|]. intros [a' [b' [Ea [Eb Hle]]]].
    injection Ea as <-. injection Eb as <-. exfalso.
    destruct Hle as [Hlt| ->].
    + exact (key_lt_asym _ _ H Hlt).
    + exact (key_lt_irrefl _ H).
Qed.

Lemma eqb_key (x y : float) :
  (x =? y) = true
  <-> exists a, float_key x = Some a /\ float_key y = Some a.
Proof.
  rewrite FloatAxioms.eqb_spec. unfold SFeqb, float_key.
  pose proof (SFcompare_key (Prim2SF x) (Prim2SF y)) as H.
  destruct (sf_key (Prim2SF x)) as [a|], (sf_key (Prim2SF y)) as [b|];
    try (rewrite H; split; [discriminate|intros [? [? ?]]; discriminate]).
  destruct H as [[-> H]|[[-> H]|[-> H]]].
  - split; [discriminate|]. intros [a' [Ea Eb]].
    injection Ea as <-. injection Eb as <-.
    exfalso. exact (key_lt_irrefl _ H).
  - subst b. split; [intros _; exists a; auto|reflexivity].
  - split; [discriminate|]. intros [a' [Ea Eb]].
    injection Ea as <-. injection Eb as <-.
    exfalso. exact (key_lt_irrefl _ H).
Qed.

Lemma number_key (x : float) :
  PrimFloat.is_nan x = false <-> exists a, float_key x = Some a.
Proof.
  unfold PrimFloat.is_nan. rewrite negb_false_iff, eqb_key.
  split; [intros [a [H _]]; exists a; exact H|intros [a H]; exists a; auto].
Qed.

End Binary64Order.

Section Binary64OrderFacts.
Import Binary64 Binary64Statements.
Local Open Scope float_scope.

Ltac key_facts :=
  repeat match goal with
  | H : (_ <? _) = true |- _ =>
      apply ltb_key in H; destruct H as [? [? [? [? ?]]]]
  | H : (_ <=? _) = true |- _ =>
      apply leb_key in H; destruct H as [? [? [? [? ?]]]]
  | H : (_ =? _) = true |- _ =>
      apply eqb_key in H; destruct H as [? [? ?]]
  | H : PrimFloat.is_nan _ = false |- _ =>
      apply number_key in H; destruct H as [? ?]
  | H : PrimFloat.is_zero _ = true |- _ =>
      unfold PrimFloat.is_zero in H
  end;
  repeat match goal with
  | H1 : float_key ?x = Some ?a, H2 : float_key ?x = Some ?b |- _ =>
      rewrite H1 in H2; injection H2 as ?; subst
  end.

Lemma ltb_irrefl (x : float) : (x <? x) = false.
Proof.
  destruct (x <? x) eqn:E; [|reflexivity]. key_facts.
  exfalso. eapply key_lt_irrefl. eassumption.
Qed.

Lemma ltb_asym (x y : float) : (x <? y) = true -> (y <? x) = false.
Proof.
  intros H. destruct (y <? x) eqn:E; [|reflexivity]. key_facts.
  exfalso. eapply key_lt_asym; eassumption.
Qed.

Lemma ltb_trans (x y z : float) :
  (x <? y) = true -> (y <? z) = true -> (x <? z) = true.
Proof.
  intros H1 H2. key_facts. apply ltb_key.
  eexists. eexists. split; [eassumption|]. split; [eassumption|].
  eapply key_lt_trans; eassumption.
Qed.

Lemma ltb_leb (x y : float) : (x <? y) = true -> (x <=? y) = true.
Proof.
  intros H. key_facts. apply leb_key.
  eexists. eexists. split; [eassumption|]. split; [eassumption|]. auto.
Qed.

Lemma leb_trans (x y z : float) :
  (x <=? y) = true -> (y <=? z) = true -> (x <=? z) = true.
Proof.
  intros H1 H2. key_facts. apply leb_key.
  eexists. eexists. split; [eassumption|]. split; [eassumption|].
  repeat match goal with H : _ \/ _ |- _ => destruct H end; subst; auto.
  left. eapply key_lt_trans; eassumption.
Qed.

Lemma leb_refl (x : float) : PrimFloat.is_nan x = false -> (x <=? x) = true.
Proof.
  intros H. key_facts. apply leb_key.
  eexists. eexists. split; [eassumption|]. split; [eassumption|]. auto.
Qed.

(** On numbers, what is not smaller is at least as large. *)
Lemma not_ltb_leb (x y : float) :
  PrimFloat.is_nan x = false -> PrimFloat.is_nan y = false ->
  (x <? y) = false -> (y <=? x) = true.
Proof.
  intros Hx Hy Hlt. apply number_key in Hx, Hy.
  destruct Hx as [a Ha], Hy as [b Hb]. apply leb_key.
  exists b, a. split; [exact Hb|]. split; [exact Ha|].
  destruct (key_total a b) as [H|[H|H]]; auto.
  exfalso. assert (E : (x <? y) = true) by (apply ltb_key; eauto).
  congruence.
Qed.

Lemma leb_number (x y : float) :
  (x <=? y) = true ->
  PrimFloat.is_nan x = false /\ PrimFloat.is_nan y = false.
Proof.
  intros H. key_facts. split; apply number_key; eauto.
Qed.

(** Two floats that both equal a third are not strictly ordered. *)
Lemma eqb_not_ltb (x y q : float) :
  (x =? q) = true -> (y =? q) = true -> (x <? y) = false.
Proof.
  intros Hx Hy. destruct (x <? y) eqn:E; [|reflexivity]. key_facts.
  exfalso. eapply key_lt_irrefl. eassumption.
Qed.

(** What lies above a positive float is not zero. *)
Lemma above_positive_nonzero (v x : float) :
  (0 <? v) = true -> (v <? x) = true -> PrimFloat.is_zero x = false.
Proof.
  intros Hv Hx. pose proof (ltb_trans _ _ _ Hv Hx) as H.
  unfold PrimFloat.is_zero. destruct (x =? zero) eqn:E; [|reflexivity].
  change zero with 0%float in E.
  assert (Hrefl : (0 =? 0) = true) by reflexivity.
  pose proof (eqb_not_ltb 0 x 0 Hrefl E). congruence.
Qed.

Lemma positive_nonzero (v : float) :
  (0 <? v) = true -> PrimFloat.is_zero v = false.
Proof.
  intros Hv. unfold PrimFloat.is_zero. destruct (v =? zero) eqn:E; [|reflexivity].
  change zero with 0%float in E.
  assert (Hrefl : (0 =? 0) = true) by reflexivity.
  pose proof (eqb_not_ltb 0 v 0 Hrefl E). congruence.
Qed.

End Binary64OrderFacts.

(** ** Rounding to an integer *)

Section Binary64Rounding.
Import Binary64 Binary64Statements.

(** [round_half_even] is within one half of the value it rounds. *)
Lemma round_half_even_close (m : positive) (e : Z) :
  Qabs (inject_Z (Zpos m) * Qpower 2 e - inject_Z (round_half_even m e))
  <= 1 # 2.
Proof.
  destruct e as [|p|p]; cbn [round_half_even].
  - cbn [Qpower]. setoid_replace (inject_Z (Zpos m) * 1 - inject_Z (Zpos m))
      with 0 by ring. discriminate.
  - rewrite inject_Z_mult.
    rewrite (Zpower_Qpower 2 (Zpos p)) by lia.
    setoid_replace (inject_Z (Zpos m) * inject_Z 2 ^ Zpos p
                    - inject_Z (Zpos m) * inject_Z 2 ^ Zpos p)
      with 0 by ring.
    discriminate.
  - set (d := (2 ^ Zpos p)%Z).
    assert (Hd : (0 < d)%Z) by (subst d; apply Z.pow_pos_nonneg; lia).
    assert (Hpow : Qpower 2 (Zneg p) == / inject_Z d).
    { change (Zneg p) with (- Zpos p)%Z. rewrite Qpower_opp.
      subst d. rewrite (Zpower_Qpower 2 (Zpos p)) by lia. reflexivity. }
    rewrite Hpow.
    pose proof (Z.div_mod (Zpos m) d ltac:(lia)) as Hdm.
    pose proof (Z.mod_pos_bound (Zpos m) d Hd) as Hr.
    set (q := (Zpos m / d)%Z) in *. set (r := (Zpos m mod d)%Z) in *.
    clearbody q r d. clear Hpow.
    generalize dependent (Zpos m). intros M Hdm.
    assert (HdQ : 0 < inject_Z d) by (unfold Qlt; cbn; lia).
    assert (Hrange : forall k : Z,
              (Z.abs (2 * (d * q + r) - 2 * k * d) <= d)%Z ->
              Qabs (inject_Z M * / inject_Z d - inject_Z k) <= 1 # 2).
    { intros k Hk. apply Qabs_Qle_condition.
      assert (E : inject_Z M * / inject_Z d - inject_Z k
                  == (inject_Z M - inject_Z k * inject_Z d) / inject_Z d).
      { field. intros Hz. rewrite Hz in HdQ. discriminate. }
      rewrite E. subst M.
      split.
      - apply Qle_shift_div_l; [exact HdQ|].
        unfold Qle, Qmult, Qminus, Qplus, Qopp, inject_Z. cbn [Qnum Qden Pos.mul]. nia.
      - apply Qle_shift_div_r; [exact HdQ|].
        unfold Qle, Qmult, Qminus, Qplus, Qopp, inject_Z. cbn [Qnum Qden Pos.mul]. nia. }
    destruct (Z.compare_spec (2 * r) d) as [Hc|Hc|Hc].
    + destruct (Z.even q); apply Hrange; lia.
    + apply Hrange. lia.
    + apply Hrange. lia.
Qed.

(** [round] raises exactly on the floats without a value, the infinities
    and NaN. *)
Lemma py_round_raises (x : float) :
  py_round x = Raised <-> float_value x = None.
Proof.
  unfold py_round, float_value.
  destruct (Prim2SF x); split; intros H; try discriminate; reflexivity.
Qed.

(** Otherwise its result is an integer nearest to the float's value. *)
Lemma py_round_nearest (x : float) (k : Z) :
  py_round x = Returned k ->
  exists v, float_value x = Some v /\ Qabs (v - inject_Z k) <= 1 # 2.
Proof.
  unfold py_round, float_value.
  destruct (Prim2SF x) as [s|s| |s m e]; try discriminate.
  - intros H. injection H as <-. exists 0. split; [reflexivity|discriminate].
  - intros H. injection H as <-. eexists. split; [reflexivity|].
    pose proof (round_half_even_close m e) as Hclose.
    destruct s; [|exact Hclose].
    rewrite inject_Z_opp.
    setoid_replace (- inject_Z (Zpos m) * Qpower 2 e
                    - - inject_Z (round_half_even m e))
      with (- (inject_Z (Zpos m) * Qpower 2 e
               - inject_Z (round_half_even m e))) by ring.
    rewrite Qabs_opp. exact Hclose.
Qed.

End Binary64Rounding.

(** ** Position size in binary64 *)

Section Binary64PositionSize.
Import Binary64 Binary64.RiskManager Binary64Statements.
Local Open Scope float_scope.

(** Every missing-data branch of [calculate_position_size] yields 0.0. *)
Lemma position_size_missing_data (self : t) (mt5 : MT5)
    (symbol : string) (stop_loss_pips : float) (risk_amount : option float)
    (volatility_multiplier : float) :
  symbol_select mt5 symbol = false
  \/ symbol_info mt5 symbol = None
  \/ symbol_info_tick mt5 symbol = None
  \/ (exists info, symbol_info mt5 symbol = Some info
                   /\ PrimFloat.is_zero (pips_to_price_diff info stop_loss_pips)
                      = true) ->
  calculate_position_size self mt5 symbol stop_loss_pips risk_amount
    volatility_multiplier = 0.
Proof.
  intros H. unfold calculate_position_size, calculate_position_size_body.
  destruct (symbol_select mt5 symbol) eqn:Hsel; [|reflexivity]. cbn [negb].
  destruct (symbol_info mt5 symbol) as [info|] eqn:Hinfo; [|reflexivity].
  destruct (symbol_info_tick mt5 symbol) as [tick|] eqn:Htick; [|reflexivity].
  destruct H as [H|[H|[H|[info' [Hi Hpd]]]]]; try discriminate.
  injection Hi as <-.
  destruct (py_div _ volatility_multiplier); [|reflexivity].
  cbn [bind_outcome]. rewrite Hpd. reflexivity.
Qed.

(** With the data present and a price difference that is not zero, the
    body raises on a zero divisor and otherwise rounds the step count and
    clamps. *)
Lemma position_size_paths (self : t) (mt5 : MT5)
    (symbol : string) (stop_loss_pips : float) (risk_amount : option float)
    (volatility_multiplier : float) (info : SymbolInfo) (tick : Tick) :
  symbol_select mt5 symbol = true ->
  symbol_info mt5 symbol = Some info ->
  symbol_info_tick mt5 symbol = Some tick ->
  PrimFloat.is_zero (pips_to_price_diff info stop_loss_pips) = false ->
  calculate_position_size_body self mt5 symbol stop_loss_pips risk_amount
    volatility_multiplier
  = if zero_divisor volatility_multiplier info stop_loss_pips then Raised
    else
      (rounded <- py_round
                    (step_count (effective_risk_amount self mt5 risk_amount)
                       volatility_multiplier info stop_loss_pips) ;;
       rounded_f <- py_float rounded ;;
       Returned (py_max (volume_min info)
                   (py_min (rounded_f * volume_step info)
                      (volume_max info))))%outcome.
Proof.
  intros Hsel Hinfo Htick Hpd.
  unfold calculate_position_size_body.
  rewrite Hsel, Hinfo, Htick. cbn [negb].
  unfold zero_divisor, step_count, raw_position_size, per_lot_loss,
    effective_risk_amount, py_div.
  destruct (PrimFloat.is_zero volatility_multiplier); [reflexivity|].
  cbn [bind_outcome orb]. rewrite Hpd.
  destruct (PrimFloat.is_zero (trade_tick_size info)); [reflexivity|].
  cbn [bind_outcome orb].
  destruct (PrimFloat.is_zero
              (pips_to_price_diff info stop_loss_pips * trade_tick_value info
               / trade_tick_size info)); [reflexivity|].
  cbn [bind_outcome orb].
  destruct (PrimFloat.is_zero (volume_step info)); reflexivity.
Qed.

(** The clamp [max(min_lot, min(size, max_lot))], case by case. *)
Lemma float_clamp_cases (min_lot max_lot size : float) :
  let clamped := py_max min_lot (py_min size max_lot) in
  (clamped = min_lot \/ clamped = max_lot \/ clamped = size)
  /\ (clamped = min_lot \/ (min_lot <? clamped) = true)
  /\ ((max_lot <? min_lot) = false -> (max_lot <? clamped) = false)
  /\ ((min_lot <? size) = true -> (max_lot <? size) = false ->
      clamped = size).
Proof.
  cbv zeta. unfold py_max, py_min.
  destruct (max_lot <? size) eqn:Emax.
  - destruct (min_lot <? max_lot) eqn:Emin.
    + repeat split; auto. intros _. apply ltb_irrefl. discriminate.
    + repeat split; auto. discriminate.
  - destruct (min_lot <? size) eqn:Emin.
    + repeat split; auto.
    + repeat split; auto. discriminate.
Qed.

End Binary64PositionSize.

Section Binary64PositionSizeClaims.
Import Binary64 Binary64.RiskManager Binary64Statements.
Local Open Scope float_scope.

(** Balance 10625 with the default two percent and a stop of 50 pips: the
    float step count lies just above 42.5 and rounds up. *)
Example rounding_up_size :
  step_count (10625 * 0.02) 1 eurusd_info 50 = 42.500000000000007
  /\ calculate_position_size default funded_terminal "EURUSD" 50 None 1
     = 0.43.
Proof. split; vm_compute; reflexivity. Qed.

(** A risk amount of 1e300 over a multiplier of 1e-10 overflows: the step
    count is infinite, [round] raises and the handler returns 0.0. *)
Example overflowing_size :
  zero_divisor 1e-10 eurusd_info 50 = false
  /\ float_value (step_count 1e300 1e-10 eurusd_info 50) = None
  /\ calculate_position_size default funded_terminal "EURUSD" 50
       (Some 1e300) 1e-10 = 0.
Proof. repeat split; vm_compute; reflexivity. Qed.

(** C4 (claim as stated fails): the symbol is selectable, its metadata
    and tick are present and the price difference of the stop is not zero,
    yet the returned size is 0.0, below [volume_min] and so outside
    [volume_min, volume_max]: the terminal reports a tick value of 0, the
    division raises and the handler returns 0.0. *)
Lemma C4_zero_tick_value_counterexample :
  let mt5 := no_tick_value_terminal in
  symbol_select mt5 "EURUSD" = true
  /\ symbol_info mt5 "EURUSD" = Some eurusd_info_no_tick_value
  /\ symbol_info_tick mt5 "EURUSD" = Some quote
  /\ PrimFloat.is_zero (pips_to_price_diff eurusd_info_no_tick_value 50)
     = false
  /\ calculate_position_size default mt5 "EURUSD" 50 None 1 = 0
  /\ (calculate_position_size default mt5 "EURUSD" 50 None 1
      <? volume_min eurusd_info_no_tick_value) = true.
Proof. cbv zeta. repeat split; vm_compute; reflexivity. Qed.

(** C4 (amended): [calculate_position_size] returns 0.0 when market data
    is missing (symbol not selectable, no symbol info, no tick, or a price
    difference equal to zero) and also when its arithmetic raises: a
    divisor is zero (the volatility multiplier, the tick size, the loss per
    lot or the lot step), [round] is applied to an infinite or NaN step
    count, or the rounded count does not convert back to a float.  In every
    other case the result is the clamp of [k * lot_step], the float product
    of the lot step with the integer [k] nearest to the float step count
    (ties to even): it is [volume_min], [volume_max] or that product, never
    below [volume_min], not above [volume_max] when the two bounds are
    ordered, and the product itself when that lies above [volume_min] and
    not above [volume_max]. *)
Theorem C4_position_size_rounded_and_clamped (self : t) (mt5 : MT5)
    (symbol : string) (stop_loss_pips : float) (risk_amount : option float)
    (volatility_multiplier : float) :
  let size :=
    calculate_position_size self mt5 symbol stop_loss_pips risk_amount
      volatility_multiplier in
  (symbol_select mt5 symbol = false
   \/ symbol_info mt5 symbol = None
   \/ symbol_info_tick mt5 symbol = None
   \/ (exists info, symbol_info mt5 symbol = Some info
                    /\ PrimFloat.is_zero
                         (pips_to_price_diff info stop_loss_pips) = true) ->
   size = 0)
  /\ (forall info tick,
        symbol_select mt5 symbol = true ->
        symbol_info mt5 symbol = Some info ->
        symbol_info_tick mt5 symbol = Some tick ->
        PrimFloat.is_zero (pips_to_price_diff info stop_loss_pips) = false ->
        let steps :=
          step_count (effective_risk_amount self mt5 risk_amount)
            volatility_multiplier info stop_loss_pips in
        (zero_divisor volatility_multiplier info stop_loss_pips = true ->
         size = 0)
        /\ (zero_divisor volatility_multiplier info stop_loss_pips = false ->
            (float_value steps = None -> size = 0)
            /\ forall k,
                 py_round steps = Returned k ->
                 (exists v, float_value steps = Some v
                            /\ (Qabs (v - inject_Z k) <= 1 # 2)%Q)
                 /\ (py_float k = Raised -> size = 0)
                 /\ forall k_f,
                      py_float k = Returned k_f ->
                      let rounded := k_f * volume_step info in
                      size = py_max (volume_min info)
                               (py_min rounded (volume_max info))
                      /\ (size = volume_min info \/ size = volume_max info
                          \/ size = rounded)
                      /\ (size = volume_min info
                          \/ (volume_min info <? size) = true)
                      /\ ((volume_max info <? volume_min info) = false ->
                          (volume_max info <? size) = false)
                      /\ ((volume_min info <? rounded) = true ->
                          (volume_max info <? rounded) = false ->
                          size = rounded))).
Proof.
  intros size. split.
  - apply position_size_missing_data.
  - intros info tick Hsel Hinfo Htick Hpd steps.
    pose proof (position_size_paths self mt5 symbol stop_loss_pips risk_amount
                  volatility_multiplier info tick Hsel Hinfo Htick Hpd)
      as Hbody.
    fold steps in Hbody. subst size. unfold calculate_position_size.
    rewrite Hbody. split.
    + intros ->. reflexivity.
    + intros ->. split.
      * intros Hnone. apply py_round_raises in Hnone. rewrite Hnone.
        reflexivity.
      * intros k Hk. rewrite Hk. cbn [bind_outcome].
        split; [exact (py_round_nearest steps k Hk)|].
        split; [intros ->; reflexivity|].
        intros k_f ->. cbn [bind_outcome].
        split; [reflexivity|].
        exact (float_clamp_cases (volume_min info) (volume_max info)
                 (k_f * volume_step info)).
Qed.

(** An unknown symbol gives 0; at balance 10625 the size is the rounded
    0.43 lots, within the broker's bounds. *)
Lemma C4_position_size_witness :
  let mt5 := funded_terminal in
  let size := calculate_position_size default mt5 "EURUSD" 50 None 1 in
  calculate_position_size default mt5 "GBPUSD" 50 None 1 = 0
  /\ size = 43 * 0.01
  /\ (volume_max eurusd_info <? size) = false.
Proof.
  cbv zeta.
  pose proof (C4_position_size_rounded_and_clamped default
                funded_terminal "GBPUSD" 50 None 1) as Hmissing.
  pose proof (C4_position_size_rounded_and_clamped default
                funded_terminal "EURUSD" 50 None 1) as Hpresent.
  cbv zeta in Hmissing, Hpresent.
  destruct Hmissing as [Hmissing _].
  destruct Hpresent as [_ Hpresent].
  split; [apply Hmissing; left; reflexivity|].
  destruct (Hpresent eurusd_info quote eq_refl eq_refl eq_refl eq_refl)
    as [_ Hrounded].
  destruct (Hrounded eq_refl) as [_ Hk].
  destruct (Hk 43%Z eq_refl) as [_ [_ Hsize]].
  destruct (Hsize 43 eq_refl) as [_ [_ [_ [Hmax Hwithin]]]].
  split; [apply Hwithin; reflexivity|apply Hmax; reflexivity].
Defined.

(** C9 (claim as stated fails): metadata and tick are present and the
    price difference is not zero, but the result is 0.0 and not at least
    [volume_min]: a tick value of 0 makes the division raise. *)
Lemma C9_zero_returned_with_data_counterexample :
  let mt5 := gold_no_tick_value_terminal in
  symbol_select mt5 "XAUUSD" = true
  /\ symbol_info mt5 "XAUUSD" = Some xauusd_info_no_tick_value
  /\ symbol_info_tick mt5 "XAUUSD" = Some quote
  /\ PrimFloat.is_zero (pips_to_price_diff xauusd_info_no_tick_value 50)
     = false
  /\ calculate_position_size default mt5 "XAUUSD" 50 (Some 200) 1 = 0
  /\ (volume_min xauusd_info_no_tick_value
      <=? calculate_position_size default mt5 "XAUUSD" 50 (Some 200) 1)
     = false.
Proof. cbv zeta. repeat split; vm_compute; reflexivity. Qed.

(** C9 (amended): with metadata and tick available and a price difference
    that is not zero, [calculate_position_size] returns 0.0 through its
    exception handler when a divisor is zero (the volatility multiplier,
    the tick size, the loss per lot or the lot step), when the step count
    is infinite or NaN, so that [round] raises, or when the rounded count
    does not convert back to a float.  On every other path the result is
    [volume_min] or greater than [volume_min]: a raw size that rounds to
    zero lots is raised to the broker minimum, so with a positive
    [volume_min] the result is not zero, however small the risk budget. *)
Theorem C9_size_at_least_volume_min (self : t) (mt5 : MT5)
    (symbol : string) (stop_loss_pips : float) (risk_amount : option float)
    (volatility_multiplier : float) (info : SymbolInfo) (tick : Tick) :
  symbol_select mt5 symbol = true ->
  symbol_info mt5 symbol = Some info ->
  symbol_info_tick mt5 symbol = Some tick ->
  PrimFloat.is_zero (pips_to_price_diff info stop_loss_pips) = false ->
  let size :=
    calculate_position_size self mt5 symbol stop_loss_pips risk_amount
      volatility_multiplier in
  let steps :=
    step_count (effective_risk_amount self mt5 risk_amount)
      volatility_multiplier info stop_loss_pips in
  let raises :=
    zero_divisor volatility_multiplier info stop_loss_pips = true
    \/ float_value steps = None
    \/ exists k, py_round steps = Returned k /\ py_float k = Raised in
  (raises -> size = 0)
  /\ (~ raises ->
      (size = volume_min info \/ (volume_min info <? size) = true)
      /\ ((0 <? volume_min info) = true -> PrimFloat.is_zero size = false)).
Proof.
  intros Hsel Hinfo Htick Hpd size steps raises.
  pose proof (position_size_paths self mt5 symbol stop_loss_pips risk_amount
                volatility_multiplier info tick Hsel Hinfo Htick Hpd)
    as Hbody.
  fold steps in Hbody. subst size raises. unfold calculate_position_size.
  rewrite Hbody. split.
  - intros [Hz|[Hnone|[k [Hk Hf]]]].
    + rewrite Hz. reflexivity.
    + apply py_round_raises in Hnone.
      destruct (zero_divisor _ _ _); [reflexivity|].
      rewrite Hnone. reflexivity.
    + destruct (zero_divisor _ _ _); [reflexivity|].
      rewrite Hk. cbn [bind_outcome]. rewrite Hf. reflexivity.
  - intros Hnot.
    destruct (zero_divisor volatility_multiplier info stop_loss_pips) eqn:Hz.
    { exfalso. apply Hnot. left. reflexivity. }
    destruct (py_round steps) as [k|] eqn:Hk.
    2:{ exfalso. apply Hnot. right. left. apply py_round_raises. exact Hk. }
    cbn [bind_outcome].
    destruct (py_float k) as [k_f|] eqn:Hf.
    2:{ exfalso. apply Hnot. right. right. exists k. auto. }
    cbn [bind_outcome].
    destruct (float_clamp_cases (volume_min info) (volume_max info)
                (k_f * volume_step info)) as [_ [Hmin _]].
    cbv zeta in Hmin. split; [exact Hmin|].
    intros Hpos. destruct Hmin as [-> |Habove].
    + apply positive_nonzero. exact Hpos.
    + exact (above_positive_nonzero _ _ Hpos Habove).
Qed.

(** A one-cent budget on a funded account still yields the minimum lot. *)
Lemma C9_size_at_least_volume_min_witness :
  PrimFloat.is_zero
    (calculate_position_size default funded_terminal "EURUSD" 50
       (Some 0.01) 1) = false.
Proof.
  refine (proj2 (proj2
    (C9_size_at_least_volume_min default funded_terminal "EURUSD" 50
       (Some 0.01) 1 eurusd_info quote eq_refl eq_refl eq_refl eq_refl) _) _).
  - intros [H|[H|[k [Hk Hf]]]].
    + vm_compute in H. discriminate.
    + vm_compute in H. discriminate.
    + vm_compute in Hk. injection Hk as <-. vm_compute in Hf. discriminate.
  - reflexivity.
Defined.

Example tiny_budget_minimum :
  calculate_position_size default funded_terminal "EURUSD" 50 (Some 0.01) 1
  = volume_min eurusd_info.
Proof. vm_compute. reflexivity. Qed.

End Binary64PositionSizeClaims.

(** ** The sizer and the limit check in binary64 *)

Section Binary64SizerAndCheck.
Import Binary64 Binary64.RiskManager Binary64Statements.
Local Open Scope float_scope.

Variable series_sum : list float -> float.

Example rounding_up_rejected :
  calculate_position_size default rounding_up_terminal "EURUSD" 50 None 1
  = 41 * 0.01
  /\ check_risk_limits series_sum default rounding_up_terminal "EURUSD"
       (41 * 0.01) 50
     = (false, PositionRiskExceeds 2.0236920039486672 2).
Proof. split; vm_compute; reflexivity. Qed.

(** X12: a size returned by [calculate_position_size] is not always
    accepted by [check_risk_limits] on the same account and stop: there is
    a funded account on which the default manager sizes a position (the
    raw size is rounded up to the lot step) and then rejects that very size
    for exceeding the per-symbol limit. *)
Theorem X12_sized_position_can_be_rejected :
  exists (mt5 : MT5) (size percent limit : float),
    (0 <? get_account_balance mt5) = true
    /\ calculate_position_size default mt5 "EURUSD" 50 None 1 = size
    /\ (volume_min eurusd_info <? size) = true
    /\ (size <? volume_max eurusd_info) = true
    /\ check_risk_limits series_sum default mt5 "EURUSD" size 50
       = (false, PositionRiskExceeds percent limit)
    /\ (limit <? percent) = true.
Proof.
  exists rounding_up_terminal, (41 * 0.01), 2.0236920039486672, 2.
  repeat split; vm_compute; reflexivity.
Qed.

End Binary64SizerAndCheck.

(** ** Ranking and selection in binary64 *)

Section Binary64Ranking.
Import Binary64 Binary64.VolatilityAnalyzer Binary64Statements.
Local Open Scope float_scope.

Variable self : VolatilityAnalyzer.t.
Variable mt5 : MT5.
Variable timeframe : Z.

Lemma float_metrics_symbol (s : string) (m : Metrics) :
  calculate_volatility_metrics self mt5 s timeframe = Some m -> symbol m = s.
Proof.
  unfold calculate_volatility_metrics. intros H.
  destruct (negb (symbol_select mt5 s)); [discriminate|].
  destruct (copy_rates_from_pos mt5 s timeframe) as [rates|]; [|discriminate].
  destruct (length rates =? 0)%nat; [discriminate|].
  destruct (Z.of_nat (length rates) <? _)%Z; [discriminate|].
  injection H as <-. reflexivity.
Qed.

Lemma float_collect_from (symbols : list string) (acc : list Metrics) :
  fold_left
    (fun results symbol_arg =>
       match calculate_volatility_metrics self mt5 symbol_arg timeframe with
       | Some metrics => results ++ [metrics]
       | None => results
       end)
    symbols acc
  = acc ++ available_metrics self mt5 symbols timeframe.
Proof.
  revert acc. induction symbols as [|s rest IH]; intros acc; cbn.
  - rewrite app_nil_r. reflexivity.
  - rewrite IH.
    destruct (calculate_volatility_metrics self mt5 s timeframe).
    + rewrite <- app_assoc. reflexivity.
    + reflexivity.
Qed.

Lemma float_collect_available (symbols : list string) :
  collect_metrics self mt5 symbols timeframe
  = available_metrics self mt5 symbols timeframe.
Proof. unfold collect_metrics. apply float_collect_from. Qed.

Lemma float_available_symbols (symbols : list string) :
  map symbol (available_metrics self mt5 symbols timeframe)
  = filter (has_metrics self mt5 timeframe) symbols.
Proof.
  induction symbols as [|s rest IH]; [reflexivity|].
  cbn [available_metrics flat_map filter]. unfold has_metrics at 1.
  fold (available_metrics self mt5 rest timeframe).
  destruct (calculate_volatility_metrics self mt5 s timeframe) as [m|] eqn:E.
  - cbn [app map]. rewrite IH, (float_metrics_symbol s m E). reflexivity.
  - exact IH.
Qed.

Lemma float_insert_perm (m : Metrics) (l : list Metrics) :
  Permutation (insert_by_score m l) (m :: l).
Proof.
  induction l as [|x rest IH]; cbn; [reflexivity|].
  destruct (score m <? score x); [|reflexivity].
  rewrite IH. apply perm_swap.
Qed.

Lemma float_sort_perm (l : list Metrics) :
  Permutation (sort_by_score_reverse l) l.
Proof.
  induction l as [|x rest IH]; cbn; [constructor|].
  rewrite float_insert_perm. constructor. exact IH.
Qed.

(** On scores that are numbers, inserting keeps a ranking descending. *)
Lemma float_insert_sorted (m : Metrics) (l : list Metrics) :
  score_is_number m ->
  Forall score_is_number l ->
  StronglySorted score_ge l -> StronglySorted score_ge (insert_by_score m l).
Proof.
  intros Hm Hnum. induction 1 as [|x rest Hsorted IH Hall]; cbn.
  - constructor; constructor.
  - apply Forall_cons_iff in Hnum. destruct Hnum as [Hx Hrest].
    destruct (score m <? score x) eqn:E.
    + constructor; [exact (IH Hrest)|].
      apply (Permutation_Forall (Permutation_sym (float_insert_perm m rest))).
      constructor; [|exact Hall].
      unfold score_ge. apply ltb_leb. exact E.
    + assert (Hmx : score_ge m x).
      { unfold score_ge. apply not_ltb_leb; assumption. }
      constructor.
      * constructor; assumption.
      * constructor; [exact Hmx|].
        eapply Forall_impl; [|exact Hall].
        intros y Hy. unfold score_ge in *. eapply leb_trans; eassumption.
Qed.

Lemma float_sort_sorted (l : list Metrics) :
  Forall score_is_number l -> StronglySorted score_ge (sort_by_score_reverse l).
Proof.
  induction l as [|x rest IH]; intros Hnum; cbn; [constructor|].
  apply Forall_cons_iff in Hnum. destruct Hnum as [Hx Hrest].
  apply float_insert_sorted; [exact Hx| |exact (IH Hrest)].
  apply (Permutation_Forall (Permutation_sym (float_sort_perm rest))).
  exact Hrest.
Qed.

(** Inserting moves an element only past strictly greater scores, so the
    entries of any one score keep their order. *)
Lemma float_insert_stable (q : float) (m : Metrics) (l : list Metrics) :
  filter (has_score q) (insert_by_score m l) = filter (has_score q) (m :: l).
Proof.
  induction l as [|x rest IH]; [reflexivity|].
  cbn [insert_by_score].
  destruct (score m <? score x) eqn:E; [|reflexivity].
  cbn [filter] in *. rewrite IH.
  unfold has_score.
  destruct (score m =? q) eqn:Em; [|reflexivity].
  destruct (score x =? q) eqn:Ex; [|reflexivity].
  rewrite (eqb_not_ltb _ _ _ Em Ex) in E. discriminate.
Qed.

Lemma float_sort_stable (q : float) (l : list Metrics) :
  filter (has_score q) (sort_by_score_reverse l) = filter (has_score q) l.
Proof.
  induction l as [|x rest IH]; [reflexivity|].
  cbn [sort_by_score_reverse fold_right].
  fold (sort_by_score_reverse rest).
  rewrite float_insert_stable. cbn [filter]. rewrite IH. reflexivity.
Qed.

(** Dropping entries from a ranking keeps its symbols distinct. *)
Lemma float_filtered_distinct (keep : Metrics -> bool) (ranked : list Metrics) :
  NoDup (map symbol ranked) -> NoDup (map symbol (filter keep ranked)).
Proof.
  induction ranked as [|m others IH]; intros Hdistinct; [exact Hdistinct|].
  apply NoDup_cons_iff in Hdistinct. destruct Hdistinct as [Hfresh Hothers].
  cbn [filter]. destruct (keep m); [|exact (IH Hothers)].
  cbn [map]. apply NoDup_cons; [|exact (IH Hothers)].
  intros Hin. apply Hfresh. apply in_map_iff in Hin.
  destruct Hin as [m' [Hm' Hin]]. apply filter_In in Hin.
  apply in_map_iff. exists m'. tauto.
Qed.

End Binary64Ranking.

Section Binary64SelectionClaims.
Import Binary64 Binary64.VolatilityAnalyzer Binary64Statements.
Local Open Scope float_scope.

(** What [l[:n]] keeps. *)
Lemma slice_to_firstn {A} (l : list A) (n : Z) :
  ((0 <= n)%Z ->
   slice_to l n = firstn (Z.to_nat n) l
   /\ length (slice_to l n) = Nat.min (Z.to_nat n) (length l))
  /\ ((n < 0)%Z ->
      slice_to l n = firstn (length l - Z.to_nat (- n)) l
      /\ length (slice_to l n) = (length l - Z.to_nat (- n))%nat).
Proof.
  unfold slice_to. split; intros Hn.
  - destruct (Z.ltb_spec n 0); [lia|].
    split; [reflexivity|apply length_firstn].
  - destruct (Z.ltb_spec n 0); [|lia].
    replace (Z.to_nat (Z.of_nat (length l) + n))
      with (length l - Z.to_nat (- n))%nat by lia.
    split; [reflexivity|]. rewrite length_firstn. lia.
Qed.

(** C7 (claim as stated fails): with max_n = -1 and three of four
    candidates ranked and above the threshold, the slice keeps all but the
    last of them: two symbols, more than max_n. *)
Lemma C7_negative_max_counterexample :
  let selected :=
    select_top_volatile_symbols analyzer three_symbol_terminal
      ["AUDUSD"; "XAUUSD"; "EURUSD"; "GBPUSD"] (-1) 0 TIMEFRAME_H1 in
  selected = ["EURUSD"; "AUDUSD"]
  /\ ~ (Z.of_nat (length selected) <= -1)%Z.
Proof.
  cbv zeta. split; [vm_compute; reflexivity|].
  vm_compute. intros H. apply H. reflexivity.
Qed.

(** C7 (amended): the ranking is a permutation of the metrics of the
    symbols that have them and, when no score is NaN, their stable
    descending sort.  For max_n >= 0 the selection is exactly the first
    max_n symbols of the ranking restricted to score >= min_score (all of
    them when there are fewer), so it has min(max_n, number of passing
    symbols) entries; for a negative max_n it is that list without its
    last -max_n entries.  Every selected symbol has a score >= min_score,
    and distinct input symbols give distinct selected symbols. *)
Theorem C7_selection_is_ranked_prefix (self : VolatilityAnalyzer.t)
    (mt5 : MT5) (symbols : list string) (max_symbols : Z)
    (min_volatility_threshold : float) (timeframe : Z) :
  let available := available_metrics self mt5 symbols timeframe in
  let ranked := rank_symbols_by_volatility self mt5 symbols timeframe in
  let passing :=
    filter (fun r => min_volatility_threshold <=? score r) ranked in
  let selected :=
    select_top_volatile_symbols self mt5 symbols max_symbols
      min_volatility_threshold timeframe in
  map symbol available = filter (has_metrics self mt5 timeframe) symbols
  /\ Permutation ranked available
  /\ (Forall score_is_number available ->
      StronglySorted score_ge ranked
      /\ forall q, filter (has_score q) ranked = filter (has_score q) available)
  /\ ((0 <= max_symbols)%Z ->
      selected = firstn (Z.to_nat max_symbols) (map symbol passing)
      /\ length selected = Nat.min (Z.to_nat max_symbols) (length passing))
  /\ ((max_symbols < 0)%Z ->
      selected
      = firstn (length passing - Z.to_nat (- max_symbols)) (map symbol passing)
      /\ length selected = (length passing - Z.to_nat (- max_symbols))%nat)
  /\ Forall
       (fun s => exists m, In m ranked /\ symbol m = s
                           /\ (min_volatility_threshold <=? score m) = true)
       selected
  /\ (NoDup symbols -> NoDup selected).
Proof.
  intros available ranked passing selected.
  assert (Hperm : Permutation ranked available).
  { subst ranked available. unfold rank_symbols_by_volatility.
    rewrite <- float_collect_available. apply float_sort_perm. }
  assert (Hselected : selected = slice_to (map symbol passing) max_symbols)
    by reflexivity.
  destruct (slice_to_prefix (map symbol passing) max_symbols) as [rest Hrest].
  rewrite <- Hselected in Hrest.
  destruct (slice_to_firstn (map symbol passing) max_symbols)
    as [Hnonneg Hneg].
  rewrite <- Hselected, length_map in Hnonneg, Hneg.
  split; [apply float_available_symbols|].
  split; [exact Hperm|].
  split.
  { intros Hnum. subst ranked available. unfold rank_symbols_by_volatility.
    rewrite float_collect_available. split.
    - apply float_sort_sorted. exact Hnum.
    - intros q. apply float_sort_stable. }
  split; [exact Hnonneg|]. split; [exact Hneg|].
  split.
  { apply Forall_forall. intros s Hs.
    assert (Hin : In s (selected ++ rest)) by (apply in_or_app; auto).
    rewrite <- Hrest in Hin. apply in_map_iff in Hin.
    destruct Hin as [m [Hm Hin]]. apply filter_In in Hin.
    destruct Hin as [Hin Hscore]. exists m. auto. }
  intros Hnodup.
  assert (Hall : NoDup (selected ++ rest)).
  { rewrite <- Hrest. apply float_filtered_distinct.
    apply (Permutation_NoDup (Permutation_map symbol (Permutation_sym Hperm))).
    subst available. rewrite float_available_symbols. apply NoDup_filter.
    exact Hnodup. }
  exact (NoDup_app_remove_r _ _ Hall).
Qed.

(** Four candidates, one of them unknown, two to select: the top two of
    the ranking, with the tie between AUDUSD and GBPUSD kept in input
    order. *)
Lemma C7_selection_witness :
  let symbols := ["AUDUSD"; "XAUUSD"; "EURUSD"; "GBPUSD"] in
  let ranked :=
    rank_symbols_by_volatility analyzer three_symbol_terminal symbols
      TIMEFRAME_H1 in
  let selected :=
    select_top_volatile_symbols analyzer three_symbol_terminal symbols 2 0
      TIMEFRAME_H1 in
  StronglySorted score_ge ranked
  /\ selected = ["EURUSD"; "AUDUSD"]
  /\ NoDup selected.
Proof.
  cbv zeta.
  destruct (C7_selection_is_ranked_prefix analyzer three_symbol_terminal
              ["AUDUSD"; "XAUUSD"; "EURUSD"; "GBPUSD"] 2 0 TIMEFRAME_H1)
    as [_ [_ [Hsorted [Hfirst [_ [_ Hnodup]]]]]].
  split; [|split].
  - apply Hsorted. repeat constructor.
  - rewrite (proj1 (Hfirst ltac:(lia))). vm_compute. reflexivity.
  - apply Hnodup. repeat constructor; cbn; intuition discriminate.
Defined.

Example float_ranking :
  map symbol
    (rank_symbols_by_volatility analyzer three_symbol_terminal
       ["AUDUSD"; "XAUUSD"; "EURUSD"; "GBPUSD"] TIMEFRAME_H1)
  = ["EURUSD"; "AUDUSD"; "GBPUSD"].
Proof. vm_compute. reflexivity. Qed.

End Binary64SelectionClaims.
